(** * tc-project-service: permission tables, application routes,
      Form / PlanConfig revision handlers and the Project model.

    Shallow embedding of
      - src/permissions/constants.js   (module [Permissions])
      - src/app.js                     (module [App])
      - src/routes/form/version/delete.js and the planConfig revision
        create handler kept in the same source file
                                       (modules [Form], [PlanConfig])
      - src/models/project.js          (module [Project])

    The first half of the file holds the definitions, the second half the
    theorems about them. *)

From Stdlib Require Import List Bool Arith ZArith Lia String Ascii DecimalString.
Import ListNotations.
Local Open Scope string_scope.

Set Implicit Arguments.
Set Warnings "-register-all".

(* ================================================================== *)
(** * Part I: definitions                                              *)
(* ================================================================== *)

(* ------------------------------------------------------------------ *)
(** ** src/permissions/constants.js                                     *)
(* ------------------------------------------------------------------ *)

Module Permissions.

(** The members of [USER_ROLE] (imported from '../constants') that
    permissions/constants.js names.  The members are distinct role names. *)
Module USER_ROLE.
Inductive t : Type :=
| TOPCODER_ADMIN
| CONNECT_ADMIN
| MANAGER
| SOLUTION_ARCHITECT
| PROJECT_MANAGER
| PROGRAM_MANAGER
| ACCOUNT_EXECUTIVE
| TOPCODER_ACCOUNT_MANAGER
| BUSINESS_DEVELOPMENT_REPRESENTATIVE
| PRESALES
| COPILOT
| COPILOT_MANAGER
| TOPCODER_USER.

Definition eqb (a b : t) : bool :=
  match a, b with
  | TOPCODER_ADMIN, TOPCODER_ADMIN
  | CONNECT_ADMIN, CONNECT_ADMIN
  | MANAGER, MANAGER
  | SOLUTION_ARCHITECT, SOLUTION_ARCHITECT
  | PROJECT_MANAGER, PROJECT_MANAGER
  | PROGRAM_MANAGER, PROGRAM_MANAGER
  | ACCOUNT_EXECUTIVE, ACCOUNT_EXECUTIVE
  | TOPCODER_ACCOUNT_MANAGER, TOPCODER_ACCOUNT_MANAGER
  | BUSINESS_DEVELOPMENT_REPRESENTATIVE, BUSINESS_DEVELOPMENT_REPRESENTATIVE
  | PRESALES, PRESALES
  | COPILOT, COPILOT
  | COPILOT_MANAGER, COPILOT_MANAGER
  | TOPCODER_USER, TOPCODER_USER => true
  | _, _ => false
  end.
End USER_ROLE.

(** The members of [PROJECT_MEMBER_ROLE] used as keys of the matrix. *)
Module PROJECT_MEMBER_ROLE.
Inductive t : Type :=
| MANAGER
| SOLUTION_ARCHITECT
| PROJECT_MANAGER
| PROGRAM_MANAGER
| ACCOUNT_EXECUTIVE
| ACCOUNT_MANAGER
| COPILOT
| CUSTOMER.

Definition eqb (a b : t) : bool :=
  match a, b with
  | MANAGER, MANAGER
  | SOLUTION_ARCHITECT, SOLUTION_ARCHITECT
  | PROJECT_MANAGER, PROJECT_MANAGER
  | PROGRAM_MANAGER, PROGRAM_MANAGER
  | ACCOUNT_EXECUTIVE, ACCOUNT_EXECUTIVE
  | ACCOUNT_MANAGER, ACCOUNT_MANAGER
  | COPILOT, COPILOT
  | CUSTOMER, CUSTOMER => true
  | _, _ => false
  end.
End PROJECT_MEMBER_ROLE.

(** [const TOPCODER_ROLES_ALL = _.values(USER_ROLE)], as far as this file
    names the members of [USER_ROLE]: a member that only '../constants'
    names would be one more element of the list. *)
Definition TOPCODER_ROLES_ALL : list USER_ROLE.t :=
  [ USER_ROLE.TOPCODER_ADMIN; USER_ROLE.CONNECT_ADMIN; USER_ROLE.MANAGER;
    USER_ROLE.SOLUTION_ARCHITECT; USER_ROLE.PROJECT_MANAGER;
    USER_ROLE.PROGRAM_MANAGER; USER_ROLE.ACCOUNT_EXECUTIVE;
    USER_ROLE.TOPCODER_ACCOUNT_MANAGER;
    USER_ROLE.BUSINESS_DEVELOPMENT_REPRESENTATIVE; USER_ROLE.PRESALES;
    USER_ROLE.COPILOT; USER_ROLE.COPILOT_MANAGER; USER_ROLE.TOPCODER_USER ].

(** [export const PROJECT_TO_TOPCODER_ROLES_MATRIX = { ... }]: an object
    literal, kept as the list of its [key: value] properties in source
    order. *)
Definition PROJECT_TO_TOPCODER_ROLES_MATRIX
  : list (PROJECT_MEMBER_ROLE.t * list USER_ROLE.t) :=
  [ (PROJECT_MEMBER_ROLE.MANAGER,
     [ USER_ROLE.TOPCODER_ADMIN;
       USER_ROLE.CONNECT_ADMIN;
       USER_ROLE.MANAGER ]);
    (PROJECT_MEMBER_ROLE.SOLUTION_ARCHITECT,
     [ USER_ROLE.SOLUTION_ARCHITECT ]);
    (PROJECT_MEMBER_ROLE.PROJECT_MANAGER,
     [ USER_ROLE.PROJECT_MANAGER ]);
    (PROJECT_MEMBER_ROLE.PROGRAM_MANAGER,
     [ USER_ROLE.PROGRAM_MANAGER ]);
    (PROJECT_MEMBER_ROLE.ACCOUNT_EXECUTIVE,
     [ USER_ROLE.ACCOUNT_EXECUTIVE ]);
    (PROJECT_MEMBER_ROLE.ACCOUNT_MANAGER,
     [ USER_ROLE.MANAGER;
       USER_ROLE.TOPCODER_ACCOUNT_MANAGER;
       USER_ROLE.BUSINESS_DEVELOPMENT_REPRESENTATIVE;
       USER_ROLE.PRESALES;
       USER_ROLE.ACCOUNT_EXECUTIVE;
       USER_ROLE.PROGRAM_MANAGER;
       USER_ROLE.SOLUTION_ARCHITECT;
       USER_ROLE.PROJECT_MANAGER ]);
    (PROJECT_MEMBER_ROLE.COPILOT,
     [ USER_ROLE.COPILOT ]);
    (PROJECT_MEMBER_ROLE.CUSTOMER, TOPCODER_ROLES_ALL) ].

(** Property access [PROJECT_TO_TOPCODER_ROLES_MATRIX[projectRole]]
    ([None] stands for [undefined]). *)
Fixpoint get_property (o : list (PROJECT_MEMBER_ROLE.t * list USER_ROLE.t))
         (k : PROJECT_MEMBER_ROLE.t) : option (list USER_ROLE.t) :=
  match o with
  | [] => None
  | (k', v) :: rest =>
      if PROJECT_MEMBER_ROLE.eqb k' k then Some v else get_property rest k
  end.

Record DefaultRole : Type := mkDefaultRole {
  topcoderRole : USER_ROLE.t;
  projectRole  : PROJECT_MEMBER_ROLE.t
}.

(** [export const DEFAULT_PROJECT_ROLE = [ ... ]], in source order. *)
Definition DEFAULT_PROJECT_ROLE : list DefaultRole :=
  [ mkDefaultRole USER_ROLE.MANAGER PROJECT_MEMBER_ROLE.MANAGER;
    mkDefaultRole USER_ROLE.CONNECT_ADMIN PROJECT_MEMBER_ROLE.MANAGER;
    mkDefaultRole USER_ROLE.TOPCODER_ADMIN PROJECT_MEMBER_ROLE.MANAGER;
    mkDefaultRole USER_ROLE.TOPCODER_ACCOUNT_MANAGER
                  PROJECT_MEMBER_ROLE.ACCOUNT_MANAGER;
    mkDefaultRole USER_ROLE.BUSINESS_DEVELOPMENT_REPRESENTATIVE
                  PROJECT_MEMBER_ROLE.ACCOUNT_MANAGER;
    mkDefaultRole USER_ROLE.PRESALES PROJECT_MEMBER_ROLE.ACCOUNT_MANAGER;
    mkDefaultRole USER_ROLE.COPILOT PROJECT_MEMBER_ROLE.ACCOUNT_MANAGER;
    mkDefaultRole USER_ROLE.ACCOUNT_EXECUTIVE
                  PROJECT_MEMBER_ROLE.ACCOUNT_EXECUTIVE;
    mkDefaultRole USER_ROLE.PROGRAM_MANAGER PROJECT_MEMBER_ROLE.PROGRAM_MANAGER;
    mkDefaultRole USER_ROLE.SOLUTION_ARCHITECT
                  PROJECT_MEMBER_ROLE.SOLUTION_ARCHITECT;
    mkDefaultRole USER_ROLE.PROJECT_MANAGER PROJECT_MEMBER_ROLE.PROJECT_MANAGER;
    mkDefaultRole USER_ROLE.TOPCODER_USER PROJECT_MEMBER_ROLE.CUSTOMER ].

(** "Always define default Project Role which is allowed for such Topcoder
    Role as per PROJECT_TO_TOPCODER_ROLES_MATRIX": the matrix row of the
    entry's project role contains the entry's Topcoder role. *)
Definition allowed_by_matrix (e : DefaultRole) : bool :=
  match get_property PROJECT_TO_TOPCODER_ROLES_MATRIX (projectRole e) with
  | Some roles => existsb (USER_ROLE.eqb (topcoderRole e)) roles
  | None => false
  end.

(** *** The PERMISSION table *)

(** The members of [M2M_SCOPES] (imported from '../constants') that the
    scope lists name; they are distinct scope names. *)
Module M2M_SCOPES.
Inductive t : Type :=
| CONNECT_PROJECT_ADMIN
| PROJECTS_ALL
| PROJECTS_READ
| PROJECTS_WRITE
| PROJECT_MEMBERS_ALL
| PROJECT_MEMBERS_READ
| PROJECT_MEMBERS_WRITE.

Module PROJECTS.
Definition ALL : t := PROJECTS_ALL.
Definition READ : t := PROJECTS_READ.
Definition WRITE : t := PROJECTS_WRITE.
End PROJECTS.

Module PROJECT_MEMBERS.
Definition ALL : t := PROJECT_MEMBERS_ALL.
Definition READ : t := PROJECT_MEMBERS_READ.
Definition WRITE : t := PROJECT_MEMBERS_WRITE.
End PROJECT_MEMBERS.

Definition eqb (a b : t) : bool :=
  match a, b with
  | CONNECT_PROJECT_ADMIN, CONNECT_PROJECT_ADMIN
  | PROJECTS_ALL, PROJECTS_ALL
  | PROJECTS_READ, PROJECTS_READ
  | PROJECTS_WRITE, PROJECTS_WRITE
  | PROJECT_MEMBERS_ALL, PROJECT_MEMBERS_ALL
  | PROJECT_MEMBERS_READ, PROJECT_MEMBERS_READ
  | PROJECT_MEMBERS_WRITE, PROJECT_MEMBERS_WRITE => true
  | _, _ => false
  end.
End M2M_SCOPES.

Definition SCOPES_PROJECTS_READ : list M2M_SCOPES.t :=
  [ M2M_SCOPES.CONNECT_PROJECT_ADMIN;
    M2M_SCOPES.PROJECTS.ALL;
    M2M_SCOPES.PROJECTS.READ ].

Definition SCOPES_PROJECTS_WRITE : list M2M_SCOPES.t :=
  [ M2M_SCOPES.CONNECT_PROJECT_ADMIN;
    M2M_SCOPES.PROJECTS.ALL;
    M2M_SCOPES.PROJECTS.WRITE ].

Definition SCOPES_PROJECT_MEMBERS_READ : list M2M_SCOPES.t :=
  [ M2M_SCOPES.CONNECT_PROJECT_ADMIN;
    M2M_SCOPES.PROJECT_MEMBERS.ALL;
    M2M_SCOPES.PROJECT_MEMBERS.READ ].

Definition SCOPES_PROJECT_MEMBERS_WRITE : list M2M_SCOPES.t :=
  [ M2M_SCOPES.CONNECT_PROJECT_ADMIN;
    M2M_SCOPES.PROJECT_MEMBERS.ALL;
    M2M_SCOPES.PROJECT_MEMBERS.WRITE ].

(** A [topcoderRoles] or [projectRoles] value: [ALL] ([true]) or a list. *)
Inductive Allowed (A : Type) : Type :=
| ALL
| Only (l : list A).
Arguments ALL {A}.
Arguments Only {A} l.

(** An element of a [projectRoles] list: a role name, or
    [{ role, isPrimary }]. *)
Inductive ProjectRoleRule : Type :=
| Role (role : PROJECT_MEMBER_ROLE.t)
| RoleWith (role : PROJECT_MEMBER_ROLE.t) (isPrimary : bool).

Record Meta : Type := mkMeta {
  title       : string;
  group       : string;
  description : option string
}.

(** A policy of the table; a field is [None] when the literal leaves it
    out. *)
Record Permission : Type := mkPermission {
  meta          : option Meta;
  topcoderRoles : option (Allowed USER_ROLE.t);
  projectRoles  : option (Allowed ProjectRoleRule);
  scopes        : option (list M2M_SCOPES.t)
}.

Definition quote : string := String "034"%char EmptyString.
Definition newline : string := String "010"%char EmptyString.

Section Table.

(** [ADMIN_ROLES], [MANAGER_ROLES] and [PROJECT_MEMBER_MANAGER_ROLES] of
    '../constants', and the string a project role stands for. *)
Variable TOPCODER_ROLES_ADMINS : list USER_ROLE.t.
Variable TOPCODER_ROLES_MANAGERS_AND_ADMINS : list USER_ROLE.t.
Variable PROJECT_MEMBER_MANAGER_ROLES : list PROJECT_MEMBER_ROLE.t.
Variable role_name : PROJECT_MEMBER_ROLE.t -> string.

(** [export const PERMISSION = { ... }], its properties in source order. *)
Definition PERMISSION : list (string * Permission) :=
  [ ("CREATE_PROJECT",
     mkPermission (Some (mkMeta "Create Project" "Project" None))
       (Some ALL) None (Some SCOPES_PROJECTS_WRITE));
    ("CREATE_PROJECT_AS_MANAGER",
     mkPermission
       (Some (mkMeta ("Create Project as a " ++ quote ++ "manager" ++ quote)
                "Project"
                (Some ("When user creates a project they become a project member."
                       ++ newline
                       ++ "        If user has this permission they would join project with "
                       ++ quote ++ role_name PROJECT_MEMBER_ROLE.MANAGER ++ quote
                       ++ newline
                       ++ "        project role, otherwise with "
                       ++ quote ++ role_name PROJECT_MEMBER_ROLE.CUSTOMER ++ quote
                       ++ "."))))
       (Some (Only TOPCODER_ROLES_MANAGERS_AND_ADMINS)) None
       (Some SCOPES_PROJECTS_WRITE));
    ("READ_PROJECT",
     mkPermission (Some (mkMeta "Read Project" "Project" None))
       (Some (Only TOPCODER_ROLES_MANAGERS_AND_ADMINS)) (Some ALL)
       (Some SCOPES_PROJECTS_READ));
    ("READ_PROJECT_ANY",
     mkPermission
       (Some (mkMeta "Read Any Project" "Project"
                (Some "Read any project, even when not a member.")))
       (Some (Only TOPCODER_ROLES_MANAGERS_AND_ADMINS)) None
       (Some SCOPES_PROJECTS_READ));
    ("UPDATE_PROJECT",
     mkPermission
       (Some (mkMeta "Update Project" "Project"
                (Some "There are additional limitations on editing some parts of the project.")))
       (Some (Only TOPCODER_ROLES_MANAGERS_AND_ADMINS)) (Some ALL)
       (Some SCOPES_PROJECTS_WRITE));
    ("UPDATE_PROJECT_DIRECT_PROJECT_ID",
     mkPermission
       (Some (mkMeta ("Update Project property " ++ quote ++ "directProjectId" ++ quote)
                "Project" None))
       (Some (Only [ USER_ROLE.MANAGER; USER_ROLE.TOPCODER_ADMIN ])) None
       (Some SCOPES_PROJECTS_WRITE));
    ("DELETE_PROJECT",
     mkPermission
       (Some (mkMeta "Delete Project" "Project"
                (Some "Has different set of permission unlike to update.")))
       (Some (Only TOPCODER_ROLES_MANAGERS_AND_ADMINS))
       (Some (Only [ RoleWith PROJECT_MEMBER_ROLE.CUSTOMER true;
                     Role PROJECT_MEMBER_ROLE.MANAGER;
                     Role PROJECT_MEMBER_ROLE.PROGRAM_MANAGER;
                     Role PROJECT_MEMBER_ROLE.PROJECT_MANAGER;
                     Role PROJECT_MEMBER_ROLE.SOLUTION_ARCHITECT ]))
       (Some SCOPES_PROJECTS_WRITE));
    ("READ_PROJECT_MEMBER",
     mkPermission (Some (mkMeta "Read Project Member" "Project Member" None))
       (Some (Only TOPCODER_ROLES_MANAGERS_AND_ADMINS)) (Some ALL)
       (Some SCOPES_PROJECT_MEMBERS_READ));
    ("READ_PROJECT_MEMBER_DETAILS",
     mkPermission
       (Some (mkMeta "Read Project Member Details" "Project Member"
                (Some "Who can see user details (PII) like email, first name and last name.")))
       (Some (Only [ USER_ROLE.TOPCODER_ADMIN ])) None
       (Some SCOPES_PROJECT_MEMBERS_READ));
    ("CREATE_PROJECT_MEMBER",
     mkPermission (Some (mkMeta "Create Project Member" "Project Member" None))
       (Some (Only TOPCODER_ROLES_MANAGERS_AND_ADMINS)) (Some ALL)
       (Some SCOPES_PROJECT_MEMBERS_WRITE));
    ("CREATE_PROJECT_MEMBER_FOR_OTHERS",
     mkPermission
       (Some (mkMeta "Create Project Member (for other users)" "Project Member"
                (Some "Who can add other users as project members.")))
       (Some (Only TOPCODER_ROLES_ADMINS)) None
       (Some SCOPES_PROJECT_MEMBERS_WRITE));
    ("UPDATE_PROJECT_MEMBER",
     mkPermission (Some (mkMeta "Update Project Member" "Project Member" None))
       (Some (Only TOPCODER_ROLES_MANAGERS_AND_ADMINS)) (Some ALL)
       (Some SCOPES_PROJECT_MEMBERS_WRITE));
    ("UPDATE_PROJECT_MEMBER_NON_CUSTOMER",
     mkPermission
       (Some (mkMeta "Update Project Member (non-customer)" "Project Member"
                (Some ("Who can update project members with non "
                       ++ quote ++ "customer" ++ quote ++ " role."))))
       (Some (Only TOPCODER_ROLES_MANAGERS_AND_ADMINS)) None
       (Some SCOPES_PROJECT_MEMBERS_WRITE));
    ("UPDATE_PROJECT_MEMBER_TO_COPILOT",
     mkPermission
       (Some (mkMeta "Update Project Member (to copilot)" "Project Member"
                (Some ("Who can update project member role to "
                       ++ quote ++ "copilot" ++ quote ++ "."))))
       (Some (Only (TOPCODER_ROLES_ADMINS ++ [ USER_ROLE.COPILOT_MANAGER ])%list))
       None (Some SCOPES_PROJECT_MEMBERS_WRITE));
    ("DELETE_PROJECT_MEMBER",
     mkPermission (Some (mkMeta "Delete Project Member" "Project Member" None))
       (Some (Only TOPCODER_ROLES_MANAGERS_AND_ADMINS)) (Some ALL)
       (Some SCOPES_PROJECT_MEMBERS_WRITE));
    ("DELETE_PROJECT_MEMBER_NON_CUSTOMER",
     mkPermission
       (Some (mkMeta "Delete Project Member (non-customer)" "Project Member"
                (Some ("Who can delete project members with non "
                       ++ quote ++ "customer" ++ quote ++ " role."))))
       (Some (Only TOPCODER_ROLES_MANAGERS_AND_ADMINS)) None
       (Some SCOPES_PROJECT_MEMBERS_WRITE));
    ("ROLES_COPILOT_AND_ABOVE",
     mkPermission None
       (Some (Only TOPCODER_ROLES_ADMINS))
       (Some (Only [ Role PROJECT_MEMBER_ROLE.PROGRAM_MANAGER;
                     Role PROJECT_MEMBER_ROLE.SOLUTION_ARCHITECT;
                     Role PROJECT_MEMBER_ROLE.PROJECT_MANAGER;
                     Role PROJECT_MEMBER_ROLE.MANAGER;
                     Role PROJECT_MEMBER_ROLE.COPILOT ]))
       None);
    ("UPDATE_NOT_OWN_INVITE",
     mkPermission None
       (Some (Only [ USER_ROLE.TOPCODER_ADMIN; USER_ROLE.CONNECT_ADMIN ]))
       None None);
    ("UPDATE_REQUESTED_INVITE",
     mkPermission None
       (Some (Only [ USER_ROLE.TOPCODER_ADMIN; USER_ROLE.CONNECT_ADMIN;
                     USER_ROLE.COPILOT_MANAGER ]))
       None None);
    ("DELETE_CUSTOMER_INVITE",
     mkPermission None
       (Some (Only [ USER_ROLE.TOPCODER_ADMIN; USER_ROLE.CONNECT_ADMIN ]))
       (Some ALL) None);
    ("DELETE_NON_CUSTOMER_INVITE",
     mkPermission None
       (Some (Only [ USER_ROLE.TOPCODER_ADMIN; USER_ROLE.CONNECT_ADMIN ]))
       (Some (Only (map Role PROJECT_MEMBER_MANAGER_ROLES)))
       None);
    ("DELETE_REQUESTED_INVITE",
     mkPermission None
       (Some (Only [ USER_ROLE.TOPCODER_ADMIN; USER_ROLE.CONNECT_ADMIN;
                     USER_ROLE.COPILOT_MANAGER ]))
       None None) ].

End Table.

Definition has_scope (x : M2M_SCOPES.t) (l : list M2M_SCOPES.t) : bool :=
  existsb (M2M_SCOPES.eqb x) l.

Definition is_project_scope (x : M2M_SCOPES.t) : bool :=
  match x with
  | M2M_SCOPES.PROJECTS_ALL | M2M_SCOPES.PROJECTS_READ
  | M2M_SCOPES.PROJECTS_WRITE => true
  | _ => false
  end.

Definition is_member_scope (x : M2M_SCOPES.t) : bool :=
  match x with
  | M2M_SCOPES.PROJECT_MEMBERS_ALL | M2M_SCOPES.PROJECT_MEMBERS_READ
  | M2M_SCOPES.PROJECT_MEMBERS_WRITE => true
  | _ => false
  end.

Definition is_read_scope (x : M2M_SCOPES.t) : bool :=
  match x with
  | M2M_SCOPES.PROJECTS_READ | M2M_SCOPES.PROJECT_MEMBERS_READ => true
  | _ => false
  end.

Definition is_write_scope (x : M2M_SCOPES.t) : bool :=
  match x with
  | M2M_SCOPES.PROJECTS_WRITE | M2M_SCOPES.PROJECT_MEMBERS_WRITE => true
  | _ => false
  end.

Definition group_of (p : Permission) : option string :=
  option_map group (meta p).

End Permissions.

(* ------------------------------------------------------------------ *)
(** ** Express: requests, middleware chains and dispatch                *)
(* ------------------------------------------------------------------ *)

Module Express.

(** JavaScript values that travel in request and response bodies. *)
Inductive Json : Type :=
| JNull
| JNum (n : Z)
| JStr (s : string)
| JArr (l : list Json)
| JObj (props : list (string * Json)).

Fixpoint assoc_get {A : Type} (k : string) (o : list (string * A)) : option A :=
  match o with
  | [] => None
  | (k', v) :: rest => if String.eqb k' k then Some v else assoc_get k rest
  end.

(** Property access [o.k] on an object; [None] stands for [undefined]. *)
Definition json_get (k : string) (o : Json) : option Json :=
  match o with
  | JObj props => assoc_get k props
  | _ => None
  end.

Record Params : Type := mkParams {
  key     : string;
  version : Z
}.

Record AuthUser : Type := mkAuthUser { userId : Z }.

(** The parts of an Express request the handlers read.  [method] is the
    name in upper case, as Node gives it, after the method override;
    [path] is the path of the URL as it was sent, without the query string.
    [authUser] is set by the authentication middleware and is [None] on a
    request that carries no credentials. *)
Record Request : Type := mkRequest {
  method   : string;
  path     : string;
  query    : list (string * string);
  params   : Params;
  body     : Json;
  authUser : option AuthUser;
  id       : string
}.

(** An [Error] handed to [next]; [status] is the optional [apiErr.status]. *)
Record ApiError : Type := mkApiError {
  message : string;
  status  : option Z
}.

(** What a request makes the service do, in order. *)
Inductive Event : Type :=
| EValidate (passed : bool)
| EPermission (policy : string) (granted : bool)
| EExec (command : string)
| ETransaction
| ERespond (code : Z) (payload : option Json)
| ENext (e : ApiError).

(** The letter in lower case; every other character as it is. *)
Definition lower (c : ascii) : ascii :=
  let n := nat_of_ascii c in
  if (65 <=? n)%nat && (n <=? 90)%nat then ascii_of_nat (n + 32) else c.

Fixpoint toLowerCase (s : string) : string :=
  match s with
  | EmptyString => EmptyString
  | String c rest => String (lower c) (toLowerCase rest)
  end.

(** The path matches the route's pattern [^pattern\/?$] with flag [i]. *)
Definition same_path (pattern path : string) : bool :=
  String.eqb (toLowerCase path) (toLowerCase pattern)
  || String.eqb (toLowerCase path) (toLowerCase pattern ++ "/").

(** [res.send(body)] on a request without conditional headers: status
    200; the answer to a HEAD request carries no body. *)
Definition send (req : Request) (payload : Json) : Event :=
  ERespond 200 (if String.eqb (method req) "HEAD" then None else Some payload).

Definition is_get_or_head (req : Request) : bool :=
  String.eqb (method req) "GET" || String.eqb (method req) "HEAD".

Section Chain.

(** [W] is the state outside the request: the database, the host. *)
Variable W : Type.

(** [validate(schema)] of express-validation hands the request to Joi: a
    request that passes goes on with the converted values assigned to it,
    a request that fails goes to [next(err)]. *)
Inductive Middleware : Type :=
| validate (schema : Request -> option Request)
| permissions (policy : string)
| handler (h : Request -> W -> list Event * W).

(** [tcMiddleware.permissions(policy)] of tc-core-library-js decides from
    the request whether the named policy grants access. *)
Variable authorized : string -> Request -> bool.

(** Express runs the middlewares of a route in order; [validate] and
    [permissions] call [next()] when they pass and [next(err)] when they
    do not, which skips the rest of the chain. *)
Fixpoint run_chain (chain : list Middleware) (req : Request) (w : W)
  : list Event * W :=
  match chain with
  | [] => ([], w)
  | validate schema :: rest =>
      match schema req with
      | Some req' =>
          let (t, w') := run_chain rest req' w in (EValidate true :: t, w')
      | None =>
          ([EValidate false;
            ENext (mkApiError "validation error" (Some 400%Z))], w)
      end
  | permissions policy :: rest =>
      if authorized policy req
      then let (t, w') := run_chain rest req w in
           (EPermission policy true :: t, w')
      else ([EPermission policy false;
             ENext (mkApiError "You do not have permissions to perform this action"
                               (Some 403%Z))], w)
  | handler h :: _ => h req w
  end.

Record Route : Type := mkRoute {
  matches : Request -> bool;
  chain   : list Middleware
}.

(** [app.get(path, h)].  A route registered for GET serves HEAD as well.
    Neither 'case sensitive routing' nor 'strict routing' is enabled on the
    app, so the path is compared without regard to the case of its letters
    and may end in one more slash. *)
Definition get (p : string) (h : Request -> W -> list Event * W) : Route :=
  mkRoute (fun req => is_get_or_head req && same_path p (path req))
          [handler h].

(** The first registered route that matches serves the request. *)
Fixpoint dispatch (routes : list Route) (req : Request) (w : W)
  : list Event * W :=
  match routes with
  | [] => ([ENext (mkApiError "Not Found" (Some 404%Z))], w)
  | r :: rest =>
      if matches r req then run_chain (chain r) req w
      else dispatch rest req w
  end.

(** A chain is guarded when a permission check stands before its first
    handler. *)
Fixpoint guarded (chain : list Middleware) : bool :=
  match chain with
  | [] => true
  | permissions _ :: _ => true
  | validate _ :: rest => guarded rest
  | handler _ :: _ => false
  end.

End Chain.

Definition is_permission_event (e : Event) : bool :=
  match e with EPermission _ _ => true | _ => false end.

Definition is_validate_event (e : Event) : bool :=
  match e with EValidate _ => true | _ => false end.

Definition is_operation_event (e : Event) : bool :=
  match e with EExec _ | ETransaction => true | _ => false end.

(** The request is answered: a response is sent or an error goes to
    [next]. *)
Definition is_answer_event (e : Event) : bool :=
  match e with ERespond _ _ | ENext _ => true | _ => false end.

(** Every process execution and every ORM transaction of the trace comes
    after a granted permission check. *)
Fixpoint operations_guarded (t : list Event) : bool :=
  match t with
  | [] => true
  | EPermission _ true :: _ => true
  | e :: rest => negb (is_operation_event e) && operations_guarded rest
  end.

Definition executed (t : list Event) : list string :=
  flat_map (fun e => match e with EExec c => [c] | _ => [] end) t.

Definition responses (t : list Event) : list (Z * option Json) :=
  flat_map (fun e => match e with ERespond c b => [(c, b)] | _ => [] end) t.

End Express.

(* ------------------------------------------------------------------ *)
(** ** Joi schemas and express-validation                               *)
(* ------------------------------------------------------------------ *)

Module Joi.

(** A Joi schema is written as the calls that build it:
    [Joi.number().integer().positive().required()] is
    [required (positive (integer number))]. *)
Inductive t : Type :=
| number
| string
| object
| any
| integer (s : t)
| positive (s : t)
| max (limit : nat) (s : t)
| keys (children : list (String.string * t)) (s : t)
| required (s : t)
| strip (s : t).

End Joi.

Module ExpressValidation.
Import Express.

(** The object given to [validate]: a Joi schema for each named property
    of [req.params] and of [req.body].  A part the object does not name is
    the empty list. *)
Record Schema : Type := mkSchema {
  params : list (String.string * Joi.t);
  body   : list (String.string * Joi.t)
}.

(** What the library and Joi make of a schema and a request: [None] when
    the request fails, otherwise the request with the converted values
    assigned to [req.params] and [req.body].  The two libraries are outside
    the sources and their verdict is taken as given. *)
Definition Validation : Type := Schema -> Request -> option Request.

End ExpressValidation.

(* ------------------------------------------------------------------ *)
(** ** src/app.js                                                       *)
(* ------------------------------------------------------------------ *)

Module App.
Import Express.

(** What [child_process.exec] hands to its callback. *)
Record ExecResult (ExecError : Type) : Type := mkExecResult {
  err    : option ExecError;
  stdout : string;
  stderr : string
}.

Section App.

Variable W : Type.
Variable ExecError : Type.

(** The host's shell: runs a command line, may change the state. *)
Variable exec : string -> W -> ExecResult ExecError * W.

(** [JSON.stringify] on the callback's error argument ([None] is [null]). *)
Variable JSON_stringify : option ExecError -> string.

(** [app.get('/v4/projects/index', (req, res) => { ... })] *)
Definition index (req : Request) (w : W) : list Event * W :=
  let (r, w1) := exec "npm run sync:es" w in
  let (r1, w2) := exec "npm run migrate:es" w1 in
  ([ EExec "npm run sync:es"; EExec "npm run migrate:es";
     send req (JObj
       [ ("out",   JStr ("stdout: " ++ stdout r));
         ("erro",  JStr ("stderr: " ++ stderr r));
         ("errs",  JStr (JSON_stringify (err r)));
         ("out1",  JStr ("stdout: " ++ stdout r1));
         ("erro1", JStr ("stderr: " ++ stderr r1));
         ("errs1", JStr (JSON_stringify (err r1))) ]) ], w2).

(** [app.get('/v4/projects/eslog', (req, res) => { ... })].
    [req.setTimeout(0)] only lifts the socket timeout.  [exec(undefined)]
    and [exec('')] throw before any process is spawned; Express passes the
    exception to the error middleware. *)
Definition eslog (req : Request) (w : W) : list Event * W :=
  match assoc_get "q" (query req) with
  | None =>
      ([ENext (mkApiError "The file argument must be of type string" None)], w)
  | Some EmptyString =>
      ([ENext (mkApiError "The argument 'file' cannot be empty" None)], w)
  | Some q =>
      let (r1, w1) := exec q w in
      ([ EExec q;
         send req (JObj
           [ ("out1",  JStr ("stdout: " ++ stdout r1));
             ("erro1", JStr ("stderr: " ++ stderr r1));
             ("errs1", JStr (JSON_stringify (err r1))) ]) ], w1)
  end.

(** The routes of './routes', registered by [app.use(router)] after the
    two [app.get] calls.  The [app.use] layers before them (method override,
    body parser, sanitizer, request id, cors, logger) let every request
    through and check no permission. *)
Variable router : list (Route W).

Definition app : list (Route W) :=
  [ get "/v4/projects/index" index;
    get "/v4/projects/eslog" eslog ] ++ router.

End App.

(** A request [GET /v4/projects/eslog?q=<q>] without credentials. *)
Definition eslog_request (q : string) : Request :=
  mkRequest "GET" "/v4/projects/eslog" [("q", q)]
            (mkParams EmptyString 0) (JObj []) None "req-1".

(** A shell that prints its command line back, used to run the handlers. *)
Definition echo_shell (c : string) (w : unit) : ExecResult unit * unit :=
  (mkExecResult None c EmptyString, w).

Definition stringify_null (e : option unit) : string := "null".

End App.

(* ------------------------------------------------------------------ *)
(** ** Promise chains over the database                                 *)
(* ------------------------------------------------------------------ *)

Module Orm.
Import Express.

(** A promise chain that reads and writes a table of type [S]: it leaves a
    new table and either rejects with an error or resolves with a value. *)
Definition Promise (S A : Type) : Type := S -> (ApiError + A) * S.

Definition resolve {S A : Type} (a : A) : Promise S A :=
  fun s => (inr a, s).

Definition reject {S A : Type} (e : ApiError) : Promise S A :=
  fun s => (inl e, s).

(** [p.then(k)] *)
Definition and_then {S A B : Type} (p : Promise S A) (k : A -> Promise S B)
  : Promise S B :=
  fun s => match p s with
           | (inl e, s') => (inl e, s')
           | (inr a, s') => k a s'
           end.

(** [p.catch(next)]: the error of a rejected chain goes to [next] and the
    chain resolves; the result records which of the two happened. *)
Definition catch_next {S A : Type} (p : Promise S A) : Promise S (ApiError + A) :=
  fun s => match p s with
           | (r, s') => (inr r, s')
           end.

(** [sequelize.transaction(() => body)]: the writes of a body that resolves
    are committed, those of a rejected body are rolled back. *)
Definition transaction {S A : Type} (body : Promise S A) : Promise S A :=
  fun s => match body s with
           | (inl e, _) => (inl e, s)
           | (inr a, s') => (inr a, s')
           end.

(** A [TypeError] thrown inside a [then] callback rejects the chain; it has
    no [status]. *)
Definition TypeError (msg : string) : ApiError := mkApiError msg None.

(** [`${n}`] for a number. *)
Definition String_of_Z (z : Z) : string := NilZero.string_of_int (Z.to_int z).

(** [{ where: { key, version } }] *)
Record Where : Type := mkWhere {
  w_key     : string;
  w_version : Z
}.

(** An error whose [status] is 404 went to [next]. *)
Definition next_404 {S A : Type} (r : (ApiError + (ApiError + A)) * S) : Prop :=
  match fst r with
  | inr (inl e) => status e = Some 404%Z
  | _ => False
  end.

(** [{ key: req.params.key, version: req.params.version }] *)
Definition where_of (req : Request) : Where :=
  mkWhere (Express.key (params req)) (Express.version (params req)).

(** [(req, res, next) => { sequelize.transaction(() =>
      promise.then(respond).catch(next)); }] as the last middleware of a
    chain.  Nothing handles a rejection of the transaction itself. *)
Definition as_handler {S : Type}
           (h : Request -> Promise S (ApiError + Z * option Json))
  : Request -> S -> list Event * S :=
  fun req s =>
    match h req s with
    | (inl _, s') => ([ETransaction], s')
    | (inr (inl e), s') => ([ETransaction; ENext e], s')
    | (inr (inr (code, payload)), s') =>
        ([ETransaction; ERespond code payload], s')
    end.

End Orm.

Declare Scope promise_scope.
Delimit Scope promise_scope with promise.
Notation "x <- p ;; k" := (Orm.and_then p (fun x => k))
  (at level 61, p at next level, right associativity) : promise_scope.

(* ------------------------------------------------------------------ *)
(** ** src/routes/form/version/delete.js                                *)
(* ------------------------------------------------------------------ *)

Module Form.
Import Express Orm.
Local Open Scope promise_scope.
Local Open Scope Z_scope.

(** Modelled from the spec: the Form model (its declaration is not among
    the sources).  A Form resource is a row per revision, identified by key
    and version; the model is paranoid, so a destroyed row stays in the
    table with [deletedAt] set and is invisible to queries. *)
Record Form : Type := mkForm {
  id        : Z;
  key       : string;
  version   : Z;
  revision  : Z;
  config    : Json;
  createdBy : Z;
  updatedBy : Z;
  deletedBy : option Z;
  deletedAt : option Z
}.

Definition is_live (r : Form) : bool :=
  match deletedAt r with None => true | Some _ => false end.

Definition selects (w : Where) (r : Form) : bool :=
  is_live r && String.eqb (key r) (w_key w) && (version r =? w_version w).

Section Handlers.

(** The time of the request, which [destroy] writes to [deletedAt]. *)
Variable now : Z.

(** [validate] of express-validation *)
Variable validate_with : ExpressValidation.Validation.

(** [models.Form.findAll({ where })] *)
Definition findAll (w : Where) : Promise (list Form) (list Form) :=
  fun tbl => (inr (filter (selects w) tbl), tbl).

(** [models.Form.update({ deletedBy }, { where })] *)
Definition update (by_user : Z) (w : Where) : Promise (list Form) unit :=
  fun tbl =>
    (inr tt,
     map (fun r => if selects w r
                   then mkForm (id r) (key r) (version r) (revision r)
                               (config r) (createdBy r) (updatedBy r)
                               (Some by_user) (deletedAt r)
                   else r) tbl).

(** [models.Form.destroy({ where })] on a paranoid model *)
Definition destroy (w : Where) : Promise (list Form) unit :=
  fun tbl =>
    (inr tt,
     map (fun r => if selects w r
                   then mkForm (id r) (key r) (version r) (revision r)
                               (config r) (createdBy r) (updatedBy r)
                               (deletedBy r) (Some now)
                   else r) tbl).

(** [const schema = { params: { version: ..., key: ... } }] *)
Definition schema : ExpressValidation.Schema :=
  ExpressValidation.mkSchema
    [ ("version", Joi.required (Joi.positive (Joi.integer Joi.number)));
      ("key",     Joi.required (Joi.max 45 Joi.string)) ]
    [].

Definition not_found (req : Request) : ApiError :=
  mkApiError ("Form not found for key " ++ Express.key (params req)
              ++ " version " ++ String_of_Z (Express.version (params req)))
             (Some 404).

(** The third element of [module.exports].  The [catch(next)] is part of
    the chain the transaction callback returns. *)
Definition delete (req : Request)
  : Promise (list Form) (ApiError + Z * option Json) :=
  let w := mkWhere (Express.key (params req)) (Express.version (params req)) in
  transaction (catch_next (
    _ <- (allRevision <- findAll w ;;
          if Nat.eqb (List.length allRevision) 0
          then reject (not_found req)
          else match authUser req with
               | None => reject (TypeError "Cannot read property 'userId' of undefined")
               | Some u => update (userId u) w
               end) ;;
    _ <- destroy w ;;
    resolve (204, None))).

(** [module.exports = [validate(schema), permissions('form.create'), ...]] *)
Definition module_exports : list (Middleware (list Form)) :=
  [ validate (list Form) (validate_with schema);
    permissions (list Form) "form.create";
    handler (as_handler delete) ].

End Handlers.

(** The row a selected row becomes once it is marked with the user and
    destroyed. *)
Definition deleted_by (now by_user : Z) (r : Form) : Form :=
  mkForm (id r) (key r) (version r) (revision r) (config r) (createdBy r)
         (updatedBy r) (Some by_user) (Some now).

End Form.

(* ------------------------------------------------------------------ *)
(** ** planConfig revision create (second part of the same source file) *)
(* ------------------------------------------------------------------ *)

Module PlanConfig.
Import Express Orm.
Local Open Scope promise_scope.
Local Open Scope Z_scope.

(** Modelled from the spec: the PlanConfig model (its declaration is not
    among the sources).  A PlanConfig resource is a row per revision,
    identified by key and version; the model is paranoid.  [phases] is
    [None] when the entity was created with [phases: undefined]. *)
Record PlanConfig : Type := mkPlanConfig {
  id        : Z;
  key       : string;
  version   : Z;
  revision  : Z;
  phases    : option Json;
  createdBy : Z;
  updatedBy : Z;
  deletedBy : option Z;
  deletedAt : option Z
}.

(** The table with its auto-increment sequence for [id]. *)
Record Table : Type := mkTable {
  rows   : list PlanConfig;
  nextId : Z
}.

Definition is_live (r : PlanConfig) : bool :=
  match deletedAt r with None => true | Some _ => false end.

Definition selects (w : Where) (r : PlanConfig) : bool :=
  is_live r && String.eqb (key r) (w_key w) && (version r =? w_version w).

(** [order: [['revision', 'DESC']]] *)
Fixpoint insert_desc (r : PlanConfig) (l : list PlanConfig) : list PlanConfig :=
  match l with
  | [] => [r]
  | x :: rest =>
      if revision x <=? revision r then r :: l else x :: insert_desc r rest
  end.

Definition order_revision_desc (l : list PlanConfig) : list PlanConfig :=
  fold_right insert_desc [] l.

(** The least revision number of a list of rows. *)
Fixpoint least_revision (l : list PlanConfig) : option Z :=
  match l with
  | [] => None
  | r :: rest =>
      match least_revision rest with
      | None => Some (revision r)
      | Some m => Some (Z.min (revision r) m)
      end
  end.

(** The entity literal handed to [models.PlanConfig.create]. *)
Record Entity : Type := mkEntity {
  e_version   : Z;
  e_revision  : Z;
  e_createdBy : Z;
  e_updatedBy : Z;
  e_key       : string;
  e_phases    : option Json
}.

Definition optional (k : string) (v : option Json) : list (string * Json) :=
  match v with Some j => [(k, j)] | None => [] end.

Definition nullable (v : option Z) : Json :=
  match v with Some n => JNum n | None => JNull end.

(** [createdEntity.toJSON()] *)
Definition toJSON (r : PlanConfig) : list (string * Json) :=
  [ ("id", JNum (id r)); ("key", JStr (key r)); ("version", JNum (version r));
    ("revision", JNum (revision r)) ]
  ++ optional "phases" (phases r)
  ++ [ ("createdBy", JNum (createdBy r)); ("updatedBy", JNum (updatedBy r));
       ("deletedBy", nullable (deletedBy r));
       ("deletedAt", nullable (deletedAt r)) ].

(** [_.omit(object, 'deletedAt', 'deletedBy')] *)
Definition omit (ks : list string) (o : list (string * Json)) : list (string * Json) :=
  filter (fun kv => negb (existsb (String.eqb (fst kv)) ks)) o.

Section Handlers.

Variable now : Z.

(** [validate] of express-validation *)
Variable validate_with : ExpressValidation.Validation.

(** [config.get('MAX_REVISION_NUMBER')] *)
Variable MAX_REVISION_NUMBER : Z.

(** [util.wrapResponse(reqId, content, count, status)] of '../../../util' *)
Variable wrapResponse : string -> Json -> Z -> Z -> Json.

(** [models.PlanConfig.findAll({ where, order: [['revision', 'DESC']] })] *)
Definition findAll (w : Where) : Promise Table (list PlanConfig) :=
  fun tbl => (inr (order_revision_desc (filter (selects w) (rows tbl))), tbl).

Definition evicted (by_user : Z) (r : PlanConfig) : PlanConfig :=
  mkPlanConfig (id r) (key r) (version r) (revision r) (phases r)
               (createdBy r) (updatedBy r) (Some by_user) (Some now).

(** Marks the first row that [w] selects and whose revision is [m]. *)
Fixpoint evict_revision (by_user : Z) (w : Where) (m : Z)
         (l : list PlanConfig) : list PlanConfig :=
  match l with
  | [] => []
  | r :: rest =>
      if selects w r && (revision r =? m)
      then evicted by_user r :: rest
      else r :: evict_revision by_user w m rest
  end.

(** Modelled from the spec: [PlanConfig.deleteOldestRevision(userId, key,
    version)], a class method of the PlanConfig model.  The eviction
    policy removes the oldest revision of the key and version: the row
    with the least revision number is destroyed (the model is paranoid)
    and records who deleted it.  With no revision there is nothing to
    remove. *)
Definition deleteOldestRevision (by_user : Z) (k : string) (v : Z)
  : Promise Table unit :=
  fun tbl =>
    let w := mkWhere k v in
    match least_revision (filter (selects w) (rows tbl)) with
    | None => (inr tt, tbl)
    | Some m =>
        (inr tt, mkTable (evict_revision by_user w m (rows tbl)) (nextId tbl))
    end.

Definition build (i : Z) (e : Entity) : PlanConfig :=
  mkPlanConfig i (e_key e) (e_version e) (e_revision e) (e_phases e)
               (e_createdBy e) (e_updatedBy e) None None.

(** [models.PlanConfig.create(entity)] *)
Definition create (e : Entity) : Promise Table PlanConfig :=
  fun tbl =>
    let r := build (nextId tbl) e in
    (inr r, mkTable (rows tbl ++ [r]) (nextId tbl + 1)).

(** [const schema = { params: { ... }, body: { param: ... } }] *)
Definition schema : ExpressValidation.Schema :=
  ExpressValidation.mkSchema
    [ ("version", Joi.required (Joi.positive (Joi.integer Joi.number)));
      ("key",     Joi.required (Joi.max 45 Joi.string)) ]
    [ ("param",
       Joi.required (Joi.keys
         [ ("phases",    Joi.required Joi.object);
           ("createdAt", Joi.strip Joi.any);
           ("updatedAt", Joi.strip Joi.any);
           ("deletedAt", Joi.strip Joi.any);
           ("createdBy", Joi.strip Joi.any);
           ("updatedBy", Joi.strip Joi.any);
           ("deletedBy", Joi.strip Joi.any) ]
         Joi.object)) ].

Definition not_found (req : Request) : ApiError :=
  mkApiError ("PlanConfig not found for key " ++ Express.key (params req)
              ++ " version " ++ String_of_Z (Express.version (params req)))
             (Some 404).

(** The third element of [module.exports].  [planConfigs[0]] is [None]
    when the list is empty, and reading a property of [undefined] throws.
    The [catch(next)] is part of the chain the transaction callback
    returns. *)
Definition create_revision (req : Request)
  : Promise Table (ApiError + Z * option Json) :=
  let k := Express.key (params req) in
  let v := Express.version (params req) in
  transaction (catch_next (
    planConfig <-
      (planConfigs <- findAll (mkWhere k v) ;;
       if MAX_REVISION_NUMBER <=? Z.of_nat (List.length planConfigs)
       then match authUser req with
            | None => reject (TypeError "Cannot read property 'userId' of undefined")
            | Some u =>
                _ <- deleteOldestRevision (userId u) k v ;;
                resolve (hd_error planConfigs)
            end
       else if Nat.eqb (List.length planConfigs) 0
       then reject (not_found req)
       else resolve (hd_error planConfigs)) ;;
    createdEntity <-
      match planConfig with
      | None => reject (TypeError "Cannot read property 'revision' of undefined")
      | Some pc =>
          let revisison := revision pc + 1 in
          match authUser req with
          | None => reject (TypeError "Cannot read property 'userId' of undefined")
          | Some u =>
              match json_get "param" (body req) with
              | None => reject (TypeError "Cannot read property 'phases' of undefined")
              | Some param =>
                  create (mkEntity v revisison (userId u) (userId u) k
                                   (json_get "phases" param))
              end
          end
      end ;;
    resolve (201,
             Some (wrapResponse (Express.id req)
                     (JObj (omit ["deletedAt"; "deletedBy"] (toJSON createdEntity)))
                     1 201)))).

(** [module.exports = [validate(schema), permissions('planConfig.create'), ...]] *)
Definition module_exports : list (Middleware Table) :=
  [ validate Table (validate_with schema);
    permissions Table "planConfig.create";
    handler (as_handler create_revision) ].

End Handlers.

(** The row the handler inserts into table [from] when [top] is
    [planConfigs[0]], and the answer that reports it. *)
Definition created (req : Request) (from : Table) (top : PlanConfig)
           (u : AuthUser) (param : Json) : PlanConfig :=
  mkPlanConfig (nextId from) (Express.key (params req))
               (Express.version (params req)) (revision top + 1)
               (json_get "phases" param) (userId u) (userId u) None None.

Definition created_response (wrapResponse : string -> Json -> Z -> Z -> Json)
           (req : Request) (r : PlanConfig) : Z * option Json :=
  (201, Some (wrapResponse (Express.id req)
                (JObj (omit ["deletedAt"; "deletedBy"] (toJSON r))) 1 201)).

(** The number of revisions of a key and version that queries see. *)
Definition revision_count (k : string) (v : Z) (tbl : Table) : Z :=
  Z.of_nat (List.length (filter (selects (mkWhere k v)) (rows tbl))).

End PlanConfig.

(* ------------------------------------------------------------------ *)
(** ** src/models/project.js                                            *)
(* ------------------------------------------------------------------ *)

Module Project.
Import Express.
Local Open Scope Z_scope.

(** The attributes of [sequelize.define('Project', { ... })].  A field is
    [None] when the value is [null] or [undefined].  Dates are timestamps,
    prices are in hundredths. *)
Record Project : Type := mkProject {
  id                   : option Z;
  directProjectId      : option Z;
  billingAccountId     : option Z;
  name                 : option string;
  description          : option string;
  external             : option Json;
  bookmarks            : option Json;
  utm                  : option Json;
  estimatedPrice       : option Z;
  actualPrice          : option Z;
  terms                : option (list Z);
  type                 : option string;
  status               : option string;
  details              : option Json;
  challengeEligibility : option Json;
  cancelReason         : option string;
  templateId           : option Z;
  deletedAt            : option Z;
  createdAt            : option Z;
  updatedAt            : option Z;
  deletedBy            : option Z;
  createdBy            : option Z;
  updatedBy            : option Z;
  version              : option string;
  lastActivityAt       : option Z;
  lastActivityUserId   : option string
}.

Inductive ValidationError : Type :=
| notNull_Violation (attribute : string)
| Validation_error (attribute : string) (validator : string).

Definition required {A : Type} (attribute : string) (v : option A)
  : list ValidationError :=
  match v with
  | Some _ => []
  | None => [notNull_Violation attribute]
  end.

Section Model.

(** [_.values(PROJECT_STATUS)], from '../constants' *)
Variable PROJECT_STATUS_values : list string.

(** [validate: { isIn: [_.values(PROJECT_STATUS)] }]; validators are
    skipped on a null value, which [allowNull: false] reports. *)
Definition validate_status (v : option string) : list ValidationError :=
  match v with
  | None => [notNull_Violation "status"]
  | Some s =>
      if existsb (String.eqb s) PROJECT_STATUS_values then []
      else [Validation_error "status" "isIn"]
  end.

(** The checks the attribute definitions declare: [allowNull: false] and
    the validator of [status]. *)
Definition validate (p : Project) : list ValidationError :=
  (required "name" (name p)
  ++ required "terms" (terms p)
  ++ required "type" (type p)
  ++ validate_status (status p)
  ++ required "createdBy" (createdBy p)
  ++ required "updatedBy" (updatedBy p)
  ++ required "version" (version p)
  ++ required "lastActivityAt" (lastActivityAt p)
  ++ required "lastActivityUserId" (lastActivityUserId p))%list.

Definition or_default {A : Type} (v : option A) (d : A) : option A :=
  match v with Some _ => v | None => Some d end.

(** The [defaultValue]s of [terms], [createdAt], [updatedAt], [version],
    taken by an attribute the values leave out ([None] here). *)
Definition with_defaults (now : Z) (p : Project) : Project :=
  mkProject (id p) (directProjectId p) (billingAccountId p) (name p)
    (description p) (external p) (bookmarks p) (utm p) (estimatedPrice p)
    (actualPrice p) (or_default (terms p) []) (type p) (status p)
    (details p) (challengeEligibility p) (cancelReason p) (templateId p)
    (deletedAt p) (or_default (createdAt p) now) (or_default (updatedAt p) now)
    (deletedBy p) (createdBy p) (updatedBy p) (or_default (version p) "v3")
    (lastActivityAt p) (lastActivityUserId p).

Definition with_id (i : Z) (p : Project) : Project :=
  mkProject (Some i) (directProjectId p) (billingAccountId p) (name p)
    (description p) (external p) (bookmarks p) (utm p) (estimatedPrice p)
    (actualPrice p) (terms p) (type p) (status p)
    (details p) (challengeEligibility p) (cancelReason p) (templateId p)
    (deletedAt p) (createdAt p) (updatedAt p)
    (deletedBy p) (createdBy p) (updatedBy p) (version p)
    (lastActivityAt p) (lastActivityUserId p).

Definition next_id (tbl : list Project) : Z :=
  1 + fold_right (fun p m => match id p with Some i => Z.max i m | None => m end)
                 0 tbl.

(** [Project.create(values)]: defaults, validation, then the insert, for
    values that give no id of their own (the database assigns the next
    one).  What the model declares is checked here; the limits of the
    column types ([STRING(3)], [INTEGER]) are the database's. *)
Definition create (now : Z) (values : Project) (tbl : list Project)
  : list ValidationError + list Project :=
  let p := with_defaults now values in
  match validate p with
  | [] => inr (tbl ++ [with_id (next_id tbl) p])%list
  | errors => inl errors
  end.

Definition same_id (p r : Project) : bool :=
  match id p, id r with
  | Some i, Some j => i =? j
  | _, _ => false
  end.

(** [instance.save()] on a changed instance: validation, then the update
    of the row with the instance's id. *)
Definition save (p : Project) (tbl : list Project)
  : list ValidationError + list Project :=
  match validate p with
  | [] => inr (map (fun r => if same_id p r then p else r) tbl)
  | errors => inl errors
  end.

(** The tables the model layer can produce. *)
Inductive persisted : list Project -> Prop :=
| persisted_empty : persisted []
| persisted_create now values tbl tbl' :
    persisted tbl -> create now values tbl = inr tbl' -> persisted tbl'
| persisted_save p tbl tbl' :
    persisted tbl -> save p tbl = inr tbl' -> persisted tbl'.

Definition status_in_enum (p : Project) : Prop :=
  exists s, status p = Some s /\ In s PROJECT_STATUS_values.

End Model.

(** *** Project.getDirectProjectId *)

(** [this.findById(id, { attributes: ['directProjectId'], raw: true })] on
    the paranoid model: the row with that id that is not deleted, or
    [None] for [null]. *)
Definition findById (i : Z) (tbl : list Project) : option Project :=
  find (fun p => match id p, deletedAt p with
                 | Some j, None => j =? i
                 | _, _ => false
                 end) tbl.

(** [getDirectProjectId(id)]: [.then(res => res.directProjectId)] throws
    when [res] is [null], which rejects the promise. *)
Definition getDirectProjectId (i : Z) (tbl : list Project) : string + option Z :=
  match findById i tbl with
  | Some res => inr (directProjectId res)
  | None => inl "Cannot read property 'directProjectId' of null"
  end.

(** *** Project.searchText *)

(** [parameters.filters.id]: an object with [$in], a string or number, or
    any other value. *)
Inductive IdFilter : Type :=
| IdObject (in_ : list Z)
| IdScalar (v : Z)
| IdOther.

Inductive StatusFilter : Type :=
| StatusObject (in_ : list string)
| StatusString (s : string)
| StatusOther.

(** [parameters.filters]; a field is [None] when [_.has] answers false. *)
Record Filters : Type := mkFilters {
  f_id      : option IdFilter;
  f_status  : option StatusFilter;
  f_type    : option string;
  f_keyword : option string;
  f_userId  : option Z;
  f_email   : option string
}.

Inductive Direction : Type := ASC | DESC.

Record Parameters : Type := mkParameters {
  filters    : Filters;
  order      : string * Direction;
  limit      : option nat;
  offset     : option nat;
  attributes : list string
}.

(** The rows the raw SQL reads.  [projectFullText] is a column of the
    projects table outside the model's attributes. *)
Record ProjectRow : Type := mkProjectRow {
  row             : Project;
  projectFullText : option string
}.

Record Member : Type := mkMember {
  m_projectId : Z;
  m_userId    : Z
}.

Record Invite : Type := mkInvite {
  i_projectId : Z;
  i_userId    : option Z;
  i_email     : option string
}.

Record Database : Type := mkDatabase {
  projects               : list ProjectRow;
  project_members        : list Member;
  project_member_invites : list Invite
}.

(** The conjuncts of the WHERE clause, next to the text that names them. *)
Inductive Cond : Type :=
| IdIn (ids : list Z)
| IdEq (v : Z)
| StatusIn (l : list string)
| StatusEq (s : string)
| TypeEq (t : string)
| FullTextMatches (keyword : string)
| MemberOrInvite (user : option Z) (email : option string).

(** The local variables of [searchText] while the query is built. *)
Record Query : Type := mkQuery {
  query        : string;
  joinQuery    : string;
  replacements : list (string * option Json);
  conds        : list Cond
}.

Definition dq : string := String "034"%char EmptyString.
Definition nl : string := String "010"%char EmptyString.

Definition add (q : Query) (text : string) (c : Cond)
           (r : list (string * option Json)) : Query :=
  mkQuery (query q ++ text) (joinQuery q) (replacements q ++ r)%list
          (conds q ++ [c])%list.

(** [if (parameters.filters.id.$in.length === 0)
       parameters.filters.id.$in.push(-1)]: the list is the caller's. *)
Definition push_if_empty (f : Filters) : Filters :=
  match f_id f with
  | Some (IdObject []) =>
      mkFilters (Some (IdObject [-1])) (f_status f) (f_type f) (f_keyword f)
                (f_userId f) (f_email f)
  | _ => f
  end.

Definition id_clause (f : Filters) (q : Query) : Query :=
  match f_id f with
  | Some (IdObject in_) =>
      add q "AND projects.id IN(:id) " (IdIn in_)
          [("id", Some (JArr (map JNum in_)))]
  | Some (IdScalar v) =>
      add q "AND id = :id " (IdEq v) [("id", Some (JNum v))]
  | _ => q
  end.

Definition status_clause (f : Filters) (q : Query) : Query :=
  match f_status f with
  | Some (StatusObject in_) =>
      add q "AND projects.status IN (:status) " (StatusIn in_)
          [("status", Some (JArr (map JStr in_)))]
  | Some (StatusString s) =>
      add q "AND projects.status = :status" (StatusEq s)
          [("status", Some (JStr s))]
  | _ => q
  end.

Definition type_clause (f : Filters) (q : Query) : Query :=
  match f_type f with
  | Some t => add q "AND projects.type = :type " (TypeEq t) [("type", Some (JStr t))]
  | None => q
  end.

Definition keyword_clause (f : Filters) (q : Query) : Query :=
  match f_keyword f with
  | Some k =>
      add q ("AND projects." ++ dq ++ "projectFullText" ++ dq ++ " ~ lower(:keyword)")
          (FullTextMatches k) [("keyword", Some (JStr k))]
  | None => q
  end.

Definition has_member_filter (f : Filters) : bool :=
  match f_userId f, f_email f with
  | None, None => false
  | _, _ => true
  end.

Definition member_clause (f : Filters) (q : Query) : Query :=
  if has_member_filter f then
    mkQuery
      (query q ++ " AND (members." ++ dq ++ "userId" ++ dq ++ " = :userId" ++ nl
         ++ "          OR invites." ++ dq ++ "userId" ++ dq ++ " = :userId" ++ nl
         ++ "          OR invites." ++ dq ++ "email" ++ dq
         ++ " = :email) GROUP BY projects.id")
      ("LEFT OUTER JOIN project_members AS members ON projects.id = members."
         ++ dq ++ "projectId" ++ dq ++ nl
         ++ "          LEFT OUTER JOIN project_member_invites AS invites ON projects.id = invites."
         ++ dq ++ "projectId" ++ dq)
      (replacements q
         ++ [ ("userId", option_map JNum (f_userId f));
              ("email", option_map JStr (f_email f)) ])%list
      (conds q ++ [MemberOrInvite (f_userId f) (f_email f)])%list
  else q.

Definition build_query (f : Filters) : Query :=
  member_clause f
    (keyword_clause f
       (type_clause f
          (status_clause f
             (id_clause f (mkQuery "1=1 " EmptyString [] []))))).

(** [attributesStr] and [orderStr] *)
Definition attributesStr (attrs : list string) : string :=
  String.concat "," (map (fun attr => "projects." ++ dq ++ attr ++ dq) attrs).

Definition direction_text (d : Direction) : string :=
  match d with ASC => "asc" | DESC => "desc" end.

Definition orderStr (o : string * Direction) : string :=
  dq ++ fst o ++ dq ++ " " ++ direction_text (snd o).

Definition count_sql (q : Query) : string :=
  "SELECT COUNT(1) FROM projects AS projects" ++ nl
  ++ "          " ++ joinQuery q ++ nl
  ++ "          WHERE " ++ query q.

Definition rows_sql (p : Parameters) (q : Query) : string :=
  "SELECT " ++ attributesStr (attributes p) ++ " FROM projects AS projects" ++ nl
  ++ "              " ++ joinQuery q ++ nl
  ++ "              WHERE " ++ query q ++ " ORDER BY "
  ++ " projects." ++ orderStr (order p) ++ " LIMIT :limit OFFSET :offset".

(** The status clause has no space at its end; a type or keyword clause
    that follows it runs into its parameter name. *)
Definition clauses_run_together (f : Filters) : bool :=
  match f_status f with
  | Some (StatusString _) =>
      match f_type f, f_keyword f with
      | None, None => false
      | _, _ => true
      end
  | _ => false
  end.

(** The member clause names both [:userId] and [:email]. *)
Definition member_filter_complete (f : Filters) : bool :=
  match f_userId f, f_email f with
  | Some _, Some _ | None, None => true
  | _, _ => false
  end.

(** **** sequelize.query: named parameters *)

Definition is_digit (c : ascii) : bool :=
  let n := nat_of_ascii c in (48 <=? n)%nat && (n <=? 57)%nat.

(** [\w] *)
Definition is_word (c : ascii) : bool :=
  let n := nat_of_ascii c in
  is_digit c
  || ((65 <=? n)%nat && (n <=? 90)%nat)
  || ((97 <=? n)%nat && (n <=? 122)%nat)
  || (n =? 95)%nat.

Definition is_colon (c : ascii) : bool := Ascii.eqb c ":"%char.

(** Scanning state: outside a name after [colons] colons, or inside the
    name that follows them ([cast] when two or more colons precede it,
    which the postgres dialect leaves alone). *)
Inductive Scan : Type :=
| Outside (colons : nat)
| Inside (cast : bool) (w : string).

(** The names sequelize replaces: the matches of [/:+(?!\d)(\w+)/g]. *)
Fixpoint scan_parameters (st : Scan) (sql : string) : list string :=
  match sql with
  | EmptyString =>
      match st with
      | Inside false w => [w]
      | _ => []
      end
  | String c rest =>
      match st with
      | Inside cast w =>
          if is_word c
          then scan_parameters (Inside cast (w ++ String c EmptyString)) rest
          else ((if cast then [] else [w])
                  ++ scan_parameters (Outside (if is_colon c then 1 else 0)) rest)%list
      | Outside n =>
          if is_colon c then scan_parameters (Outside (S n)) rest
          else if (0 <? n)%nat && is_word c && negb (is_digit c)
          then scan_parameters (Inside (2 <=? n)%nat (String c EmptyString)) rest
          else scan_parameters (Outside 0) rest
      end
  end.

Definition named_parameters (sql : string) : list string :=
  scan_parameters (Outside 0) sql.

Definition is_bound (r : list (string * option Json)) (k : string) : bool :=
  match assoc_get k r with
  | Some (Some _) => true
  | _ => false
  end.

(** The first name of the text without a value among the replacements. *)
Definition unbound_parameter (sql : string) (r : list (string * option Json))
  : option string :=
  find (fun k => negb (is_bound r k)) (named_parameters sql).

Definition no_value (k : string) : string :=
  "Named parameter " ++ dq ++ ":" ++ k ++ dq
  ++ " has no value in the given object.".

(** An empty array is written as an empty [IN ()] list, which the database
    refuses. *)
Definition empty_in_list (c : Cond) : bool :=
  match c with
  | IdIn [] | StatusIn [] => true
  | _ => false
  end.

Definition is_joined (q : Query) : bool :=
  negb (String.eqb (joinQuery q) EmptyString).

(** [AND id = :id] names no table; the two joined tables have an [id]
    column each. *)
Definition is_id_equality (c : Cond) : bool :=
  match c with
  | IdEq _ => true
  | _ => false
  end.

(** Why [sequelize.query] rejects, if it does. *)
Definition query_error (sql : string) (q : Query)
           (r : list (string * option Json)) : option string :=
  match unbound_parameter sql r with
  | Some k => Some (no_value k)
  | None =>
      if existsb empty_in_list (conds q)
      then Some "syntax error at or near )"
      else if is_joined q && existsb is_id_equality (conds q)
      then Some ("column reference " ++ dq ++ "id" ++ dq ++ " is ambiguous")
      else None
  end.

(** **** sequelize.query: the rows selected *)

Definition num (v : option Z) : Json :=
  match v with Some n => JNum n | None => JNull end.

Definition str (v : option string) : Json :=
  match v with Some t => JStr t | None => JNull end.

Definition json (v : option Json) : Json :=
  match v with Some j => j | None => JNull end.

(** The columns of a row of [projects], by name. *)
Definition columns (r : ProjectRow) : list (string * Json) :=
  let p := row r in
  [ ("id", num (id p)); ("directProjectId", num (directProjectId p));
    ("billingAccountId", num (billingAccountId p)); ("name", str (name p));
    ("description", str (description p)); ("external", json (external p));
    ("bookmarks", json (bookmarks p)); ("utm", json (utm p));
    ("estimatedPrice", num (estimatedPrice p));
    ("actualPrice", num (actualPrice p));
    ("terms", match terms p with Some l => JArr (map JNum l) | None => JNull end);
    ("type", str (type p)); ("status", str (status p));
    ("details", json (details p));
    ("challengeEligibility", json (challengeEligibility p));
    ("cancelReason", str (cancelReason p)); ("templateId", num (templateId p));
    ("deletedAt", num (deletedAt p)); ("createdAt", num (createdAt p));
    ("updatedAt", num (updatedAt p)); ("deletedBy", num (deletedBy p));
    ("createdBy", num (createdBy p)); ("updatedBy", num (updatedBy p));
    ("version", str (version p)); ("lastActivityAt", num (lastActivityAt p));
    ("lastActivityUserId", str (lastActivityUserId p));
    ("projectFullText", str (projectFullText r)) ].

Definition column (c : string) (r : ProjectRow) : option Json :=
  assoc_get c (columns r).

(** Ordering of column values; NULL sorts as larger than any value. *)
Definition sql_compare (a b : Json) : comparison :=
  match a, b with
  | JNum x, JNum y => Z.compare x y
  | JStr x, JStr y => String.compare x y
  | JNull, JNull => Eq
  | JNull, _ => Gt
  | _, JNull => Lt
  | _, _ => Eq
  end.

Definition before (o : string * Direction) (a b : ProjectRow) : bool :=
  match column (fst o) a, column (fst o) b with
  | Some x, Some y =>
      match snd o, sql_compare x y with
      | ASC, Gt => false
      | DESC, Lt => false
      | _, _ => true
      end
  | _, _ => true
  end.

Fixpoint insert_ordered (o : string * Direction) (r : ProjectRow)
         (l : list ProjectRow) : list ProjectRow :=
  match l with
  | [] => [r]
  | x :: rest =>
      if before o x r then x :: insert_ordered o r rest else r :: l
  end.

(** [ORDER BY projects."<column>" <direction>] *)
Definition order_by (o : string * Direction) (l : list ProjectRow)
  : list ProjectRow :=
  fold_right (insert_ordered o) [] l.

Definition or_null {A : Type} (l : list A) : list (option A) :=
  match l with
  | [] => [None]
  | _ => map Some l
  end.

Definition is_project (p : ProjectRow) (projectId : Z) : bool :=
  match id (row p) with
  | Some i => i =? projectId
  | None => false
  end.

(** A row of [projects LEFT OUTER JOIN project_members LEFT OUTER JOIN
    project_member_invites]. *)
Definition Joined : Type := (ProjectRow * option Member * option Invite)%type.

Definition joined_rows (db : Database) (p : ProjectRow) : list Joined :=
  let members :=
    or_null (filter (fun m => is_project p (m_projectId m)) (project_members db)) in
  let invites :=
    or_null (filter (fun i => is_project p (i_projectId i))
                    (project_member_invites db)) in
  flat_map (fun m => map (fun i => (p, m, i)) invites) members.

Definition same_Z (a b : option Z) : bool :=
  match a, b with
  | Some x, Some y => x =? y
  | _, _ => false
  end.

Definition same_string (a b : option string) : bool :=
  match a, b with
  | Some x, Some y => String.eqb x y
  | _, _ => false
  end.

Section Search.

(** [text ~ lower(keyword)] of the database *)
Variable full_text_match : string -> string -> bool.

(** A comparison with NULL is not true. *)
Definition eval_cond (c : Cond) (j : Joined) : bool :=
  let '(p, m, i) := j in
  match c with
  | IdIn ids => existsb (is_project p) ids
  | IdEq v => is_project p v
  | StatusIn l => existsb (fun s => same_string (status (row p)) (Some s)) l
  | StatusEq s => same_string (status (row p)) (Some s)
  | TypeEq t => same_string (type (row p)) (Some t)
  | FullTextMatches k =>
      match projectFullText p with
      | Some text => full_text_match text k
      | None => false
      end
  | MemberOrInvite user email =>
      same_Z (option_map m_userId m) user
      || same_Z (match i with Some x => i_userId x | None => None end) user
      || same_string (match i with Some x => i_email x | None => None end) email
  end.

(** The rows of the FROM clause that belong to project [p] and pass the
    WHERE clause. *)
Definition passing (q : Query) (db : Database) (p : ProjectRow) : list Joined :=
  filter (fun j => forallb (fun c => eval_cond c j) (conds q))
         (if is_joined q then joined_rows db p else [(p, None, None)]).

(** [SELECT COUNT(1) ...]: one row, or with GROUP BY projects.id one row
    per project that has passing rows (ids are the primary key). *)
Definition select_count (q : Query) (db : Database) : list Z :=
  let counts :=
    map (fun p => Z.of_nat (List.length (passing q db p))) (projects db) in
  if is_joined q then filter (fun n => 0 <? n) counts
  else [fold_right Z.add 0 counts].

Definition select_rows (parameters : Parameters) (q : Query) (db : Database)
           (lim off : nat) : list (list (string * Json)) :=
  let selected :=
    filter (fun p => negb (Nat.eqb (List.length (passing q db p)) 0))
           (projects db) in
  let page := firstn lim (skipn off (order_by (order parameters) selected)) in
  map (fun r =>
         flat_map (fun attr => match column attr r with
                               | Some v => [(attr, v)]
                               | None => []
                               end) (attributes parameters))
      page.

Definition unknown_column (parameters : Parameters) : option string :=
  find (fun c => match column c (mkProjectRow
                   (mkProject None None None None None None None None None
                      None None None None None None None None None None None
                      None None None None None None) None) with
                 | Some _ => false
                 | None => true
                 end)
       (fst (order parameters) :: attributes parameters).

(** [Project.searchText(parameters, log)].  The result carries the
    [parameters.filters] object as the call leaves it, and either the
    error the promise rejects with or [{ rows, count }]. *)
Definition searchText (parameters : Parameters) (db : Database)
  : Filters * (string + list (list (string * Json)) * Z) :=
  let f := push_if_empty (filters parameters) in
  let q := build_query f in
  (f,
   match query_error (count_sql q) q (replacements q) with
   | Some e => inl e
   | None =>
       let fcount := select_count q db in
       let count :=
         match fcount with
         | [c] => c
         | _ => Z.of_nat (List.length fcount)
         end in
       let replacements' :=
         (replacements q
            ++ [ ("limit", option_map (fun n => JNum (Z.of_nat n)) (limit parameters));
                 ("offset", option_map (fun n => JNum (Z.of_nat n)) (offset parameters)) ])%list in
       match query_error (rows_sql parameters q) q replacements',
             unknown_column parameters,
             limit parameters, offset parameters with
       | Some e, _, _, _ => inl e
       | None, Some c, _, _ => inl ("column projects." ++ c ++ " does not exist")
       | None, None, Some lim, Some off =>
           inr (select_rows parameters q db lim off, count)
       | None, None, _, _ => inl (no_value "limit")
       end
   end).

(** The projects that pass the filters, whatever the page. *)
Definition matching_projects (parameters : Parameters) (db : Database)
  : list ProjectRow :=
  let q := build_query (push_if_empty (filters parameters)) in
  filter (fun p => negb (Nat.eqb (List.length (passing q db p)) 0))
         (projects db).

End Search.

End Project.

(* ------------------------------------------------------------------ *)
(** ** Sample data                                                      *)
(* ------------------------------------------------------------------ *)

Module Samples.
Import Express.
Local Open Scope Z_scope.

(** A project row with the given id, status and type. *)
Definition project (i : Z) (st ty : string) : Project.ProjectRow :=
  Project.mkProjectRow
    (Project.mkProject (Some i) None None (Some "Website") None None None None
       None None (Some []) (Some ty) (Some st) None None None None None
       (Some 1000) (Some 1000) None (Some 7) (Some 7) (Some "v3") (Some 1000)
       (Some "7"))
    (Some "website").

(** One project; user 7 is its only member; two invites to other people
    are open. *)
Definition one_project_two_invites : Project.Database :=
  Project.mkDatabase
    [ project 1 "active" "generic" ]
    [ Project.mkMember 1 7 ]
    [ Project.mkInvite 1 (Some 8) (Some "eight@example.com");
      Project.mkInvite 1 None (Some "nine@example.com") ].

(** The same row created at another time. *)
Definition created_at (t : Z) (r : Project.ProjectRow) : Project.ProjectRow :=
  let p := Project.row r in
  Project.mkProjectRow
    (Project.mkProject (Project.id p) (Project.directProjectId p)
       (Project.billingAccountId p) (Project.name p) (Project.description p)
       (Project.external p) (Project.bookmarks p) (Project.utm p)
       (Project.estimatedPrice p) (Project.actualPrice p) (Project.terms p)
       (Project.type p) (Project.status p) (Project.details p)
       (Project.challengeEligibility p) (Project.cancelReason p)
       (Project.templateId p) (Project.deletedAt p) (Some t)
       (Project.updatedAt p) (Project.deletedBy p) (Project.createdBy p)
       (Project.updatedBy p) (Project.version p) (Project.lastActivityAt p)
       (Project.lastActivityUserId p))
    (Project.projectFullText r).

(** Two projects, the second created later; user 7 is a member of both,
    and the second has one open invite. *)
Definition two_projects : Project.Database :=
  Project.mkDatabase
    [ project 1 "active" "generic";
      created_at 2000 (project 2 "draft" "generic") ]
    [ Project.mkMember 1 7; Project.mkMember 2 7 ]
    [ Project.mkInvite 2 (Some 8) (Some "eight@example.com") ].

(** [filters: { userId: 7, email: 'seven@example.com' }], first page. *)
Definition my_projects : Project.Parameters :=
  Project.mkParameters
    (Project.mkFilters None None None None (Some 7) (Some "seven@example.com"))
    ("createdAt", Project.DESC) (Some 20%nat) (Some 0%nat) ["id"; "name"].

(** [filters: { id: { $in: [] }, status: 'active', type: 'generic' }] *)
Definition empty_in_active_generic : Project.Parameters :=
  Project.mkParameters
    (Project.mkFilters (Some (Project.IdObject [])) (Some (Project.StatusString "active"))
       (Some "generic") None None None)
    ("createdAt", Project.DESC) (Some 20%nat) (Some 0%nat) ["id"; "name"].

(** [filters: { id: { $in: [] } }] *)
Definition empty_in : Project.Parameters :=
  Project.mkParameters
    (Project.mkFilters (Some (Project.IdObject [])) None None None None None)
    ("createdAt", Project.DESC) (Some 20%nat) (Some 0%nat) ["id"; "name"].

Definition no_match (text keyword : string) : bool := false.

Definition user : AuthUser := mkAuthUser 40051333.

(** [POST .../planConfig/dev/versions/1/revisions] with
    [{ param: { phases: {} } }] *)
Definition revision_request : Request :=
  mkRequest "POST" "/v4/projects/metadata/planConfig/dev/versions/1/revisions"
            [] (mkParams "dev" 1) (JObj [("param", JObj [("phases", JObj [])])])
            (Some user) "req-2".

(** [HEAD /V4/Projects/ESLOG/?q=id] without credentials *)
Definition head_request : Request :=
  mkRequest "HEAD" "/V4/Projects/ESLOG/" [("q", "id")]
            (mkParams EmptyString 0) (JObj []) None "req-5".

(** A validation that passes every request as it is, and one that passes
    none. *)
Definition passes : ExpressValidation.Validation := fun _ req => Some req.

Definition fails : ExpressValidation.Validation := fun _ _ => None.

(** [DELETE .../form/dev/versions/1] *)
Definition delete_request : Request :=
  mkRequest "DELETE" "/v4/projects/metadata/form/dev/versions/1"
            [] (mkParams "dev" 1) (JObj []) (Some user) "req-3".

(** Revisions 1 and 2 of planConfig [dev] version 1, and one revision of
    another key. *)
Definition plan_configs : PlanConfig.Table :=
  PlanConfig.mkTable
    [ PlanConfig.mkPlanConfig 1 "dev" 1 1 (Some (JObj [])) 7 7 None None;
      PlanConfig.mkPlanConfig 2 "dev" 1 2 (Some (JObj [])) 7 7 None None;
      PlanConfig.mkPlanConfig 3 "design" 1 1 (Some (JObj [])) 7 7 None None ]
    4.

Definition forms : list Form.Form :=
  [ Form.mkForm 1 "dev" 1 1 (JObj []) 7 7 None None;
    Form.mkForm 2 "dev" 1 2 (JObj []) 7 7 None None;
    Form.mkForm 3 "design" 1 1 (JObj []) 7 7 None None ].

Definition wrap (reqId : string) (content : Json) (count code : Z) : Json :=
  JObj [ ("id", JStr reqId);
         ("result", JObj [ ("status", JNum code); ("content", content);
                           ("metadata", JObj [("totalCount", JNum count)]) ]) ].

(** Values for [Project.create] and an enumeration of statuses. *)
Definition statuses : list string :=
  [ "draft"; "in_review"; "reviewed"; "active"; "completed"; "paused";
    "cancelled" ].

Definition new_project : Project.Project :=
  Project.mkProject None None None (Some "Website") None None None None None
    None None (Some "generic") (Some "draft") None None None None None None
    None None (Some 7) (Some 7) None (Some 1000) (Some "7").

(** The first project as read back and paused. *)
Definition paused_project : Project.Project :=
  Project.mkProject (Some 1) None None (Some "Website") None None None None
    None None (Some []) (Some "generic") (Some "paused") None None None None
    None (Some 1000) (Some 3000) None (Some 7) (Some 8) (Some "v3") (Some 3000)
    (Some "8").

End Samples.

(* ================================================================== *)
(** * Part II: theorems                                                *)
(* ================================================================== *)

Import Permissions.

Lemma USER_ROLE_eqb_eq (a b : USER_ROLE.t) :
  USER_ROLE.eqb a b = true <-> a = b.
Proof.
  split; [destruct a, b; simpl; congruence | intros ->; destruct b; reflexivity].
Qed.

(** The entries of the default-role table that the matrix does not allow. *)
Lemma default_roles_not_allowed :
  filter (fun e => negb (allowed_by_matrix e)) DEFAULT_PROJECT_ROLE
  = [ mkDefaultRole USER_ROLE.COPILOT PROJECT_MEMBER_ROLE.ACCOUNT_MANAGER ].
Proof. reflexivity. Qed.

(** C10 (fails on the code): the default-role table is not consistent with
    the project-role / Topcoder-role matrix.  The entry for the Topcoder
    role [COPILOT] assigns the project role [ACCOUNT_MANAGER], and the matrix
    row of [ACCOUNT_MANAGER] does not contain [COPILOT]. *)
Theorem default_project_role_copilot_not_in_matrix :
  In (mkDefaultRole USER_ROLE.COPILOT PROJECT_MEMBER_ROLE.ACCOUNT_MANAGER)
     DEFAULT_PROJECT_ROLE /\
  (exists roles,
      get_property PROJECT_TO_TOPCODER_ROLES_MATRIX
                   PROJECT_MEMBER_ROLE.ACCOUNT_MANAGER = Some roles /\
      ~ In USER_ROLE.COPILOT roles) /\
  forallb allowed_by_matrix DEFAULT_PROJECT_ROLE = false.
Proof.
  split; [simpl; tauto|]. split; [|reflexivity].
  eexists; split; [reflexivity|].
  simpl. intros H. repeat (destruct H as [H|H]; [discriminate H|]). exact H.
Qed.

(* ------------------------------------------------------------------ *)
(** ** Routes and the permission middleware                             *)
(* ------------------------------------------------------------------ *)

Import Express.

Section GuardedChains.

Variable W : Type.
Variable authorized : string -> Request -> bool.

(** In a guarded chain no process execution and no transaction comes
    before a granted permission check. *)
Lemma guarded_chain_trace (c : list (Middleware W)) (req : Request) (w : W) :
  guarded c = true ->
  operations_guarded (fst (run_chain authorized c req w)) = true.
Proof.
  revert req.
  induction c as [|m c IH]; simpl; intros req G; [reflexivity|].
  destruct m as [schema|policy|h]; [| |discriminate G].
  - destruct (schema req) as [req'|]; [|reflexivity].
    specialize (IH req' G). destruct (run_chain authorized c req' w) as [t w'].
    simpl in *. exact IH.
  - destruct (authorized policy req); [|reflexivity].
    destruct (run_chain authorized c req w) as [t w']. reflexivity.
Qed.

End GuardedChains.

(** The two exported chains of the route module put [validate] and
    [permissions] before the handler. *)
Lemma route_modules_guarded now validate_with max wrap :
  guarded (Form.module_exports now validate_with) = true /\
  guarded (PlanConfig.module_exports now validate_with max wrap) = true.
Proof. split; reflexivity. Qed.

(** A path that matches one of the two patterns of app.js does not match
    the other. *)
Lemma same_path_eslog_not_index (p : string) :
  same_path "/v4/projects/eslog" p = true ->
  same_path "/v4/projects/index" p = false.
Proof.
  unfold same_path. intros H. apply orb_true_iff in H.
  destruct H as [H|H]; apply String.eqb_eq in H; rewrite H; reflexivity.
Qed.

Lemma same_path_index_not_eslog (p : string) :
  same_path "/v4/projects/index" p = true ->
  same_path "/v4/projects/eslog" p = false.
Proof.
  unfold same_path. intros H. apply orb_true_iff in H.
  destruct H as [H|H]; apply String.eqb_eq in H; rewrite H; reflexivity.
Qed.

Section AppDispatch.

Variables (W ExecError : Type).
Variable exec : string -> W -> App.ExecResult ExecError * W.
Variable JSON_stringify : option ExecError -> string.
Variable authorized : string -> Request -> bool.
Variable router : list (Route W).

(** A GET or HEAD request whose path matches the pattern of the eslog
    route is served by the eslog handler. *)
Lemma dispatch_eslog (req : Request) (w : W) :
  is_get_or_head req = true ->
  same_path "/v4/projects/eslog" (path req) = true ->
  dispatch authorized (App.app exec JSON_stringify router) req w
  = App.eslog exec JSON_stringify req w.
Proof.
  intros M P. unfold App.app. cbn [app dispatch get matches chain run_chain].
  rewrite M, P, (same_path_eslog_not_index _ P). reflexivity.
Qed.

Lemma dispatch_index (req : Request) (w : W) :
  is_get_or_head req = true ->
  same_path "/v4/projects/index" (path req) = true ->
  dispatch authorized (App.app exec JSON_stringify router) req w
  = App.index exec JSON_stringify req w.
Proof.
  intros M P. unfold App.app. cbn [app dispatch get matches chain run_chain].
  rewrite M, P. reflexivity.
Qed.

(** Every other request is served by the router as if the two routes were
    not there. *)
Lemma dispatch_router (req : Request) (w : W) :
  is_get_or_head req
  && (same_path "/v4/projects/index" (path req)
      || same_path "/v4/projects/eslog" (path req)) = false ->
  dispatch authorized (App.app exec JSON_stringify router) req w
  = dispatch authorized router req w.
Proof.
  intros H. unfold App.app. cbn [app dispatch get matches chain run_chain].
  destruct (is_get_or_head req); [|reflexivity].
  cbn [andb] in *. apply orb_false_iff in H. destruct H as [H1 H2].
  rewrite H1, H2. reflexivity.
Qed.

(** The eslog handler on a query string that is not empty. *)
Lemma eslog_nonempty (req : Request) (q : string) (w : W) :
  assoc_get "q" (query req) = Some q ->
  q <> EmptyString ->
  App.eslog exec JSON_stringify req w
  = ([ EExec q;
       send req (JObj
         [ ("out1",  JStr ("stdout: " ++ App.stdout (fst (exec q w))));
           ("erro1", JStr ("stderr: " ++ App.stderr (fst (exec q w))));
           ("errs1", JStr (JSON_stringify (App.err (fst (exec q w))))) ]) ],
     snd (exec q w)).
Proof.
  intros Q N. unfold App.eslog. rewrite Q.
  destruct q as [|c rest]; [contradiction|].
  destruct (exec (String c rest) w) as [r w1]. reflexivity.
Qed.

Lemma eslog_empty (req : Request) (w : W) :
  assoc_get "q" (query req) = Some EmptyString ->
  App.eslog exec JSON_stringify req w
  = ([ENext (mkApiError "The argument 'file' cannot be empty" None)], w).
Proof. intros Q. unfold App.eslog. rewrite Q. reflexivity. Qed.

End AppDispatch.

(** C1 (fails on the code): the route [GET /v4/projects/eslog], which
    app.js registers ahead of the router, has no validation and no permission
    middleware.  A request without credentials reaches [exec] with its own
    [q], whatever non-empty [q] it is; the trace holds no permission event,
    so the execution is unguarded.  Only the empty [q] runs nothing: [exec]
    refuses it.  The chain of [/v4/projects/index] is unguarded as well. *)
Theorem eslog_route_reaches_exec_unguarded :
  forall (W ExecError : Type)
         (exec : string -> W -> App.ExecResult ExecError * W)
         (JSON_stringify : option ExecError -> string)
         (authorized : string -> Request -> bool)
         (router : list (Route W)) (q : string) (w : W),
    let t := fst (dispatch authorized (App.app exec JSON_stringify router)
                           (App.eslog_request q) w) in
    executed t = (if String.eqb q EmptyString then [] else [q]) /\
    existsb is_permission_event t = false /\
    existsb is_validate_event t = false /\
    operations_guarded t = String.eqb q EmptyString /\
    forallb (fun r => guarded (chain r))
            (firstn 2 (App.app exec JSON_stringify router)) = false.
Proof.
  intros. subst t.
  rewrite dispatch_eslog by reflexivity.
  destruct q as [|c rest].
  - rewrite eslog_empty by reflexivity. repeat split; reflexivity.
  - rewrite (@eslog_nonempty W ExecError exec JSON_stringify
               (App.eslog_request (String c rest)) (String c rest) w eq_refl)
      by discriminate.
    repeat split; reflexivity.
Qed.

(** C2 (amended): the handler of [GET /v4/projects/eslog] hands a
    [req.query.q] that is not empty unchanged to [exec] and answers with
    the command's stdout, stderr and stringified error; no validation and no
    permission check runs.  For two requests with different non-empty [q]
    the executed commands differ, and the responses differ exactly when the
    results of the two commands differ. *)
Theorem eslog_executes_query_verbatim :
  forall (W ExecError : Type)
         (exec : string -> W -> App.ExecResult ExecError * W)
         (JSON_stringify : option ExecError -> string)
         (authorized : string -> Request -> bool)
         (router : list (Route W)) (req1 req2 : Request) (q1 q2 : string) (w : W),
    method req1 = "GET" -> path req1 = "/v4/projects/eslog" ->
    method req2 = "GET" -> path req2 = "/v4/projects/eslog" ->
    assoc_get "q" (query req1) = Some q1 ->
    assoc_get "q" (query req2) = Some q2 ->
    q1 <> EmptyString -> q2 <> EmptyString ->
    q1 <> q2 ->
    let run req := fst (dispatch authorized (App.app exec JSON_stringify router) req w) in
    let result q := fst (exec q w) in
    let answer q :=
      ERespond 200 (Some (JObj
        [ ("out1",  JStr ("stdout: " ++ App.stdout (result q)));
          ("erro1", JStr ("stderr: " ++ App.stderr (result q)));
          ("errs1", JStr (JSON_stringify (App.err (result q)))) ])) in
    run req1 = [EExec q1; answer q1] /\
    run req2 = [EExec q2; answer q2] /\
    executed (run req1) <> executed (run req2) /\
    existsb is_validate_event (run req1) = false /\
    existsb is_permission_event (run req1) = false /\
    (responses (run req1) = responses (run req2) <->
     App.stdout (result q1) = App.stdout (result q2) /\
     App.stderr (result q1) = App.stderr (result q2) /\
     JSON_stringify (App.err (result q1)) = JSON_stringify (App.err (result q2))).
Proof.
  intros W ExecError exec JSON_stringify authorized router req1 req2 q1 q2 w
         M1 P1 M2 P2 Q1 Q2 N1 N2 Hne run result answer.
  assert (R : forall req q, method req = "GET" ->
                            path req = "/v4/projects/eslog" ->
                            assoc_get "q" (query req) = Some q ->
                            q <> EmptyString ->
                            run req = [EExec q; answer q]).
  { intros req q M P Q N. unfold run, answer, result.
    rewrite dispatch_eslog;
      [|unfold is_get_or_head; rewrite M; reflexivity|rewrite P; reflexivity].
    rewrite (eslog_nonempty exec JSON_stringify req w Q N).
    unfold send. rewrite M. reflexivity. }
  rewrite (R req1 q1 M1 P1 Q1 N1), (R req2 q2 M2 P2 Q2 N2).
  split; [reflexivity|]. split; [reflexivity|].
  split; [simpl; intros E; injection E as E; exact (Hne E)|].
  split; [reflexivity|]. split; [reflexivity|].
  unfold answer; simpl. split.
  - intros H. injection H as A B C. repeat split; assumption.
  - intros (A & B & C). rewrite A, B, C. reflexivity.
Qed.

Lemma eslog_executes_query_verbatim_witness :
  let run q := fst (dispatch (fun _ _ => false)
                      (App.app App.echo_shell App.stringify_null [])
                      (App.eslog_request q) tt) in
  run "id" = [EExec "id";
              ERespond 200 (Some (JObj [ ("out1", JStr "stdout: id");
                                         ("erro1", JStr "stderr: ");
                                         ("errs1", JStr "null") ]))] /\
  executed (run "id") <> executed (run "cat /etc/passwd").
Proof.
  pose proof (eslog_executes_query_verbatim App.echo_shell App.stringify_null
                (fun _ _ => false) [] (App.eslog_request "id")
                (App.eslog_request "cat /etc/passwd") tt
                eq_refl eq_refl eq_refl eq_refl eq_refl eq_refl) as H.
  assert (N1 : "id" <> EmptyString) by discriminate.
  assert (N2 : "cat /etc/passwd" <> EmptyString) by discriminate.
  assert (Hne : "id" <> "cat /etc/passwd") by discriminate.
  destruct (H N1 N2 Hne) as (A & _ & B & _). split; [exact A | exact B].
Defined.

(** C2 (as stated, refuted): a request whose [q] is the empty string runs
    no command and gets no 200 answer.  [exec] throws on the empty command
    line before any process is spawned, and the exception goes to the error
    middleware. *)
Lemma eslog_empty_query_runs_nothing :
  let t := fst (dispatch (fun _ _ => false)
                  (App.app App.echo_shell App.stringify_null [])
                  (App.eslog_request EmptyString) tt) in
  (exists e, t = [ENext e]) /\
  executed t = [] /\
  existsb is_operation_event t = false /\
  responses t = [] /\
  t <> [EExec EmptyString;
        ERespond 200 (Some (JObj [ ("out1", JStr "stdout: ");
                                   ("erro1", JStr "stderr: ");
                                   ("errs1", JStr "null") ]))].
Proof.
  cbv zeta. split; [eexists; reflexivity|].
  repeat split; try reflexivity. discriminate.
Qed.

(* ------------------------------------------------------------------ *)
(** ** Lists                                                            *)
(* ------------------------------------------------------------------ *)

Lemma filter_none {A : Type} (f : A -> bool) (l : list A) :
  (forall x, In x l -> f x = false) -> filter f l = [].
Proof.
  induction l as [|a l IH]; simpl; intros H; [reflexivity|].
  rewrite (H a (or_introl eq_refl)). apply IH. intros x Hx. apply H. now right.
Qed.

Lemma filter_nil_none {A : Type} (f : A -> bool) (l : list A) :
  filter f l = [] -> forall x, In x l -> f x = false.
Proof.
  intros E x Hx. destruct (f x) eqn:F; [|reflexivity].
  assert (In x (filter f l)) as Hin by (apply filter_In; split; assumption).
  rewrite E in Hin. destruct Hin.
Qed.

Lemma length_zero_nil {A : Type} (l : list A) :
  Nat.eqb (List.length l) 0 = true <-> l = [].
Proof.
  destruct l; simpl; split; intros H; try reflexivity; discriminate H.
Qed.

(* ------------------------------------------------------------------ *)
(** ** Form version delete                                              *)
(* ------------------------------------------------------------------ *)

Module FormFacts.
Import Orm Form.

Lemma delete_not_found now req forms :
  filter (selects (where_of req)) forms = [] ->
  delete now req forms = (inr (inl (not_found req)), forms).
Proof.
  intros E.
  unfold delete, transaction, catch_next, and_then, findAll, reject, where_of in *.
  rewrite E. reflexivity.
Qed.

Lemma delete_found now req forms u :
  authUser req = Some u ->
  filter (selects (where_of req)) forms <> [] ->
  delete now req forms
  = (inr (inr (204%Z, None)),
     snd (destroy now (where_of req)
            (snd (update (userId u) (where_of req) forms)))).
Proof.
  intros A E. unfold delete, transaction, catch_next, and_then, findAll, reject,
    resolve, where_of in *.
  destruct (filter _ forms) as [|r l] eqn:F; [contradiction|].
  simpl. rewrite A. reflexivity.
Qed.

Lemma delete_unauthenticated now req forms :
  authUser req = None ->
  filter (selects (where_of req)) forms <> [] ->
  exists msg, delete now req forms = (inr (inl (TypeError msg)), forms).
Proof.
  intros A E. unfold delete, transaction, catch_next, and_then, findAll, reject,
    resolve, where_of in *.
  destruct (filter _ forms) as [|r l] eqn:F; [contradiction|].
  simpl. rewrite A. eexists. reflexivity.
Qed.

Lemma update_then_destroy now by_user w forms :
  snd (destroy now w (snd (update by_user w forms)))
  = map (fun r => if selects w r then deleted_by now by_user r else r) forms.
Proof.
  unfold destroy, update. simpl. rewrite map_map. apply map_ext.
  intros r. destruct (selects w r) eqn:S.
  - assert (selects w (mkForm (id r) (key r) (version r) (revision r)
                              (config r) (createdBy r) (updatedBy r)
                              (Some by_user) (deletedAt r)) = true) as S'
        by exact S.
    rewrite S'. reflexivity.
  - rewrite S. reflexivity.
Qed.

(** C6: when a Form row matches the key and version, the delete handler
    first sets [deletedBy] to the requesting user's id on the matching rows,
    then destroys them, and answers 204 with an empty body.  Each matching
    row ends with [deletedBy] the user and [deletedAt] set, every other row
    is as before, and no row matches the key and version afterwards. *)
Theorem delete_marks_then_destroys_204 :
  forall (now : Z) (req : Request) (forms : list Form) (u : AuthUser),
    authUser req = Some u ->
    filter (selects (where_of req)) forms <> [] ->
    let marked := snd (update (userId u) (where_of req) forms) in
    let destroyed := snd (destroy now (where_of req) marked) in
    delete now req forms = (inr (inr (204%Z, None)), destroyed) /\
    as_handler (delete now) req forms
      = ([ETransaction; ERespond 204 None], destroyed) /\
    marked = map (fun r => if selects (where_of req) r
                           then mkForm (id r) (key r) (version r) (revision r)
                                       (config r) (createdBy r) (updatedBy r)
                                       (Some (userId u)) (deletedAt r)
                           else r) forms /\
    destroyed = map (fun r => if selects (where_of req) r
                              then deleted_by now (userId u) r else r) forms /\
    filter (selects (where_of req)) destroyed = [].
Proof.
  intros now req forms u A E marked destroyed.
  pose proof (delete_found now req forms A E) as D.
  pose proof (update_then_destroy now (userId u) (where_of req) forms) as M.
  fold marked in D, M. fold destroyed in D, M.
  split; [exact D|]. split; [unfold as_handler; rewrite D; reflexivity|].
  split; [reflexivity|]. split; [exact M|].
  rewrite M. apply filter_none. intros x Hx.
  apply in_map_iff in Hx. destruct Hx as (r & <- & _).
  destruct (selects (where_of req) r) eqn:S; [reflexivity | exact S].
Qed.

Lemma delete_marks_then_destroys_204_witness :
  delete 5000 Samples.delete_request Samples.forms
  = (inr (inr (204%Z, None)),
     [ mkForm 1 "dev" 1 1 (JObj []) 7 7 (Some 40051333%Z) (Some 5000%Z);
       mkForm 2 "dev" 1 2 (JObj []) 7 7 (Some 40051333%Z) (Some 5000%Z);
       mkForm 3 "design" 1 1 (JObj []) 7 7 None None ]).
Proof.
  assert (A : authUser Samples.delete_request = Some Samples.user) by reflexivity.
  assert (NE : filter (selects (where_of Samples.delete_request)) Samples.forms <> [])
    by (vm_compute; discriminate).
  exact (proj1 (@delete_marks_then_destroys_204 5000 Samples.delete_request
                  Samples.forms Samples.user A NE)).
Defined.

End FormFacts.

(* ------------------------------------------------------------------ *)
(** ** PlanConfig revisions                                             *)
(* ------------------------------------------------------------------ *)

Module PlanConfigFacts.
Import Orm PlanConfig.
Local Open Scope Z_scope.

(** *** Ordering by revision *)

Lemma insert_desc_length r l :
  List.length (insert_desc r l) = S (List.length l).
Proof.
  induction l as [|x l IH]; simpl; [reflexivity|].
  destruct (revision x <=? revision r); simpl; [reflexivity | now rewrite IH].
Qed.

Lemma order_revision_desc_length l :
  List.length (order_revision_desc l) = List.length l.
Proof.
  induction l as [|a l IH]; simpl; [reflexivity|].
  rewrite insert_desc_length. now rewrite IH.
Qed.

Lemma insert_desc_head r l :
  hd_error (insert_desc r l)
  = match hd_error l with
    | None => Some r
    | Some x => if revision x <=? revision r then Some r else Some x
    end.
Proof.
  destruct l as [|x l]; simpl; [reflexivity|].
  destruct (revision x <=? revision r); reflexivity.
Qed.

(** [planConfigs[0]] is a row of the list with the highest revision. *)
Lemma order_revision_desc_head l :
  match hd_error (order_revision_desc l) with
  | None => l = []
  | Some top => In top l /\ forall r, In r l -> revision r <= revision top
  end.
Proof.
  induction l as [|a l IH]; simpl; [reflexivity|].
  rewrite insert_desc_head.
  destruct (hd_error (order_revision_desc l)) as [x|].
  - destruct IH as [Hin Hmax].
    destruct (revision x <=? revision a) eqn:C.
    + apply Z.leb_le in C. split; [now left|].
      intros r [<-|Hr]; [lia|]. specialize (Hmax r Hr). lia.
    + apply Z.leb_gt in C. split; [now right|].
      intros r [<-|Hr]; [lia|]. exact (Hmax r Hr).
  - subst l. split; [now left|]. intros r [<-|[]]. lia.
Qed.

(** *** The oldest revision *)

Lemma least_revision_spec l m :
  least_revision l = Some m ->
  (exists r, In r l /\ revision r = m) /\
  (forall r, In r l -> m <= revision r).
Proof.
  revert m. induction l as [|a l IH]; simpl; intros m H; [discriminate H|].
  destruct (least_revision l) as [m'|] eqn:L.
  - injection H as <-. destruct (IH m' eq_refl) as [(r & Hr & E) Hmin].
    split.
    + destruct (Z.min_spec (revision a) m') as [[_ ->]|[_ ->]].
      * exists a. split; [now left | reflexivity].
      * exists r. split; [now right | exact E].
    + intros x [<-|Hx]; [lia|]. specialize (Hmin x Hx). lia.
  - injection H as <-. destruct l as [|b l].
    + split; [exists a; split; [now left | reflexivity]|].
      intros x [<-|[]]. lia.
    + simpl in L. destruct (least_revision l); discriminate L.
Qed.

Lemma least_revision_none l : least_revision l = None -> l = [].
Proof.
  destruct l as [|a l]; simpl; [reflexivity|].
  destruct (least_revision l); discriminate.
Qed.

Section Eviction.

Variables (now by_user : Z) (w : Where).

Lemma evicted_not_selected r : selects w (evicted now by_user r) = false.
Proof. reflexivity. Qed.

Lemma evict_revision_split m l :
  (exists r, In r l /\ selects w r = true /\ revision r = m) ->
  exists l1 old l2,
    l = (l1 ++ old :: l2)%list /\
    selects w old = true /\ revision old = m /\
    evict_revision now by_user w m l
    = (l1 ++ evicted now by_user old :: l2)%list.
Proof.
  induction l as [|a l IH]; intros (r & Hr & S & E); [destruct Hr|].
  simpl. destruct (selects w a && (revision a =? m)) eqn:C.
  - apply andb_true_iff in C. destruct C as [Sa Ea]. apply Z.eqb_eq in Ea.
    exists [], a, l. repeat split; assumption.
  - destruct Hr as [<-|Hr].
    + rewrite S in C. simpl in C. apply Z.eqb_neq in C. contradiction.
    + destruct IH as (l1 & old & l2 & -> & So & Eo & Ev);
        [exists r; repeat split; assumption|].
      exists (a :: l1), old, l2. rewrite Ev. repeat split; assumption.
Qed.

Lemma count_after_eviction l1 old l2 :
  selects w old = true ->
  List.length (filter (selects w) (l1 ++ old :: l2))
  = S (List.length (filter (selects w) (l1 ++ evicted now by_user old :: l2))).
Proof.
  intros S. rewrite !filter_app. cbn [filter].
  rewrite S, evicted_not_selected. rewrite !length_app. simpl. lia.
Qed.

End Eviction.

(** What [deleteOldestRevision] does when a revision exists. *)
Lemma deleteOldestRevision_spec now by_user k v tbl :
  filter (selects (mkWhere k v)) (rows tbl) <> [] ->
  exists l1 old l2,
    rows tbl = (l1 ++ old :: l2)%list /\
    selects (mkWhere k v) old = true /\
    (forall r, In r (rows tbl) -> selects (mkWhere k v) r = true ->
               revision old <= revision r) /\
    deleteOldestRevision now by_user k v tbl
    = (inr tt, mkTable (l1 ++ evicted now by_user old :: l2) (nextId tbl)).
Proof.
  intros NE. unfold deleteOldestRevision.
  destruct (least_revision (filter (selects (mkWhere k v)) (rows tbl)))
    as [m|] eqn:L; [|apply least_revision_none in L; contradiction].
  destruct (least_revision_spec _ L) as [(r & Hr & E) Hmin].
  apply filter_In in Hr. destruct Hr as [Hr S].
  destruct (@evict_revision_split now by_user (mkWhere k v) m (rows tbl))
    as (l1 & old & l2 & R & So & Eo & Ev);
    [exists r; repeat split; assumption|].
  exists l1, old, l2. rewrite Ev. repeat split; try assumption.
  intros x Hx Sx. rewrite Eo. apply Hmin. apply filter_In. split; assumption.
Qed.

Lemma revision_count_create e tbl :
  revision_count (e_key e) (e_version e) (snd (create e tbl))
  = revision_count (e_key e) (e_version e) tbl + 1.
Proof.
  unfold revision_count, create. simpl. rewrite filter_app, length_app. simpl.
  unfold selects at 2. simpl. rewrite String.eqb_refl, Z.eqb_refl. simpl. lia.
Qed.

(** *** The create-revision handler, case by case *)

Lemma deleteOldestRevision_resolves now by_user k v tbl :
  fst (deleteOldestRevision now by_user k v tbl) = inr tt.
Proof.
  unfold deleteOldestRevision. destruct (least_revision _); reflexivity.
Qed.

Lemma revision_count_spec k v tbl :
  revision_count k v tbl
  = Z.of_nat (List.length (filter (selects (mkWhere k v)) (rows tbl))).
Proof. reflexivity. Qed.

(** Eviction never adds a revision. *)
Lemma revision_count_deleteOldestRevision now by_user k v tbl :
  revision_count k v (snd (deleteOldestRevision now by_user k v tbl))
  <= revision_count k v tbl.
Proof.
  destruct (filter (selects (mkWhere k v)) (rows tbl)) as [|r l] eqn:E.
  - unfold deleteOldestRevision. rewrite E. simpl. lia.
  - destruct (@deleteOldestRevision_spec now by_user k v tbl)
      as (l1 & old & l2 & R & So & _ & D); [rewrite E; discriminate|].
    rewrite D. cbn [snd]. rewrite !revision_count_spec. cbn [rows]. rewrite R.
    rewrite (@count_after_eviction now by_user (mkWhere k v) l1 old l2 So). lia.
Qed.

Section Cases.

Variables (now MAX : Z) (wrapResponse : string -> Json -> Z -> Z -> Json).
Variables (req : Request) (tbl : Table).

Let k := Express.key (params req).
Let v := Express.version (params req).
Let selected := filter (selects (where_of req)) (rows tbl).

Ltac run_handler :=
  unfold create_revision, transaction, catch_next, and_then, findAll, resolve,
    reject;
  fold (where_of req); fold selected; fold k v.

Lemma create_revision_not_found :
  revision_count k v tbl < MAX ->
  selected = [] ->
  create_revision now MAX wrapResponse req tbl = (inr (inl (not_found req)), tbl).
Proof.
  intros Lt E. change (Z.of_nat (List.length selected) < MAX) in Lt.
  run_handler. rewrite order_revision_desc_length.
  destruct (MAX <=? Z.of_nat (List.length selected)) eqn:C;
    [apply Z.leb_le in C; lia|].
  rewrite E. reflexivity.
Qed.

Lemma create_revision_below_limit u param top :
  authUser req = Some u ->
  json_get "param" (body req) = Some param ->
  revision_count k v tbl < MAX ->
  hd_error (order_revision_desc selected) = Some top ->
  create_revision now MAX wrapResponse req tbl
  = (inr (inr (created_response wrapResponse req (created req tbl top u param))),
     mkTable (rows tbl ++ [created req tbl top u param]) (nextId tbl + 1)).
Proof.
  intros A P Lt H. change (Z.of_nat (List.length selected) < MAX) in Lt.
  run_handler. rewrite order_revision_desc_length.
  destruct (MAX <=? Z.of_nat (List.length selected)) eqn:C;
    [apply Z.leb_le in C; lia|].
  destruct selected as [|s0 sl] eqn:S; [discriminate H|].
  cbn [List.length Nat.eqb]. rewrite H, A, P. reflexivity.
Qed.

Lemma create_revision_at_limit u param top :
  authUser req = Some u ->
  json_get "param" (body req) = Some param ->
  MAX <= revision_count k v tbl ->
  hd_error (order_revision_desc selected) = Some top ->
  let tbl1 := snd (deleteOldestRevision now (userId u) k v tbl) in
  create_revision now MAX wrapResponse req tbl
  = (inr (inr (created_response wrapResponse req (created req tbl1 top u param))),
     mkTable (rows tbl1 ++ [created req tbl1 top u param]) (nextId tbl1 + 1)).
Proof.
  intros A P Le H tbl1. change (MAX <= Z.of_nat (List.length selected)) in Le.
  run_handler. rewrite order_revision_desc_length.
  destruct (MAX <=? Z.of_nat (List.length selected)) eqn:C;
    [|apply Z.leb_gt in C; lia].
  rewrite A.
  pose proof (deleteOldestRevision_resolves now (userId u) k v tbl) as D.
  fold tbl1. destruct (deleteOldestRevision now (userId u) k v tbl) as [[e|[]] t1] eqn:DD;
    simpl in D; [discriminate D|].
  subst tbl1. cbn [snd]. rewrite H, P. reflexivity.
Qed.

(** Without a user, without [body.param] or without a revision the chain
    is rejected: the error goes to [next].  The table is as before, or as
    the eviction left it; a 404 error is the handler's own, with the table
    as before. *)
Lemma create_revision_rejects :
  authUser req = None \/ json_get "param" (body req) = None \/
  hd_error (order_revision_desc selected) = None ->
  exists e tbl',
    create_revision now MAX wrapResponse req tbl = (inr (inl e), tbl') /\
    (tbl' = tbl \/
     exists u, tbl' = snd (deleteOldestRevision now (userId u) k v tbl)) /\
    (status e = Some 404 -> selected = [] /\ e = not_found req /\ tbl' = tbl).
Proof.
  intros H.
  assert (T : forall msg t, status (TypeError msg) = Some 404 ->
                            selected = [] /\ TypeError msg = not_found req /\ t = tbl)
    by (intros msg t X; discriminate X).
  run_handler.
  destruct (MAX <=? Z.of_nat (List.length (order_revision_desc selected))).
  - destruct (authUser req) as [u|] eqn:A;
      [|eexists; eexists; split; [reflexivity | split; [now left | apply T]]].
    pose proof (deleteOldestRevision_resolves now (userId u) k v tbl) as D.
    destruct (deleteOldestRevision now (userId u) k v tbl) as [[e|[]] t1] eqn:DD;
      simpl in D; [discriminate D|].
    assert (R : t1 = snd (deleteOldestRevision now (userId u) k v tbl))
      by (rewrite DD; reflexivity).
    destruct (hd_error (order_revision_desc selected)) as [pc|];
      [|eexists; eexists; split;
        [reflexivity | split; [right; exists u; exact R | apply T]]].
    destruct (json_get "param" (body req)) as [param|];
      [|eexists; eexists; split;
        [reflexivity | split; [right; exists u; exact R | apply T]]].
    destruct H as [H|[H|H]]; discriminate H.
  - destruct (Nat.eqb (List.length (order_revision_desc selected)) 0) eqn:N.
    + eexists; eexists; split; [reflexivity|]. split; [now left|].
      intros _. split; [|split; reflexivity].
      apply length_zero_nil in N. apply length_zero_nil.
      rewrite <- order_revision_desc_length, N. reflexivity.
    + destruct (hd_error (order_revision_desc selected)) as [pc|];
        [|eexists; eexists; split; [reflexivity | split; [now left | apply T]]].
      destruct (authUser req) as [u|];
        [|eexists; eexists; split; [reflexivity | split; [now left | apply T]]].
      destruct (json_get "param" (body req)) as [param|];
        [|eexists; eexists; split; [reflexivity | split; [now left | apply T]]].
      destruct H as [H|[H|H]]; discriminate H.
Qed.

End Cases.

Lemma selects_created req from top u param :
  selects (where_of req) (created req from top u param) = true.
Proof.
  unfold selects, created, where_of. simpl.
  rewrite String.eqb_refl, Z.eqb_refl. reflexivity.
Qed.

Lemma head_of_selected req tbl :
  filter (selects (where_of req)) (rows tbl) <> [] ->
  exists top,
    hd_error (order_revision_desc (filter (selects (where_of req)) (rows tbl)))
    = Some top /\
    In top (rows tbl) /\ selects (where_of req) top = true /\
    forall r, In r (rows tbl) -> selects (where_of req) r = true ->
              revision r <= revision top.
Proof.
  intros NE.
  pose proof (order_revision_desc_head
                (filter (selects (where_of req)) (rows tbl))) as H.
  destruct (hd_error _) as [top|]; [|contradiction].
  destruct H as [Hin Hmax]. apply filter_In in Hin. destruct Hin as [Hin S].
  exists top. repeat split; try assumption.
  intros r Hr Sr. apply Hmax. apply filter_In. split; assumption.
Qed.

Lemma positive_count_selected req tbl :
  0 < revision_count (Express.key (params req)) (Express.version (params req)) tbl ->
  filter (selects (where_of req)) (rows tbl) <> [].
Proof.
  rewrite revision_count_spec. fold (where_of req). intros P E.
  rewrite E in P. simpl in P. lia.
Qed.

(** The handler on a well-formed request for a key and version that has a
    revision: the row it creates and the table it leaves. *)
Lemma create_revision_ok now MAX wrapResponse req tbl u param :
  authUser req = Some u ->
  json_get "param" (body req) = Some param ->
  filter (selects (where_of req)) (rows tbl) <> [] ->
  exists top before,
    In top (rows tbl) /\ selects (where_of req) top = true /\
    (forall r, In r (rows tbl) -> selects (where_of req) r = true ->
               revision r <= revision top) /\
    create_revision now MAX wrapResponse req tbl
    = (inr (inr (created_response wrapResponse req (created req tbl top u param))),
       mkTable (before ++ [created req tbl top u param]) (nextId tbl + 1)) /\
    ((revision_count (Express.key (params req)) (Express.version (params req)) tbl < MAX
      /\ before = rows tbl) \/
     (MAX <= revision_count (Express.key (params req)) (Express.version (params req)) tbl /\
      exists l1 old l2,
        rows tbl = (l1 ++ old :: l2)%list /\
        selects (where_of req) old = true /\
        (forall r, In r (rows tbl) -> selects (where_of req) r = true ->
                   revision old <= revision r) /\
        deleteOldestRevision now (userId u) (Express.key (params req))
                             (Express.version (params req)) tbl
        = (inr tt, mkTable (l1 ++ evicted now (userId u) old :: l2) (nextId tbl)) /\
        before = (l1 ++ evicted now (userId u) old :: l2)%list)).
Proof.
  intros A P NE.
  destruct (head_of_selected req tbl NE) as (top & H & Hin & S & Hmax).
  set (k := Express.key (params req)). set (v := Express.version (params req)).
  destruct (Z.lt_ge_cases (revision_count k v tbl) MAX) as [Lt|Ge].
  - exists top, (rows tbl). repeat split; try assumption.
    + exact (create_revision_below_limit now wrapResponse req tbl A P Lt H).
    + left. split; [exact Lt | reflexivity].
  - destruct (deleteOldestRevision_spec now (userId u) k v tbl NE)
      as (l1 & old & l2 & R & So & Hmin & D).
    exists top, (l1 ++ evicted now (userId u) old :: l2)%list.
    repeat split; try assumption.
    + pose proof (create_revision_at_limit now wrapResponse req tbl A P Ge H) as C.
      cbv zeta in C. fold k v in C. rewrite D in C. exact C.
    + right. split; [exact Ge|]. exists l1, old, l2.
      repeat split; assumption.
Qed.

Lemma revision_count_appended req tbl before n top u param :
  revision_count (Express.key (params req)) (Express.version (params req))
                 (mkTable (before ++ [created req tbl top u param]) n)
  = Z.of_nat (List.length (filter (selects (where_of req)) before)) + 1.
Proof.
  rewrite revision_count_spec. fold (where_of req). cbn [rows].
  rewrite filter_app, length_app. cbn [filter].
  rewrite selects_created. simpl. lia.
Qed.

Lemma create_revision_rejected_count now MAX wrapResponse req tbl :
  authUser req = None \/ json_get "param" (body req) = None \/
  hd_error (order_revision_desc (filter (selects (where_of req)) (rows tbl))) = None ->
  revision_count (Express.key (params req)) (Express.version (params req))
                 (snd (create_revision now MAX wrapResponse req tbl))
  <= revision_count (Express.key (params req)) (Express.version (params req)) tbl.
Proof.
  intros H.
  destruct (@create_revision_rejects now MAX wrapResponse req tbl H)
    as (e & tbl' & F & [->|(u & ->)] & _); rewrite F; cbn [snd].
  - lia.
  - apply revision_count_deleteOldestRevision.
Qed.

(** C3: when the revisions of a key and version number at most
    [MAX_REVISION_NUMBER], they still do after the create-revision handler,
    whatever its outcome (an error after the eviction leaves the eviction
    in place).  When their number had reached the maximum, the
    handler has [deleteOldestRevision] destroy the row with the least
    revision number, and the new revision is appended to the table that
    eviction leaves. *)
Theorem create_revision_count_bounded :
  forall (now MAX : Z) (wrapResponse : string -> Json -> Z -> Z -> Json)
         (req : Request) (tbl : Table),
    revision_count (Express.key (params req)) (Express.version (params req)) tbl
      <= MAX ->
    revision_count (Express.key (params req)) (Express.version (params req))
                   (snd (create_revision now MAX wrapResponse req tbl)) <= MAX /\
    (revision_count (Express.key (params req)) (Express.version (params req)) tbl
       = MAX ->
     0 < MAX ->
     forall u param,
       authUser req = Some u ->
       json_get "param" (body req) = Some param ->
       exists l1 old l2 new,
         rows tbl = (l1 ++ old :: l2)%list /\
         selects (where_of req) old = true /\
         (forall r, In r (rows tbl) -> selects (where_of req) r = true ->
                    revision old <= revision r) /\
         deleteOldestRevision now (userId u) (Express.key (params req))
                              (Express.version (params req)) tbl
         = (inr tt, mkTable (l1 ++ evicted now (userId u) old :: l2) (nextId tbl)) /\
         selects (where_of req) (evicted now (userId u) old) = false /\
         rows (snd (create_revision now MAX wrapResponse req tbl))
         = ((l1 ++ evicted now (userId u) old :: l2) ++ [new])%list /\
         selects (where_of req) new = true).
Proof.
  intros now MAX wrapResponse req tbl Le.
  set (k := Express.key (params req)) in *.
  set (v := Express.version (params req)) in *.
  split.
  - destruct (authUser req) as [u|] eqn:A.
    2:{ pose proof (@create_revision_rejected_count now MAX wrapResponse req tbl
                      (or_introl A)) as X.
        fold k v in X. lia. }
    destruct (json_get "param" (body req)) as [param|] eqn:P.
    2:{ pose proof (@create_revision_rejected_count now MAX wrapResponse req tbl
                      (or_intror (or_introl P))) as X.
        fold k v in X. lia. }
    destruct (filter (selects (where_of req)) (rows tbl)) as [|s0 sl] eqn:S.
    { assert (X : revision_count k v (snd (create_revision now MAX wrapResponse req tbl))
                  <= revision_count k v tbl).
      { apply create_revision_rejected_count. right; right. rewrite S.
        reflexivity. }
      lia. }
    assert (NE : filter (selects (where_of req)) (rows tbl) <> [])
      by (rewrite S; discriminate).
    destruct (create_revision_ok now MAX wrapResponse req tbl A P NE)
      as (top & before & _ & _ & _ & C & [[Lt ->]|[Ge (l1 & old & l2 & R & So & _ & _ & ->)]]);
      rewrite C; cbn [snd]; fold k v in Lt || fold k v in Ge;
      unfold k, v; rewrite revision_count_appended.
    + unfold k, v in Lt. rewrite revision_count_spec in Lt.
      fold (where_of req) in Lt. lia.
    + unfold k, v in Le. rewrite revision_count_spec in Le.
      fold (where_of req) in Le. rewrite R in Le.
      rewrite (@count_after_eviction now (userId u) (where_of req) l1 old l2 So) in Le.
      lia.
  - intros E Pos u param A P.
    assert (NE : filter (selects (where_of req)) (rows tbl) <> []).
    { apply positive_count_selected. fold k v. lia. }
    destruct (create_revision_ok now MAX wrapResponse req tbl A P NE)
      as (top & before & _ & _ & _ & C & [[Lt _]|[_ (l1 & old & l2 & R & So & Hmin & D & ->)]]).
    + fold k v in Lt. lia.
    + exists l1, old, l2, (created req tbl top u param).
      rewrite C. cbn [snd rows].
      repeat split; try assumption. apply selects_created.
Qed.

(** C4: for a key and version that has a revision, the create-revision
    handler (on a request that carries a user and a [param] body) answers 201
    and appends one row: its revision is the highest existing revision plus
    one, [createdBy] and [updatedBy] are the requesting user, and it is not
    deleted.  Every other row of the table is as it was, except the one row
    eviction destroys; so each surviving revision is unmodified.  A second
    create for the same key and version gets the next revision number. *)
Theorem create_revision_appends_next_revision :
  forall (now MAX : Z) (wrapResponse : string -> Json -> Z -> Z -> Json)
         (req : Request) (tbl : Table) (u : AuthUser) (param : Json),
    authUser req = Some u ->
    json_get "param" (body req) = Some param ->
    0 < revision_count (Express.key (params req)) (Express.version (params req)) tbl ->
    exists (top : Z) (new : PlanConfig) (tbl' : Table) (before : list PlanConfig),
      (exists r, In r (rows tbl) /\ selects (where_of req) r = true /\
                 revision r = top) /\
      (forall r, In r (rows tbl) -> selects (where_of req) r = true ->
                 revision r <= top) /\
      create_revision now MAX wrapResponse req tbl
      = (inr (inr (created_response wrapResponse req new)), tbl') /\
      new = mkPlanConfig (nextId tbl) (Express.key (params req))
                         (Express.version (params req)) (top + 1)
                         (json_get "phases" param) (userId u) (userId u)
                         None None /\
      rows tbl' = (before ++ [new])%list /\
      (before = rows tbl \/
       exists l1 old l2,
         rows tbl = (l1 ++ old :: l2)%list /\
         selects (where_of req) old = true /\
         before = (l1 ++ evicted now (userId u) old :: l2)%list) /\
      (forall r, In r (rows tbl') -> is_live r = true ->
                 r = new \/ In r (rows tbl)) /\
      (forall now2 req2 u2 param2,
          params req2 = params req ->
          authUser req2 = Some u2 ->
          json_get "param" (body req2) = Some param2 ->
          exists new2 tbl'',
            create_revision now2 MAX wrapResponse req2 tbl'
            = (inr (inr (created_response wrapResponse req2 new2)), tbl'') /\
            revision new2 = top + 2).
Proof.
  intros now MAX wrapResponse req tbl u param A P Pos.
  pose proof (positive_count_selected req tbl Pos) as NE.
  destruct (create_revision_ok now MAX wrapResponse req tbl A P NE)
    as (top & before & Hin & S & Hmax & C & Shape).
  set (new := created req tbl top u param) in *.
  exists (revision top), new, (mkTable (before ++ [new]) (nextId tbl + 1)), before.
  assert (Shape' : before = rows tbl \/
                   exists l1 old l2,
                     rows tbl = (l1 ++ old :: l2)%list /\
                     selects (where_of req) old = true /\
                     before = (l1 ++ evicted now (userId u) old :: l2)%list).
  { destruct Shape as [[_ ->]|[_ (l1 & old & l2 & R & So & _ & _ & ->)]];
      [now left | right; exists l1, old, l2; repeat split; assumption]. }
  assert (Old : forall r, In r before ->
                          (is_live r = true \/ selects (where_of req) r = true) ->
                          In r (rows tbl)).
  { intros r Hr L.
    destruct Shape' as [->|(l1 & old & l2 & R & So & ->)]; [exact Hr|].
    rewrite R. apply in_app_iff in Hr. apply in_app_iff.
    destruct Hr as [Hr|[<-|Hr]]; [now left | | right; now right].
    destruct L as [L|L]; discriminate L. }
  split; [exists top; repeat split; assumption|].
  split; [exact Hmax|]. split; [exact C|]. split; [reflexivity|].
  split; [reflexivity|]. split; [exact Shape'|]. split.
  - cbn [rows]. intros r Hr L. apply in_app_iff in Hr.
    destruct Hr as [Hr|[<-|[]]]; [right | now left].
    apply Old; [exact Hr | now left].
  - intros now2 req2 u2 param2 Eq A2 P2.
    assert (W : where_of req2 = where_of req) by (unfold where_of; now rewrite Eq).
    assert (NE2 : filter (selects (where_of req2))
                         (rows (mkTable (before ++ [new]) (nextId tbl + 1))) <> []).
    { cbn [rows]. rewrite W, filter_app. cbn [filter].
      unfold new. rewrite selects_created.
      intros X. apply app_eq_nil in X. destruct X as [_ X]. discriminate X. }
    destruct (create_revision_ok now2 MAX wrapResponse req2 _ A2 P2 NE2)
      as (top2 & before2 & Hin2 & S2 & Hmax2 & C2 & _).
    eexists; eexists. split; [exact C2|].
    cbn [created revision rows] in *. rewrite W in *.
    assert (revision new <= revision top2) as L1.
    { apply Hmax2; [apply in_app_iff; right; now left|].
      unfold new. apply selects_created. }
    assert (revision top2 <= revision new) as L2.
    { apply in_app_iff in Hin2. destruct Hin2 as [Hb|[<-|[]]]; [|lia].
      assert (revision top2 <= revision top)
        by (apply Hmax; [apply Old; [exact Hb | now right] | exact S2]).
      unfold new. cbn [created revision]. lia. }
    unfold new in L1, L2. cbn [created revision] in L1, L2. lia.
Qed.

Lemma create_revision_count_bounded_witness :
  revision_count "dev" 1
    (snd (create_revision 5000 2 Samples.wrap Samples.revision_request
                          Samples.plan_configs)) <= 2 /\
  exists l1 old l2 new,
    rows Samples.plan_configs = (l1 ++ old :: l2)%list /\
    selects (where_of Samples.revision_request) old = true /\
    (forall r, In r (rows Samples.plan_configs) ->
               selects (where_of Samples.revision_request) r = true ->
               revision old <= revision r) /\
    deleteOldestRevision 5000 40051333 "dev" 1 Samples.plan_configs
    = (inr tt, mkTable (l1 ++ evicted 5000 40051333 old :: l2) 4) /\
    selects (where_of Samples.revision_request) (evicted 5000 40051333 old) = false /\
    rows (snd (create_revision 5000 2 Samples.wrap Samples.revision_request
                               Samples.plan_configs))
    = ((l1 ++ evicted 5000 40051333 old :: l2) ++ [new])%list /\
    selects (where_of Samples.revision_request) new = true.
Proof.
  assert (Le : revision_count (Express.key (params Samples.revision_request))
                 (Express.version (params Samples.revision_request))
                 Samples.plan_configs <= 2)
    by (vm_compute; discriminate).
  destruct (@create_revision_count_bounded 5000 2 Samples.wrap
              Samples.revision_request Samples.plan_configs Le) as [A B].
  split; [exact A|].
  exact (B eq_refl eq_refl Samples.user
           (JObj [("phases", JObj [])]) eq_refl eq_refl).
Defined.

Lemma create_revision_appends_next_revision_witness :
  exists top new tbl',
    create_revision 5000 5 Samples.wrap Samples.revision_request Samples.plan_configs
    = (inr (inr (created_response Samples.wrap Samples.revision_request new)), tbl') /\
    new = mkPlanConfig 4 "dev" 1 (top + 1) (Some (JObj [])) 40051333 40051333
                       None None /\
    rows tbl' = (rows Samples.plan_configs ++ [new])%list /\
    top = 2.
Proof.
  assert (Pos : 0 < revision_count (Express.key (params Samples.revision_request))
                      (Express.version (params Samples.revision_request))
                      Samples.plan_configs)
    by reflexivity.
  destruct (@create_revision_appends_next_revision 5000 5 Samples.wrap
              Samples.revision_request Samples.plan_configs
              Samples.user (JObj [("phases", JObj [])])
              eq_refl eq_refl Pos)
    as (top & new & tbl' & before & _ & _ & C & N & _).
  exists top, new, tbl'. vm_compute in C. subst new.
  injection C as C1 C2.
  assert (T : top = 2) by lia.
  subst top tbl'. repeat split; reflexivity.
Defined.

End PlanConfigFacts.

(* ------------------------------------------------------------------ *)
(** ** The 404 paths                                                    *)
(* ------------------------------------------------------------------ *)

(** C5: the form-version delete handler hands a 404 error to [next]
    exactly when no row matches the key and version (no row that the
    model's queries see); so does the planConfig create-revision handler
    when the revision count is below [MAX_REVISION_NUMBER].  On that path
    nothing else happens and the table is left as it was. *)
Theorem not_found_iff_no_matching_row :
  forall (now MAX : Z) (wrapResponse : string -> Json -> Z -> Z -> Json)
         (req : Request) (forms : list Form.Form) (tbl : PlanConfig.Table),
    (PlanConfig.revision_count (Express.key (params req))
                               (Express.version (params req)) tbl < MAX)%Z ->
    (Orm.next_404 (Form.delete now req forms) <->
     filter (Form.selects (Orm.where_of req)) forms = []) /\
    (Orm.next_404 (Form.delete now req forms) ->
     Orm.as_handler (Form.delete now) req forms
     = ([ETransaction; ENext (Form.not_found req)], forms)) /\
    (Orm.next_404 (PlanConfig.create_revision now MAX wrapResponse req tbl) <->
     filter (PlanConfig.selects (Orm.where_of req)) (PlanConfig.rows tbl) = []) /\
    (Orm.next_404 (PlanConfig.create_revision now MAX wrapResponse req tbl) ->
     Orm.as_handler (PlanConfig.create_revision now MAX wrapResponse) req tbl
     = ([ETransaction; ENext (PlanConfig.not_found req)], tbl)).
Proof.
  intros now MAX wrapResponse req forms tbl Lt.
  assert (F : Orm.next_404 (Form.delete now req forms) <->
              filter (Form.selects (Orm.where_of req)) forms = []).
  { split.
    - intros R.
      destruct (filter (Form.selects (Orm.where_of req)) forms) as [|r l] eqn:E;
        [reflexivity|].
      assert (NE : filter (Form.selects (Orm.where_of req)) forms <> [])
        by (rewrite E; discriminate).
      unfold Orm.next_404 in R. destruct (authUser req) as [u|] eqn:A.
      + rewrite (FormFacts.delete_found now req forms A NE) in R. destruct R.
      + destruct (FormFacts.delete_unauthenticated now req forms A NE) as (msg & D).
        rewrite D in R. discriminate R.
    - intros E. unfold Orm.next_404.
      rewrite (FormFacts.delete_not_found now req forms E). reflexivity. }
  assert (P : Orm.next_404 (PlanConfig.create_revision now MAX wrapResponse req tbl) <->
              filter (PlanConfig.selects (Orm.where_of req)) (PlanConfig.rows tbl) = []).
  { split.
    - intros R.
      destruct (filter (PlanConfig.selects (Orm.where_of req)) (PlanConfig.rows tbl))
        as [|r l] eqn:E; [reflexivity|].
      assert (NE : filter (PlanConfig.selects (Orm.where_of req))
                          (PlanConfig.rows tbl) <> [])
        by (rewrite E; discriminate).
      unfold Orm.next_404 in R.
      destruct (authUser req) as [u|] eqn:A.
      2:{ destruct (@PlanConfigFacts.create_revision_rejects now MAX wrapResponse
                      req tbl (or_introl A)) as (e & tbl' & Fe & _ & X).
          rewrite Fe in R. destruct (X R) as [X' _]. rewrite E in X'.
          discriminate X'. }
      destruct (json_get "param" (body req)) as [param|] eqn:Pm.
      2:{ destruct (@PlanConfigFacts.create_revision_rejects now MAX wrapResponse
                      req tbl (or_intror (or_introl Pm))) as (e & tbl' & Fe & _ & X).
          rewrite Fe in R. destruct (X R) as [X' _]. rewrite E in X'.
          discriminate X'. }
      destruct (PlanConfigFacts.create_revision_ok now MAX wrapResponse req tbl A Pm NE)
        as (top & before & _ & _ & _ & C & _).
      rewrite C in R. destruct R.
    - intros E. unfold Orm.next_404.
      rewrite (PlanConfigFacts.create_revision_not_found now wrapResponse req tbl Lt E).
      reflexivity. }
  split; [exact F|]. split; [|split; [exact P|]].
  - intros R. apply F in R. unfold Orm.as_handler.
    rewrite (FormFacts.delete_not_found now req forms R). reflexivity.
  - intros R. apply P in R. unfold Orm.as_handler.
    rewrite (PlanConfigFacts.create_revision_not_found now wrapResponse req tbl Lt R).
    reflexivity.
Qed.

(* ------------------------------------------------------------------ *)
(** ** The Project model                                                *)
(* ------------------------------------------------------------------ *)

Module ProjectFacts.
Import Project.
Local Open Scope Z_scope.

Section Status.

Variable statuses : list string.

Lemma validate_status_accepts v :
validate_status statuses v = [] ->
exists s, v = Some s /\ In s statuses.
Proof.
unfold validate_status. destruct v as [s|]; [|discriminate].
destruct (existsb (String.eqb s) statuses) eqn:E; [|discriminate].
intros _. exists s. split; [reflexivity|].
apply existsb_exists in E. destruct E as (x & Hx & E).
apply String.eqb_eq in E. now subst x.
Qed.

Lemma validate_accepts p :
validate statuses p = [] -> status_in_enum statuses p.
Proof.
unfold validate. intros H.
repeat (apply app_eq_nil in H; destruct H as [? H]).
match goal with V : validate_status _ _ = [] |- _ =>
  exact (validate_status_accepts _ V) end.
Qed.

Lemma validate_rejects p s :
status p = Some s -> ~ In s statuses ->
In (Validation_error "status" "isIn") (validate statuses p).
Proof.
intros E N. unfold validate.
apply in_or_app; right. apply in_or_app; right. apply in_or_app; right.
apply in_or_app; left. rewrite E. unfold validate_status.
destruct (existsb (String.eqb s) statuses) eqn:X; [|now left].
exfalso. apply N. apply existsb_exists in X. destruct X as (x & Hx & X).
apply String.eqb_eq in X. now subst x.
Qed.

(** C7: the model's validation rejects a project whose [status] is not a
  value of [PROJECT_STATUS], on [create] and on [save], so every row of a
  table the model layer has produced carries a status of the
  enumeration. *)
Theorem persisted_status_in_enum :
forall tbl : list Project,
  persisted statuses tbl ->
  (forall p, In p tbl -> status_in_enum statuses p) /\
  (forall p s now,
      status p = Some s -> ~ In s statuses ->
      (exists errors, create statuses now p tbl = inl errors /\
                      In (Validation_error "status" "isIn") errors) /\
      (exists errors, save statuses p tbl = inl errors /\
                      In (Validation_error "status" "isIn") errors)).
Proof.
intros tbl H. split.
- induction H as [|now values tbl tbl' H IH C|p0 tbl tbl' H IH C].
  + intros p [].
  + unfold create in C.
    destruct (validate statuses (with_defaults now values)) eqn:V;
      [|discriminate C].
    injection C as <-. intros p Hp. apply in_app_iff in Hp.
    destruct Hp as [Hp|[<-|[]]]; [exact (IH p Hp)|].
    apply validate_accepts in V. exact V.
  + unfold save in C. destruct (validate statuses p0) eqn:V; [|discriminate C].
    injection C as <-. intros p Hp. apply in_map_iff in Hp.
    destruct Hp as (r & E & Hr). destruct (same_id p0 r).
    * subst p. exact (validate_accepts _ V).
    * subst p. exact (IH r Hr).
- intros p s now E N. split.
  + unfold create.
    assert (In (Validation_error "status" "isIn")
               (validate statuses (with_defaults now p))) as I
        by (apply (@validate_rejects _ s); [exact E | exact N]).
    destruct (validate statuses (with_defaults now p)) as [|e l];
      [destruct I|]. eexists. split; [reflexivity | exact I].
  + unfold save.
    pose proof (validate_rejects p E N) as I.
    destruct (validate statuses p) as [|e l]; [destruct I|].
    eexists. split; [reflexivity | exact I].
Qed.

End Status.

(** *** searchText *)

(** C8 (fails on the code): with the userId / email filter the count query
    is grouped by project, so it yields one row per matching project, and
    that row's number is the count of joined member and invite rows.  When
    exactly one project matches, [searchText] takes that number for the
    count: for a project whose member has two open invites it reports
    count 2 while one project matches and one row is returned. *)
Theorem searchText_count_of_single_grouped_project :
  forall full_text_match : string -> string -> bool,
    searchText full_text_match Samples.my_projects Samples.one_project_two_invites
    = (filters Samples.my_projects,
       inr ([ [ ("id", JNum 1); ("name", JStr "Website") ] ], 2)) /\
    List.length (matching_projects full_text_match Samples.my_projects
                                   Samples.one_project_two_invites) = 1%nat /\
    select_count full_text_match
                 (build_query (push_if_empty (filters Samples.my_projects)))
                 Samples.one_project_two_invites = [2].
Proof. intros ftm. repeat split; reflexivity. Qed.

(** C9 (fails on the code): with [id: { $in: [] }] the value -1 is pushed
    into the caller's list, but when the status filter is a string and a
    type filter follows, the text of the query runs the two clauses
    together ([:statusAND]), and the query is rejected for a named
    parameter without a value instead of returning no rows and count 0. *)
Theorem searchText_empty_in_with_status_and_type :
  forall full_text_match : string -> string -> bool,
    searchText full_text_match Samples.empty_in_active_generic
               Samples.one_project_two_invites
    = (mkFilters (Some (IdObject [-1])) (Some (StatusString "active"))
                 (Some "generic") None None None,
       inl (no_value "statusAND")) /\
    named_parameters
      (count_sql (build_query (push_if_empty (filters Samples.empty_in_active_generic))))
    = ["id"; "statusAND"; "type"].
Proof. intros ftm. split; reflexivity. Qed.

Section EmptyIn.

Variable full_text_match : string -> string -> bool.

Lemma conds_member_clause f q c : In c (conds q) -> In c (conds (member_clause f q)).
Proof.
unfold member_clause. destruct (has_member_filter f); [|trivial].
cbn [conds]. intros H. apply in_or_app. now left.
Qed.

Lemma conds_add q text c' r c : In c (conds q) -> In c (conds (add q text c' r)).
Proof. cbn [add conds]. intros H. apply in_or_app. now left. Qed.

Lemma conds_build_query f ids :
f_id f = Some (IdObject ids) -> In (IdIn ids) (conds (build_query f)).
Proof.
intros E. unfold build_query. apply conds_member_clause.
unfold keyword_clause. destruct (f_keyword f); [apply conds_add|];
  (unfold type_clause; destruct (f_type f); [apply conds_add|]);
  (unfold status_clause; destruct (f_status f) as [[?|?|]|];
   try apply conds_add);
  unfold id_clause; rewrite E; cbn [add conds]; apply in_or_app; right;
  now left.
Qed.

Lemma sum_zeros {A : Type} (l : list A) :
fold_right Z.add 0 (map (fun _ => 0) l) = 0.
Proof. induction l as [|a l IH]; simpl; [reflexivity | exact IH]. Qed.

Lemma joined_rows_project db p j : In j (joined_rows db p) -> fst (fst j) = p.
Proof.
unfold joined_rows. intros H. apply in_flat_map in H.
destruct H as (m & _ & H). apply in_map_iff in H.
destruct H as (i & <- & _). reflexivity.
Qed.

Lemma passing_none q db p :
In (IdIn [-1]) (conds q) -> id (row p) <> Some (-1) ->
passing full_text_match q db p = [].
Proof.
intros C N. unfold passing. apply filter_none. intros j Hj.
assert (P : fst (fst j) = p).
{ destruct (is_joined q); [exact (joined_rows_project _ _ _ Hj)|].
  destruct Hj as [<-|[]]. reflexivity. }
destruct (forallb _ (conds q)) eqn:F; [|reflexivity].
rewrite forallb_forall in F. specialize (F _ C).
destruct j as [[p' m] i]. simpl in P. subst p'. simpl in F.
unfold is_project in F. destruct (id (row p)) as [n|]; [|discriminate F].
rewrite orb_false_r in F. apply Z.eqb_eq in F. subst n. contradiction.
Qed.

(** With [id: { $in: [] }], a query that the database accepts returns no
  rows and count 0, and the caller's list holds -1. *)
Lemma searchText_empty_in parameters db lim off :
f_id (filters parameters) = Some (IdObject []) ->
limit parameters = Some lim -> offset parameters = Some off ->
(forall p, In p (projects db) -> id (row p) <> Some (-1)) ->
(forall e, snd (searchText full_text_match parameters db) <> inl e) ->
f_id (fst (searchText full_text_match parameters db)) = Some (IdObject [-1]) /\
snd (searchText full_text_match parameters db) = inr ([], 0).
Proof.
intros E L O N OK. unfold searchText in *. cbn [fst snd] in *.
set (f := push_if_empty (filters parameters)) in *.
assert (Ef : f_id f = Some (IdObject [-1]))
  by (unfold f, push_if_empty; rewrite E; reflexivity).
split; [exact Ef|].
pose proof (conds_build_query f Ef) as C.
set (q := build_query f) in *.
assert (Z0 : forall p, In p (projects db) -> passing full_text_match q db p = [])
  by (intros p Hp; apply passing_none; [exact C | exact (N p Hp)]).
assert (Cnt : match select_count full_text_match q db with
              | [c] => c
              | _ => Z.of_nat (List.length (select_count full_text_match q db))
              end = 0).
{ unfold select_count.
  assert (M : map (fun p => Z.of_nat (List.length (passing full_text_match q db p)))
                  (projects db)
              = map (fun _ => 0) (projects db))
    by (apply map_ext_in; intros p Hp; rewrite (Z0 p Hp); reflexivity).
  rewrite M. destruct (is_joined q).
  - rewrite filter_none; [reflexivity|].
    intros x Hx. apply in_map_iff in Hx. destruct Hx as (_ & <- & _).
    reflexivity.
  - rewrite sum_zeros. reflexivity. }
assert (Rows : select_rows full_text_match parameters q db lim off = []).
{ unfold select_rows. rewrite filter_none.
  - simpl. rewrite skipn_nil, firstn_nil. reflexivity.
  - intros p Hp. rewrite (Z0 p Hp). reflexivity. }
destruct (query_error (count_sql q) q (replacements q)) as [e|];
  [exfalso; exact (OK e eq_refl)|].
rewrite L, O in *.
destruct (query_error (rows_sql parameters q) q _) as [e|];
  [exfalso; exact (OK e eq_refl)|].
destruct (unknown_column parameters) as [c|];
  [exfalso; exact (OK _ eq_refl)|].
rewrite Rows, Cnt. reflexivity.
Qed.

End EmptyIn.

Example searchText_empty_in_sample :
  searchText Samples.no_match Samples.empty_in Samples.one_project_two_invites
  = (mkFilters (Some (IdObject [-1])) None None None None None, inr ([], 0)).
Proof. reflexivity. Qed.

Lemma persisted_status_in_enum_witness :
  persisted Samples.statuses
            [with_id 1 (with_defaults 1000 Samples.new_project)] /\
  status_in_enum Samples.statuses
                 (with_id 1 (with_defaults 1000 Samples.new_project)).
Proof.
  assert (C : create Samples.statuses 1000 Samples.new_project []
              = inr [with_id 1 (with_defaults 1000 Samples.new_project)])
    by reflexivity.
  pose proof (persisted_create 1000 Samples.new_project
                (persisted_empty Samples.statuses) C) as P.
  split; [exact P|].
  exact (proj1 (@persisted_status_in_enum Samples.statuses _ P) _
               (or_introl eq_refl)).
Defined.

End ProjectFacts.

Lemma not_found_iff_no_matching_row_witness :
  (Orm.next_404 (Form.delete 5000 Samples.delete_request Samples.forms) <->
   filter (Form.selects (Orm.where_of Samples.delete_request)) Samples.forms = []) /\
  (Orm.next_404 (PlanConfig.create_revision 5000 5 Samples.wrap
                       Samples.revision_request Samples.plan_configs) <->
   filter (PlanConfig.selects (Orm.where_of Samples.revision_request))
          (PlanConfig.rows Samples.plan_configs) = []).
Proof.
  assert (Lt : (PlanConfig.revision_count
                  (Express.key (params Samples.revision_request))
                  (Express.version (params Samples.revision_request))
                  Samples.plan_configs < 5)%Z) by reflexivity.
  destruct (@not_found_iff_no_matching_row 5000 5 Samples.wrap
              Samples.revision_request Samples.forms Samples.plan_configs Lt)
    as (_ & _ & P & _).
  destruct (@not_found_iff_no_matching_row 5000 5 Samples.wrap
              Samples.delete_request Samples.forms Samples.plan_configs Lt)
    as (F & _).
  split; [exact F | exact P].
Defined.

(* ================================================================== *)
(** * Part III: further properties of the code                         *)
(* ================================================================== *)

(* ------------------------------------------------------------------ *)
(** ** The permission tables                                            *)
(* ------------------------------------------------------------------ *)

Module PermissionTableFacts.
Import Permissions.

Ltac each_entry H :=
  repeat (destruct H as [H|H];
          [injection H as <- <- | ]); [.. | destruct H].

(** Every policy of [PERMISSION] names Topcoder roles.  The policies that
    carry [meta] are the ones that carry [scopes]; each scope list holds
    [CONNECT_PROJECT_ADMIN]; the policies of group 'Project' list project
    scopes only and those of group 'Project Member' member scopes only; a
    policy whose name starts with [READ_] lists no write scope and any
    other no read scope. *)
Theorem permission_scopes_consistent :
  forall (admins managers : list USER_ROLE.t)
         (member_managers : list PROJECT_MEMBER_ROLE.t)
         (role_name : PROJECT_MEMBER_ROLE.t -> string)
         (name : string) (p : Permission),
    In (name, p) (PERMISSION admins managers member_managers role_name) ->
    topcoderRoles p <> None /\
    (meta p = None <-> scopes p = None) /\
    forall l, scopes p = Some l ->
      has_scope M2M_SCOPES.CONNECT_PROJECT_ADMIN l = true /\
      (group_of p = Some "Project" ->
       has_scope M2M_SCOPES.PROJECTS.ALL l = true /\
       existsb is_member_scope l = false) /\
      (group_of p = Some "Project Member" ->
       has_scope M2M_SCOPES.PROJECT_MEMBERS.ALL l = true /\
       existsb is_project_scope l = false) /\
      (group_of p = Some "Project" \/ group_of p = Some "Project Member") /\
      (if String.prefix "READ_" name
       then existsb is_write_scope l = false /\ existsb is_read_scope l = true
       else existsb is_read_scope l = false /\ existsb is_write_scope l = true).
Proof.
  intros admins managers member_managers role_name name p H.
  unfold PERMISSION in H. each_entry H;
    (split; [discriminate|]);
    (split; [split; discriminate || reflexivity|]);
    intros l E; try discriminate E; injection E as <-;
    (split; [reflexivity|]);
    (split; [intros G; (discriminate G || (split; reflexivity))|]);
    (split; [intros G; (discriminate G || (split; reflexivity))|]);
    (split; [(left; reflexivity) || (right; reflexivity)|]);
    split; reflexivity.
Qed.

Lemma permission_scopes_consistent_witness :
  has_scope M2M_SCOPES.CONNECT_PROJECT_ADMIN SCOPES_PROJECT_MEMBERS_READ = true /\
  existsb is_write_scope SCOPES_PROJECT_MEMBERS_READ = false.
Proof.
  assert (H : In ("READ_PROJECT_MEMBER_DETAILS",
                  mkPermission
                    (Some (mkMeta "Read Project Member Details" "Project Member"
                             (Some "Who can see user details (PII) like email, first name and last name.")))
                    (Some (Only [ USER_ROLE.TOPCODER_ADMIN ])) None
                    (Some SCOPES_PROJECT_MEMBERS_READ))
                 (PERMISSION [] [] [] (fun _ => EmptyString)))
    by (unfold PERMISSION; simpl; tauto).
  destruct (@permission_scopes_consistent _ _ _ _ _ _ H) as (_ & _ & S).
  destruct (S SCOPES_PROJECT_MEMBERS_READ eq_refl) as (A & _ & _ & _ & B & _).
  split; [exact A | exact B].
Defined.

(** Each entry of [DEFAULT_PROJECT_ROLE] but the one of [COPILOT] assigns a
    project role whose matrix row contains the entry's Topcoder role.  No
    two entries name the same Topcoder role, so the order of the list
    decides only between different roles of one user; and
    [COPILOT_MANAGER], which the permission rules of the same file name,
    has no entry. *)
Theorem default_project_role_entries :
  (forall e : DefaultRole,
      In e DEFAULT_PROJECT_ROLE ->
      allowed_by_matrix e
      = negb (USER_ROLE.eqb (topcoderRole e) USER_ROLE.COPILOT)) /\
  NoDup (map topcoderRole DEFAULT_PROJECT_ROLE) /\
  ~ In USER_ROLE.COPILOT_MANAGER (map topcoderRole DEFAULT_PROJECT_ROLE).
Proof.
  split; [|split].
  - intros e H. unfold DEFAULT_PROJECT_ROLE in H.
    repeat (destruct H as [H|H]; [subst e; reflexivity|]). destruct H.
  - simpl. repeat constructor; simpl; intuition discriminate.
  - simpl. intuition discriminate.
Qed.

Lemma default_project_role_entries_witness :
  allowed_by_matrix
    (mkDefaultRole USER_ROLE.TOPCODER_USER PROJECT_MEMBER_ROLE.CUSTOMER) = true /\
  allowed_by_matrix
    (mkDefaultRole USER_ROLE.COPILOT PROJECT_MEMBER_ROLE.ACCOUNT_MANAGER) = false.
Proof.
  split.
  - refine (proj1 default_project_role_entries _ _).
    unfold DEFAULT_PROJECT_ROLE; simpl; tauto.
  - refine (proj1 default_project_role_entries _ _).
    unfold DEFAULT_PROJECT_ROLE; simpl; tauto.
Defined.

(** The rows of [PROJECT_TO_TOPCODER_ROLES_MATRIX] have pairwise different
    keys, so reading the property of a key finds its row, and no row is
    empty.  [TOPCODER_USER] stands only in the customer row, and [COPILOT]
    only in the customer and the copilot rows. *)
Theorem matrix_rows :
  NoDup (map fst PROJECT_TO_TOPCODER_ROLES_MATRIX) /\
  forall (k : PROJECT_MEMBER_ROLE.t) (roles : list USER_ROLE.t),
    In (k, roles) PROJECT_TO_TOPCODER_ROLES_MATRIX ->
    get_property PROJECT_TO_TOPCODER_ROLES_MATRIX k = Some roles /\
    roles <> [] /\
    (In USER_ROLE.TOPCODER_USER roles -> k = PROJECT_MEMBER_ROLE.CUSTOMER) /\
    (In USER_ROLE.COPILOT roles ->
     k = PROJECT_MEMBER_ROLE.CUSTOMER \/ k = PROJECT_MEMBER_ROLE.COPILOT).
Proof.
  split.
  - simpl. repeat constructor; simpl; intuition discriminate.
  - intros k roles H. unfold PROJECT_TO_TOPCODER_ROLES_MATRIX in H.
    repeat (destruct H as [H|H];
            [injection H as <- <-;
             (split; [reflexivity|]); (split; [discriminate|]);
             (split; [intros X; simpl in X; try reflexivity;
                      intuition discriminate|]);
             intros X; simpl in X; try (left; reflexivity);
             try (right; reflexivity); intuition discriminate|]).
    destruct H.
Qed.

End PermissionTableFacts.

(* ------------------------------------------------------------------ *)
(** ** Dispatch                                                         *)
(* ------------------------------------------------------------------ *)

Module AppFacts.
Import App.

Section Routes.

Variables (W ExecError : Type).
Variable exec : string -> W -> ExecResult ExecError * W.
Variable JSON_stringify : option ExecError -> string.
Variable authorized : string -> Request -> bool.

(** The two routes of app.js take every GET and every HEAD request whose
    path is one of the two patterns, in any case of the letters and with or
    without one slash at the end.  Such a request never reaches the router:
    no permission is checked, and on the eslog pattern a non-empty [q] is
    executed.  Every other request is served exactly as the router serves
    it. *)
Theorem requests_served_ahead_of_router :
  forall (router : list (Route W)) (req : Request) (w : W),
    let run := dispatch authorized (app exec JSON_stringify router) req w in
    let taken := is_get_or_head req
                 && (same_path "/v4/projects/index" (path req)
                     || same_path "/v4/projects/eslog" (path req)) in
    (taken = false -> run = dispatch authorized router req w) /\
    (taken = true ->
     existsb is_permission_event (fst run) = false /\
     existsb is_validate_event (fst run) = false /\
     forall router' : list (Route W),
       dispatch authorized (app exec JSON_stringify router') req w = run) /\
    (is_get_or_head req = true ->
     same_path "/v4/projects/eslog" (path req) = true ->
     forall q, assoc_get "q" (query req) = Some q -> q <> EmptyString ->
               executed (fst run) = [q] /\ snd run = snd (exec q w)).
Proof.
  intros router req w run taken. subst run taken.
  split; [intros H; apply dispatch_router; exact H|].
  split.
  - intros H. apply andb_true_iff in H. destruct H as [M P].
    apply orb_true_iff in P. destruct P as [P|P].
    + rewrite dispatch_index by assumption.
      split; [|split].
      * unfold index. destruct (exec "npm run sync:es" w) as [r w1].
        destruct (exec "npm run migrate:es" w1) as [r1 w2]. reflexivity.
      * unfold index. destruct (exec "npm run sync:es" w) as [r w1].
        destruct (exec "npm run migrate:es" w1) as [r1 w2]. reflexivity.
      * intros router'. apply dispatch_index; assumption.
    + rewrite dispatch_eslog by assumption.
      split; [|split].
      * unfold eslog. destruct (assoc_get "q" (query req)) as [[|c q]|];
          try reflexivity.
        destruct (exec (String c q) w) as [r w1]. reflexivity.
      * unfold eslog. destruct (assoc_get "q" (query req)) as [[|c q]|];
          try reflexivity.
        destruct (exec (String c q) w) as [r w1]. reflexivity.
      * intros router'. apply dispatch_eslog; assumption.
  - intros M P q Q N. rewrite dispatch_eslog by assumption.
    rewrite (eslog_nonempty exec JSON_stringify req w Q N).
    split; reflexivity.
Qed.

(** [GET /v4/projects/index] runs the two npm scripts in order, the second
    on the state the first leaves and whatever the first reported, and
    answers 200.  Nothing of the request is read, no permission is checked,
    and no route of the router can take the request over. *)
Theorem index_runs_both_scripts :
  forall (router : list (Route W)) (req : Request) (w : W),
    method req = "GET" -> path req = "/v4/projects/index" ->
    let run := dispatch authorized (app exec JSON_stringify router) req w in
    let first := exec "npm run sync:es" w in
    let second := exec "npm run migrate:es" (snd first) in
    executed (fst run) = ["npm run sync:es"; "npm run migrate:es"] /\
    snd run = snd second /\
    responses (fst run)
    = [ (200%Z, Some (JObj
          [ ("out",   JStr ("stdout: " ++ stdout (fst first)));
            ("erro",  JStr ("stderr: " ++ stderr (fst first)));
            ("errs",  JStr (JSON_stringify (err (fst first))));
            ("out1",  JStr ("stdout: " ++ stdout (fst second)));
            ("erro1", JStr ("stderr: " ++ stderr (fst second)));
            ("errs1", JStr (JSON_stringify (err (fst second)))) ])) ] /\
    existsb is_permission_event (fst run) = false /\
    existsb is_validate_event (fst run) = false.
Proof.
  intros router req w M P run first second. subst run first second.
  rewrite dispatch_index;
    [|unfold is_get_or_head; rewrite M; reflexivity|rewrite P; reflexivity].
  unfold index, send. rewrite M.
  destruct (exec "npm run sync:es" w) as [r w1]. cbn [snd fst].
  destruct (exec "npm run migrate:es" w1) as [r1 w2].
  repeat split; reflexivity.
Qed.

End Routes.

Lemma requests_served_ahead_of_router_witness :
  executed (fst (dispatch (fun _ _ => false) (app echo_shell stringify_null [])
                          Samples.head_request tt)) = ["id"] /\
  responses (fst (dispatch (fun _ _ => false) (app echo_shell stringify_null [])
                           Samples.head_request tt)) = [(200%Z, None)] /\
  dispatch (fun _ _ => true) (app echo_shell stringify_null [])
           Samples.delete_request tt
  = ([ENext (mkApiError "Not Found" (Some 404%Z))], tt).
Proof.
  split; [|split].
  - assert (N : "id" <> EmptyString) by discriminate.
    exact (proj1 (proj2 (proj2 (@requests_served_ahead_of_router unit unit
             echo_shell stringify_null (fun _ _ => false) []
             Samples.head_request tt)) eq_refl eq_refl "id" eq_refl N)).
  - reflexivity.
  - exact (proj1 (@requests_served_ahead_of_router unit unit echo_shell
             stringify_null (fun _ _ => true) [] Samples.delete_request tt)
             eq_refl).
Defined.

Lemma index_runs_both_scripts_witness :
  executed (fst (dispatch (fun _ _ => false) (app echo_shell stringify_null [])
                          (mkRequest "GET" "/v4/projects/index" []
                             (mkParams EmptyString 0) (JObj []) None "req-4") tt))
  = ["npm run sync:es"; "npm run migrate:es"].
Proof.
  exact (proj1 (@index_runs_both_scripts unit unit echo_shell stringify_null
                  (fun _ _ => false) []
                  (mkRequest "GET" "/v4/projects/index" []
                     (mkParams EmptyString 0) (JObj []) None "req-4") tt
                  eq_refl eq_refl)).
Defined.

End AppFacts.

(* ------------------------------------------------------------------ *)
(** ** Form version delete: what it leaves alone                        *)
(* ------------------------------------------------------------------ *)

Module FormVersionFacts.
Import Orm Form.

Lemma filter_map_same {A : Type} (p : A -> bool) (f : A -> A) (l : list A) :
  (forall x, In x l -> p (f x) = p x /\ (p x = true -> f x = x)) ->
  filter p (map f l) = filter p l.
Proof.
  induction l as [|a l IH]; simpl; intros H; [reflexivity|].
  destruct (H a (or_introl eq_refl)) as [E K]. rewrite E.
  rewrite IH by (intros x Hx; apply H; now right).
  destruct (p a) eqn:P; [rewrite (K eq_refl)|]; reflexivity.
Qed.

Lemma selects_where (w w' : Where) (r : Form) :
  selects w r = true -> selects w' r = true -> w' = w.
Proof.
  unfold selects. intros H H'.
  apply andb_true_iff in H. destruct H as [H V]. apply andb_true_iff in H.
  destruct H as [_ K].
  apply andb_true_iff in H'. destruct H' as [H' V']. apply andb_true_iff in H'.
  destruct H' as [_ K'].
  apply String.eqb_eq in K, K'. apply Z.eqb_eq in V, V'.
  destruct w, w'. simpl in *. congruence.
Qed.

(** The table the handler leaves: the one it found, or the one with the
    selected rows marked and destroyed. *)
Lemma delete_table now req forms :
  snd (delete now req forms) = forms \/
  exists u,
    authUser req = Some u /\
    filter (selects (where_of req)) forms <> [] /\
    snd (delete now req forms)
    = map (fun r => if selects (where_of req) r
                    then deleted_by now (userId u) r else r) forms.
Proof.
  destruct (filter (selects (where_of req)) forms) as [|r l] eqn:E.
  - left. rewrite (FormFacts.delete_not_found now req forms E). reflexivity.
  - assert (NE : filter (selects (where_of req)) forms <> [])
      by (rewrite E; discriminate).
    destruct (authUser req) as [u|] eqn:A.
    + right. exists u. split; [reflexivity|]. split; [discriminate|].
      rewrite (FormFacts.delete_found now req forms A NE). cbn [snd].
      apply FormFacts.update_then_destroy.
    + left. destruct (FormFacts.delete_unauthenticated now req forms A NE)
        as (msg & D). rewrite D. reflexivity.
Qed.

(** Whatever the outcome, the delete handler removes no row from the
    table, and the rows that queries see for any other key or version are
    the same before and after. *)
Theorem delete_leaves_other_versions :
  forall (now : Z) (req : Request) (forms : list Form) (w' : Where),
    w' <> where_of req ->
    filter (selects w') (snd (delete now req forms)) = filter (selects w') forms /\
    List.length (snd (delete now req forms)) = List.length forms /\
    map id (snd (delete now req forms)) = map id forms.
Proof.
  intros now req forms w' N.
  destruct (delete_table now req forms) as [->|(u & _ & _ & ->)];
    [repeat split; reflexivity|].
  split; [|split].
  - apply filter_map_same. intros r _.
    destruct (selects (where_of req) r) eqn:S; [|split; reflexivity].
    assert (selects w' r = false) as F.
    { destruct (selects w' r) eqn:S'; [|reflexivity].
      exfalso. apply N. exact (selects_where _ _ _ S S'). }
    split; [|rewrite F; discriminate].
    rewrite F. unfold selects, deleted_by. reflexivity.
  - apply length_map.
  - rewrite map_map. apply map_ext. intros r.
    destruct (selects (where_of req) r); reflexivity.
Qed.

Lemma delete_leaves_other_versions_witness :
  filter (selects (mkWhere "design" 1))
         (snd (delete 5000 Samples.delete_request Samples.forms))
  = [ mkForm 3 "design" 1 1 (JObj []) 7 7 None None ].
Proof.
  assert (N : mkWhere "design" 1 <> where_of Samples.delete_request)
    by discriminate.
  exact (proj1 (@delete_leaves_other_versions 5000 Samples.delete_request
                  Samples.forms (mkWhere "design" 1) N)).
Defined.

(** After a delete by an authenticated user, a second delete of the same
    key and version finds nothing: it hands the 404 error to [next] and
    changes nothing. *)
Theorem delete_twice_not_found :
  forall (now now2 : Z) (req req2 : Request) (forms : list Form) (u : AuthUser),
    authUser req = Some u ->
    params req2 = params req ->
    delete now2 req2 (snd (delete now req forms))
    = (inr (inl (not_found req2)), snd (delete now req forms)).
Proof.
  intros now now2 req req2 forms u A P.
  assert (W : where_of req2 = where_of req) by (unfold where_of; now rewrite P).
  apply FormFacts.delete_not_found. rewrite W.
  destruct (filter (selects (where_of req)) forms) as [|r l] eqn:E.
  - rewrite (FormFacts.delete_not_found now req forms E). exact E.
  - assert (NE : filter (selects (where_of req)) forms <> [])
      by (rewrite E; discriminate).
    rewrite (FormFacts.delete_found now req forms A NE). cbn [snd].
    rewrite FormFacts.update_then_destroy. apply filter_none. intros x Hx.
    apply in_map_iff in Hx. destruct Hx as (y & <- & _).
    destruct (selects (where_of req) y) eqn:S; [reflexivity | exact S].
Qed.

Lemma delete_twice_not_found_witness :
  delete 6000 Samples.delete_request
         (snd (delete 5000 Samples.delete_request Samples.forms))
  = (inr (inl (not_found Samples.delete_request)),
     snd (delete 5000 Samples.delete_request Samples.forms)).
Proof.
  exact (@delete_twice_not_found 5000 6000 Samples.delete_request
           Samples.delete_request Samples.forms Samples.user eq_refl eq_refl).
Defined.

End FormVersionFacts.

(* ------------------------------------------------------------------ *)
(** ** PlanConfig revision create: every outcome                        *)
(* ------------------------------------------------------------------ *)

Module PlanConfigRevisionFacts.
Import Orm PlanConfig.
Local Open Scope Z_scope.

Lemma selects_one_where (w w' : Where) (r : PlanConfig) :
  selects w r = true -> selects w' r = true -> w' = w.
Proof.
  unfold selects. intros H H'.
  apply andb_true_iff in H. destruct H as [H V]. apply andb_true_iff in H.
  destruct H as [_ K].
  apply andb_true_iff in H'. destruct H' as [H' V']. apply andb_true_iff in H'.
  destruct H' as [_ K'].
  apply String.eqb_eq in K, K'. apply Z.eqb_eq in V, V'.
  destruct w, w'. simpl in *. congruence.
Qed.

(** The table [deleteOldestRevision] leaves: the same rows, or the same
    rows with one selected row evicted. *)
Lemma deleteOldestRevision_rows now by_user k v tbl :
  nextId (snd (deleteOldestRevision now by_user k v tbl)) = nextId tbl /\
  (rows (snd (deleteOldestRevision now by_user k v tbl)) = rows tbl \/
   exists l1 old l2,
     rows tbl = (l1 ++ old :: l2)%list /\
     selects (mkWhere k v) old = true /\
     rows (snd (deleteOldestRevision now by_user k v tbl))
     = (l1 ++ evicted now by_user old :: l2)%list).
Proof.
  destruct (filter (selects (mkWhere k v)) (rows tbl)) as [|r l] eqn:E.
  - unfold deleteOldestRevision. rewrite E. simpl. split; [reflexivity | now left].
  - destruct (@PlanConfigFacts.deleteOldestRevision_spec now by_user k v tbl)
      as (l1 & old & l2 & R & So & _ & D); [rewrite E; discriminate|].
    rewrite D. cbn [snd rows nextId]. split; [reflexivity|].
    right. exists l1, old, l2. repeat split; assumption.
Qed.

Section Outcome.

Variables (now MAX : Z) (wrapResponse : string -> Json -> Z -> Z -> Json).
Variables (req : Request) (tbl : Table).

Let result := create_revision now MAX wrapResponse req tbl.

(** The shape of the table after the handler: the old rows in place, one
    of them possibly evicted, followed by the new row if one was created. *)
Lemma create_revision_shape :
  exists before tail,
    rows (snd result) = (before ++ tail)%list /\
    (before = rows tbl \/
     exists l1 old l2 by_user,
       rows tbl = (l1 ++ old :: l2)%list /\
       selects (where_of req) old = true /\
       before = (l1 ++ evicted now by_user old :: l2)%list) /\
    ((tail = [] /\ nextId (snd result) = nextId tbl /\
      exists e, fst result = inr (inl e)) \/
     (exists new response,
         tail = [new] /\ nextId (snd result) = nextId tbl + 1 /\
         fst result = inr (inr response) /\
         selects (where_of req) new = true /\
         is_live new = true /\
         id new = nextId tbl /\
         forall r, In r (rows tbl) -> selects (where_of req) r = true ->
                   revision r < revision new)).
Proof.
  subst result.
  assert (Rej : authUser req = None \/ json_get "param" (body req) = None \/
                hd_error (order_revision_desc
                            (filter (selects (where_of req)) (rows tbl))) = None ->
                exists before tail,
                  rows (snd (create_revision now MAX wrapResponse req tbl))
                  = (before ++ tail)%list /\
                  (before = rows tbl \/
                   exists l1 old l2 by_user,
                     rows tbl = (l1 ++ old :: l2)%list /\
                     selects (where_of req) old = true /\
                     before = (l1 ++ evicted now by_user old :: l2)%list) /\
                  ((tail = [] /\
                    nextId (snd (create_revision now MAX wrapResponse req tbl))
                    = nextId tbl /\
                    exists e, fst (create_revision now MAX wrapResponse req tbl)
                              = inr (inl e)) \/
                   (exists new response,
                       tail = [new] /\
                       nextId (snd (create_revision now MAX wrapResponse req tbl))
                       = nextId tbl + 1 /\
                       fst (create_revision now MAX wrapResponse req tbl)
                       = inr (inr response) /\
                       selects (where_of req) new = true /\
                       is_live new = true /\
                       id new = nextId tbl /\
                       forall r, In r (rows tbl) ->
                                 selects (where_of req) r = true ->
                                 revision r < revision new))).
  { intros H.
    destruct (@PlanConfigFacts.create_revision_rejects now MAX wrapResponse req tbl H)
      as (e & tbl' & F & T & _).
    rewrite F. cbn [fst snd].
    exists (rows tbl'), []. rewrite app_nil_r. split; [reflexivity|].
    destruct T as [->|(u & ->)].
    - split; [now left|]. left. repeat split. now exists e.
    - destruct (deleteOldestRevision_rows now (userId u)
                  (Express.key (params req)) (Express.version (params req)) tbl)
        as (N & [R|(l1 & old & l2 & R & So & R')]).
      + split; [left; exact R|]. left. repeat split; [exact N | now exists e].
      + split; [right; exists l1, old, l2, (userId u); repeat split; assumption|].
        left. repeat split; [exact N | now exists e]. }
  destruct (authUser req) as [u|] eqn:A; [|apply Rej; now left].
  destruct (json_get "param" (body req)) as [param|] eqn:P;
    [|apply Rej; right; now left].
  destruct (filter (selects (where_of req)) (rows tbl)) as [|s0 sl] eqn:S;
    [apply Rej; right; right; reflexivity|].
  assert (NE : filter (selects (where_of req)) (rows tbl) <> [])
    by (rewrite S; discriminate).
  destruct (PlanConfigFacts.create_revision_ok now MAX wrapResponse req tbl A P NE)
    as (top & before & _ & _ & Hmax & C & Shape).
  rewrite C. cbn [fst snd rows nextId].
  exists before, [created req tbl top u param]. split; [reflexivity|]. split.
  - destruct Shape as [[_ ->]|[_ (l1 & old & l2 & R & So & _ & _ & ->)]];
      [now left|].
    right. exists l1, old, l2, (userId u). repeat split; assumption.
  - right. eexists; eexists. split; [reflexivity|]. split; [reflexivity|].
    split; [reflexivity|]. split; [apply PlanConfigFacts.selects_created|].
    split; [reflexivity|]. split; [reflexivity|].
    intros r Hr Sr. specialize (Hmax r Hr Sr). cbn [created revision]. lia.
Qed.

End Outcome.

(** The handler appends at most one row and removes none: the old rows
    keep their place and their ids, a row is added exactly when the answer
    is 201, and the id sequence advances exactly then.  The new row is
    visible, has the next id, and its revision is above every visible
    revision of its key and version. *)
Theorem create_revision_appends_only :
  forall (now MAX : Z) (wrapResponse : string -> Json -> Z -> Z -> Json)
         (req : Request) (tbl : Table),
    let result := create_revision now MAX wrapResponse req tbl in
    map id (firstn (List.length (rows tbl)) (rows (snd result)))
    = map id (rows tbl) /\
    ((exists e, fst result = inr (inl e)) /\
     List.length (rows (snd result)) = List.length (rows tbl) /\
     nextId (snd result) = nextId tbl
     \/
     (exists response new,
         fst result = inr (inr response) /\
         rows (snd result)
         = (firstn (List.length (rows tbl)) (rows (snd result)) ++ [new])%list /\
         nextId (snd result) = nextId tbl + 1 /\
         id new = nextId tbl /\
         selects (where_of req) new = true /\
         forall r, In r (rows tbl) -> selects (where_of req) r = true ->
                   revision r < revision new)).
Proof.
  intros now MAX wrapResponse req tbl result. subst result.
  destruct (create_revision_shape now MAX wrapResponse req tbl)
    as (before & tail & R & B & T).
  assert (L : List.length before = List.length (rows tbl)).
  { destruct B as [->|(l1 & old & l2 & by_user & -> & _ & ->)]; [reflexivity|].
    rewrite !length_app. reflexivity. }
  assert (I : map id before = map id (rows tbl)).
  { destruct B as [->|(l1 & old & l2 & by_user & -> & _ & ->)]; [reflexivity|].
    rewrite !map_app. reflexivity. }
  assert (F : firstn (List.length (rows tbl))
                     (rows (snd (create_revision now MAX wrapResponse req tbl)))
              = before).
  { rewrite R, <- L. rewrite firstn_app, Nat.sub_diag, firstn_all. simpl.
    apply app_nil_r. }
  rewrite F. split; [exact I|].
  destruct T as [(-> & N & E)|(new & response & -> & N & E & S & _ & Inew & Hlt)].
  - left. split; [exact E|]. rewrite R, app_nil_r. split; [exact L | exact N].
  - right. exists response, new. repeat split; assumption.
Qed.

Lemma filter_evicted w' w now by_user l1 old l2 :
  selects w old = true -> w' <> w ->
  filter (selects w') (l1 ++ evicted now by_user old :: l2)
  = filter (selects w') (l1 ++ old :: l2).
Proof.
  intros S N. rewrite !filter_app. cbn [filter].
  rewrite PlanConfigFacts.evicted_not_selected.
  destruct (selects w' old) eqn:S'; [|reflexivity].
  exfalso. apply N. exact (selects_one_where _ _ _ S S').
Qed.

(** Whatever the outcome, the rows that queries see for any other key or
    version are the same before and after a create-revision request. *)
Theorem create_revision_leaves_other_versions :
  forall (now MAX : Z) (wrapResponse : string -> Json -> Z -> Z -> Json)
         (req : Request) (tbl : Table) (w' : Where),
    w' <> where_of req ->
    filter (selects w') (rows (snd (create_revision now MAX wrapResponse req tbl)))
    = filter (selects w') (rows tbl).
Proof.
  intros now MAX wrapResponse req tbl w' N.
  destruct (create_revision_shape now MAX wrapResponse req tbl)
    as (before & tail & R & B & T).
  rewrite R, filter_app.
  assert (Tl : filter (selects w') tail = []).
  { destruct T as [(-> & _)|(new & response & -> & _ & _ & S & _)];
      [reflexivity|].
    cbn [filter]. destruct (selects w' new) eqn:S'; [|reflexivity].
    exfalso. apply N. exact (selects_one_where _ _ _ S S'). }
  rewrite Tl, app_nil_r.
  destruct B as [->|(l1 & old & l2 & by_user & -> & So & ->)]; [reflexivity|].
  apply (filter_evicted _ _ _ _ _ So N).
Qed.

Lemma create_revision_leaves_other_versions_witness :
  filter (selects (mkWhere "design" 1))
         (rows (snd (create_revision 5000 2 Samples.wrap Samples.revision_request
                                     Samples.plan_configs)))
  = [ mkPlanConfig 3 "design" 1 1 (Some (JObj [])) 7 7 None None ].
Proof.
  assert (N : mkWhere "design" 1 <> where_of Samples.revision_request)
    by discriminate.
  exact (@create_revision_leaves_other_versions 5000 2 Samples.wrap
           Samples.revision_request Samples.plan_configs (mkWhere "design" 1) N).
Defined.

Lemma NoDup_snoc {A : Type} (l : list A) (x : A) :
  NoDup l -> ~ In x l -> NoDup (l ++ [x]).
Proof.
  induction l as [|a l IH]; simpl; intros D N; [repeat constructor; tauto|].
  inversion D as [|? ? Ha Dl]; subst. constructor.
  - intros H. apply in_app_iff in H. destruct H as [H|[H|[]]]; [tauto|].
    apply N. now left.
  - apply IH; [exact Dl | tauto].
Qed.

(** If the visible revisions of the request's key and version carry
    pairwise different revision numbers, they still do after the handler,
    whatever its outcome. *)
Theorem create_revision_keeps_revisions_distinct :
  forall (now MAX : Z) (wrapResponse : string -> Json -> Z -> Z -> Json)
         (req : Request) (tbl : Table),
    NoDup (map revision (filter (selects (where_of req)) (rows tbl))) ->
    NoDup (map revision
             (filter (selects (where_of req))
                     (rows (snd (create_revision now MAX wrapResponse req tbl))))).
Proof.
  intros now MAX wrapResponse req tbl D.
  destruct (create_revision_shape now MAX wrapResponse req tbl)
    as (before & tail & R & B & T).
  rewrite R, filter_app, map_app.
  assert (Db : NoDup (map revision (filter (selects (where_of req)) before)) /\
               forall r, In r (filter (selects (where_of req)) before) ->
                         In r (rows tbl) /\ selects (where_of req) r = true).
  { destruct B as [->|(l1 & old & l2 & by_user & E & So & ->)].
    - split; [exact D|]. intros r Hr. apply filter_In in Hr. exact Hr.
    - rewrite E in D. rewrite filter_app in D |- *. cbn [filter] in D |- *.
      rewrite So in D. rewrite PlanConfigFacts.evicted_not_selected.
      rewrite map_app in D |- *. cbn [map] in D. split.
      + exact (NoDup_remove_1 _ _ _ D).
      + intros r Hr. rewrite <- filter_app in Hr. apply filter_In in Hr.
        destruct Hr as [Hr Sr]. split; [|exact Sr]. rewrite E.
        apply in_app_iff in Hr. apply in_app_iff.
        destruct Hr as [Hr|Hr]; [now left | right; now right]. }
  destruct Db as [Db Sub].
  destruct T as [(-> & _)|(new & response & -> & _ & _ & S & _ & _ & Hlt)].
  - simpl. rewrite app_nil_r. exact Db.
  - cbn [filter]. rewrite S. cbn [map]. apply NoDup_snoc; [exact Db|].
    intros H. apply in_map_iff in H. destruct H as (r & E & Hr).
    destruct (Sub r Hr) as [Hin Sr]. specialize (Hlt r Hin Sr). lia.
Qed.

Lemma create_revision_keeps_revisions_distinct_witness :
  NoDup (map revision
           (filter (selects (where_of Samples.revision_request))
              (rows (snd (create_revision 5000 2 Samples.wrap
                            Samples.revision_request Samples.plan_configs))))).
Proof.
  apply create_revision_keeps_revisions_distinct.
  vm_compute. repeat constructor; simpl; intuition discriminate.
Defined.

Lemma count_filter_evicted w now by_user l1 old l2 :
  selects w old = true ->
  Z.of_nat (List.length (filter (selects w) (l1 ++ evicted now by_user old :: l2)))
  = Z.of_nat (List.length (filter (selects w) (l1 ++ old :: l2))) - 1.
Proof.
  intros S.
  rewrite (@PlanConfigFacts.count_after_eviction now by_user w l1 old l2 S). lia.
Qed.

(** One request changes the revision count of its key and version by at
    most one and never lifts it above the larger of the old count and
    [MAX_REVISION_NUMBER].  When a revision is created, the count grows by
    one below the limit and stays as it is at or above the limit: one row
    is evicted for the one added, so a count above the limit is not brought
    back to it. *)
Theorem create_revision_count_change :
  forall (now MAX : Z) (wrapResponse : string -> Json -> Z -> Z -> Json)
         (req : Request) (tbl : Table),
    let k := Express.key (params req) in
    let v := Express.version (params req) in
    let result := create_revision now MAX wrapResponse req tbl in
    revision_count k v tbl - 1 <= revision_count k v (snd result)
      <= revision_count k v tbl + 1 /\
    revision_count k v (snd result) <= Z.max (revision_count k v tbl) MAX /\
    forall response,
      fst result = inr (inr response) ->
      revision_count k v (snd result)
      = if MAX <=? revision_count k v tbl
        then revision_count k v tbl
        else revision_count k v tbl + 1.
Proof.
  intros now MAX wrapResponse req tbl k v result. subst result.
  assert (Ok : forall response,
             fst (create_revision now MAX wrapResponse req tbl) = inr (inr response) ->
             revision_count k v (snd (create_revision now MAX wrapResponse req tbl))
             = if MAX <=? revision_count k v tbl
               then revision_count k v tbl
               else revision_count k v tbl + 1).
  { intros response F.
    assert (Rej : authUser req = None \/ json_get "param" (body req) = None \/
                  hd_error (order_revision_desc
                              (filter (selects (where_of req)) (rows tbl))) = None ->
                  False).
    { intros H.
      destruct (@PlanConfigFacts.create_revision_rejects now MAX wrapResponse req tbl H)
        as (e & tbl' & F' & _).
      rewrite F' in F. discriminate F. }
    destruct (authUser req) as [u|] eqn:A; [|exfalso; apply Rej; now left].
    destruct (json_get "param" (body req)) as [param|] eqn:P;
      [|exfalso; apply Rej; right; now left].
    destruct (filter (selects (where_of req)) (rows tbl)) as [|s0 sl] eqn:S;
      [exfalso; apply Rej; right; right; reflexivity|].
    assert (NE : filter (selects (where_of req)) (rows tbl) <> [])
      by (rewrite S; discriminate).
    destruct (PlanConfigFacts.create_revision_ok now MAX wrapResponse req tbl A P NE)
      as (top & before & _ & _ & _ & C & [[Lt ->]|[Ge (l1 & old & l2 & R & So & _ & _ & ->)]]);
      rewrite C; cbn [snd]; unfold k, v;
      rewrite PlanConfigFacts.revision_count_appended.
    - destruct (MAX <=? _) eqn:X; [apply Z.leb_le in X; lia|].
      rewrite PlanConfigFacts.revision_count_spec. reflexivity.
    - destruct (MAX <=? _) eqn:X; [|apply Z.leb_gt in X; lia].
      rewrite (count_filter_evicted _ now (userId u) l1 old l2 So).
      rewrite PlanConfigFacts.revision_count_spec. fold (where_of req).
      rewrite R. lia. }
  assert (B : revision_count k v tbl - 1
              <= revision_count k v (snd (create_revision now MAX wrapResponse req tbl))
              <= revision_count k v tbl + 1 /\
              ((exists e, fst (create_revision now MAX wrapResponse req tbl)
                          = inr (inl e)) ->
               revision_count k v (snd (create_revision now MAX wrapResponse req tbl))
               <= revision_count k v tbl)).
  { destruct (create_revision_shape now MAX wrapResponse req tbl)
      as (before & tail & R & Bf & T).
    unfold k, v. rewrite !PlanConfigFacts.revision_count_spec.
    fold (where_of req). rewrite R, filter_app, length_app.
    assert (Hb : Z.of_nat (List.length (filter (selects (where_of req)) before))
                 = Z.of_nat (List.length (filter (selects (where_of req)) (rows tbl)))
                 \/
                 Z.of_nat (List.length (filter (selects (where_of req)) before))
                 = Z.of_nat (List.length (filter (selects (where_of req)) (rows tbl))) - 1).
    { destruct Bf as [->|(l1 & old & l2 & by_user & -> & So & ->)]; [now left|].
      right. apply count_filter_evicted. exact So. }
    destruct T as [(-> & _ & _)|(new & response & -> & _ & F & S & _)].
    - simpl. split; [lia|]. intros _. lia.
    - cbn [filter]. rewrite S. simpl List.length. split; [lia|].
      intros (e & E). rewrite E in F. discriminate F. }
  destruct B as [B1 B2]. split; [exact B1|]. split; [|exact Ok].
  destruct (fst (create_revision now MAX wrapResponse req tbl)) as [e|[e|response]] eqn:F.
  - destruct (create_revision_shape now MAX wrapResponse req tbl)
      as (_ & _ & _ & _ & [(_ & _ & (e' & E))|(new & response & _ & _ & E & _)]);
      rewrite E in F; discriminate F.
  - specialize (B2 (ex_intro _ e eq_refl)). lia.
  - rewrite (Ok response eq_refl).
    destruct (MAX <=? revision_count k v tbl) eqn:X;
      [|apply Z.leb_gt in X]; lia.
Qed.

End PlanConfigRevisionFacts.

(* ------------------------------------------------------------------ *)
(** ** The middleware chains of the route modules                       *)
(* ------------------------------------------------------------------ *)

Module ChainFacts.
Import Orm.

Lemma create_revision_unauthenticated now MAX wrapResponse req tbl :
  authUser req = None ->
  snd (PlanConfig.create_revision now MAX wrapResponse req tbl) = tbl.
Proof.
  intros A.
  unfold PlanConfig.create_revision, transaction, catch_next, and_then,
    PlanConfig.findAll, resolve, reject.
  rewrite A.
  destruct (_ <=? _)%Z; [reflexivity|].
  destruct (Nat.eqb _ 0); [reflexivity|].
  destruct (hd_error _); reflexivity.
Qed.

Lemma form_delete_answers now req forms :
  exists answer,
    fst (Form.delete now req forms) = inr answer /\
    (forall response, answer = inr response -> response = (204%Z, None)).
Proof.
  destruct (filter (Form.selects (where_of req)) forms) as [|r l] eqn:E.
  - rewrite (FormFacts.delete_not_found now req forms E). eexists.
    split; [reflexivity|]. intros response X. discriminate X.
  - assert (NE : filter (Form.selects (where_of req)) forms <> [])
      by (rewrite E; discriminate).
    destruct (authUser req) as [u|] eqn:A.
    + rewrite (FormFacts.delete_found now req forms A NE). eexists.
      split; [reflexivity|]. intros response X. injection X as <-. reflexivity.
    + destruct (FormFacts.delete_unauthenticated now req forms A NE) as (msg & D).
      rewrite D. eexists. split; [reflexivity|]. intros response X.
      discriminate X.
Qed.

Section Chains.

Variable authorized : string -> Request -> bool.

(** The form version delete chain, end to end.  A request that fails the
    validation is turned away before any permission check, one that is
    refused the 'form.create' policy before any transaction; the policy
    sees the request as the validation leaves it.  Every request is
    answered exactly once, by a response or by an error to [next]; the only
    response is 204 without a body; and the table changes only for a
    request that passed the validation and the policy, carries a user, and
    names a key and version with rows. *)
Theorem form_delete_chain :
  forall (validate_with : ExpressValidation.Validation) (now : Z)
         (req : Request) (forms : list Form.Form),
    let run := run_chain authorized (Form.module_exports now validate_with)
                         req forms in
    let validated := validate_with Form.schema req in
    (validated = None ->
     existsb is_permission_event (fst run) = false /\
     snd run = forms /\ existsb is_operation_event (fst run) = false /\
     responses (fst run) = []) /\
    (forall req', validated = Some req' ->
                  authorized "form.create" req' = false ->
     snd run = forms /\ existsb is_operation_event (fst run) = false /\
     responses (fst run) = []) /\
    List.length (filter is_answer_event (fst run)) = 1%nat /\
    (responses (fst run) = [] \/ responses (fst run) = [(204%Z, None)]) /\
    (snd run <> forms ->
     exists req', validated = Some req' /\
                  authorized "form.create" req' = true /\
                  authUser req' <> None /\
                  filter (Form.selects (where_of req')) forms <> []).
Proof.
  intros validate_with now req forms run validated. subst run validated.
  unfold Form.module_exports. cbn [run_chain].
  destruct (validate_with Form.schema req) as [req'|] eqn:S.
  2:{ split; [intros _; repeat split; reflexivity|].
      split; [intros r X; discriminate X|].
      split; [reflexivity|]. split; [now left|].
      intros X. exfalso. apply X. reflexivity. }
  destruct (authorized "form.create" req') eqn:A.
  2:{ split; [discriminate|].
      split; [intros r X _; repeat split; reflexivity|].
      split; [reflexivity|]. split; [now left|].
      intros X. exfalso. apply X. reflexivity. }
  split; [discriminate|].
  split; [intros r X B; injection X as <-; rewrite A in B; discriminate B|].
  destruct (form_delete_answers now req' forms) as (answer & F & R).
  unfold as_handler.
  pose proof (FormVersionFacts.delete_table now req' forms) as T.
  destruct (Form.delete now req' forms) as [[e|[e|[code payload]]] forms'];
    cbn [fst snd] in *; try discriminate F.
  - split; [reflexivity|]. split; [now left|].
    intros X. destruct T as [T|(u & Au & NE & _)]; [contradiction|].
    exists req'. repeat split; try assumption. rewrite Au. discriminate.
  - injection F as <-. specialize (R _ eq_refl). injection R as -> ->.
    split; [reflexivity|]. split; [now right|].
    intros X. destruct T as [T|(u & Au & NE & _)]; [contradiction|].
    exists req'. repeat split; try assumption. rewrite Au. discriminate.
Qed.

(** The planConfig revision create chain, end to end, under the
    'planConfig.create' policy: the same order of checks, exactly one
    answer per request, and a table that changes only for a request that
    passed the validation and the policy and carries a user. *)
Theorem plan_config_create_chain :
  forall (validate_with : ExpressValidation.Validation) (now MAX : Z)
         (wrapResponse : string -> Json -> Z -> Z -> Json)
         (req : Request) (tbl : PlanConfig.Table),
    let run := run_chain authorized
                 (PlanConfig.module_exports now validate_with MAX wrapResponse)
                 req tbl in
    let validated := validate_with PlanConfig.schema req in
    (validated = None ->
     existsb is_permission_event (fst run) = false /\
     snd run = tbl /\ existsb is_operation_event (fst run) = false /\
     responses (fst run) = []) /\
    (forall req', validated = Some req' ->
                  authorized "planConfig.create" req' = false ->
     snd run = tbl /\ existsb is_operation_event (fst run) = false /\
     responses (fst run) = []) /\
    List.length (filter is_answer_event (fst run)) = 1%nat /\
    (snd run <> tbl ->
     exists req', validated = Some req' /\
                  authorized "planConfig.create" req' = true /\
                  authUser req' <> None /\
                  snd run = snd (PlanConfig.create_revision now MAX
                                   wrapResponse req' tbl)).
Proof.
  intros validate_with now MAX wrapResponse req tbl run validated.
  subst run validated.
  unfold PlanConfig.module_exports. cbn [run_chain].
  destruct (validate_with PlanConfig.schema req) as [req'|] eqn:S.
  2:{ split; [intros _; repeat split; reflexivity|].
      split; [intros r X; discriminate X|].
      split; [reflexivity|]. intros X. exfalso. apply X. reflexivity. }
  destruct (authorized "planConfig.create" req') eqn:A.
  2:{ split; [discriminate|].
      split; [intros r X _; repeat split; reflexivity|].
      split; [reflexivity|]. intros X. exfalso. apply X. reflexivity. }
  split; [discriminate|].
  split; [intros r X B; injection X as <-; rewrite A in B; discriminate B|].
  unfold as_handler.
  pose proof (create_revision_unauthenticated now MAX wrapResponse req' tbl) as U.
  destruct (PlanConfigRevisionFacts.create_revision_shape now MAX wrapResponse req' tbl)
    as (_ & _ & _ & _ & [(_ & _ & (e & E))|(new & response & _ & _ & E & _)]);
    destruct (PlanConfig.create_revision now MAX wrapResponse req' tbl)
      as [[e'|[e'|[code payload]]] tbl'] eqn:C;
    cbn [fst snd] in *; try discriminate E;
    (split; [reflexivity|]);
    intros X; exists req';
    (split; [reflexivity|]); (split; [exact A|]);
    (split; [intros N; apply X; apply U; exact N|]);
    rewrite C; reflexivity.
Qed.

End Chains.

Lemma form_delete_chain_witness :
  snd (run_chain (fun _ _ => true) (Form.module_exports 5000 Samples.fails)
                 Samples.delete_request Samples.forms) = Samples.forms /\
  snd (run_chain (fun _ _ => false) (Form.module_exports 5000 Samples.passes)
                 Samples.delete_request Samples.forms) = Samples.forms /\
  fst (run_chain (fun _ _ => true) (Form.module_exports 5000 Samples.passes)
                 Samples.delete_request Samples.forms)
  = [EValidate true; EPermission "form.create" true; ETransaction;
     ERespond 204 None] /\
  exists req',
    authUser req' <> None /\
    filter (Form.selects (where_of req')) Samples.forms <> [].
Proof.
  split; [|split; [|split]].
  - exact (proj1 (proj2 (proj1 (@form_delete_chain (fun _ _ => true)
             Samples.fails 5000 Samples.delete_request Samples.forms)
             eq_refl))).
  - exact (proj1 (proj1 (proj2 (@form_delete_chain (fun _ _ => false)
             Samples.passes 5000 Samples.delete_request Samples.forms))
             Samples.delete_request eq_refl eq_refl)).
  - reflexivity.
  - assert (X : snd (run_chain (fun _ _ => true)
                       (Form.module_exports 5000 Samples.passes)
                       Samples.delete_request Samples.forms) <> Samples.forms)
      by (vm_compute; discriminate).
    destruct (proj2 (proj2 (proj2 (proj2 (@form_delete_chain (fun _ _ => true)
                Samples.passes 5000 Samples.delete_request Samples.forms)))) X)
      as (req' & _ & _ & A & F).
    exists req'. split; assumption.
Defined.

Lemma plan_config_create_chain_witness :
  snd (run_chain (fun _ _ => true)
                 (PlanConfig.module_exports 5000 Samples.fails 2 Samples.wrap)
                 Samples.revision_request Samples.plan_configs)
  = Samples.plan_configs /\
  snd (run_chain (fun _ _ => false)
                 (PlanConfig.module_exports 5000 Samples.passes 2 Samples.wrap)
                 Samples.revision_request Samples.plan_configs)
  = Samples.plan_configs /\
  responses (fst (run_chain (fun _ _ => true)
                 (PlanConfig.module_exports 5000 Samples.passes 2 Samples.wrap)
                 Samples.revision_request Samples.plan_configs))
  = [(201%Z, Some (Samples.wrap "req-2"
        (JObj [ ("id", JNum 4); ("key", JStr "dev"); ("version", JNum 1);
                ("revision", JNum 3); ("phases", JObj []);
                ("createdBy", JNum 40051333); ("updatedBy", JNum 40051333) ])
        1 201))].
Proof.
  split; [|split].
  - exact (proj1 (proj2 (proj1 (@plan_config_create_chain (fun _ _ => true)
             Samples.fails 5000 2 Samples.wrap Samples.revision_request
             Samples.plan_configs) eq_refl))).
  - exact (proj1 (proj1 (proj2 (@plan_config_create_chain (fun _ _ => false)
             Samples.passes 5000 2 Samples.wrap Samples.revision_request
             Samples.plan_configs)) Samples.revision_request eq_refl eq_refl)).
  - reflexivity.
Defined.

End ChainFacts.

(* ------------------------------------------------------------------ *)
(** ** The Project model: lookups, required attributes, ids             *)
(* ------------------------------------------------------------------ *)

Module ProjectModelFacts.
Import Project.
Local Open Scope Z_scope.

(** [getDirectProjectId] rejects exactly when no row that is not deleted
    has the id (also for a soft-deleted project); otherwise it resolves
    with the [directProjectId] of such a row, which may be null. *)
Theorem getDirectProjectId_unknown_id_rejects :
  forall (i : Z) (tbl : list Project),
    ((exists msg, getDirectProjectId i tbl = inl msg) <->
     (forall p, In p tbl -> id p = Some i -> deletedAt p <> None)) /\
    (forall v, getDirectProjectId i tbl = inr v ->
               exists p, In p tbl /\ id p = Some i /\ deletedAt p = None /\
                         directProjectId p = v).
Proof.
  intros i tbl. unfold getDirectProjectId, findById.
  destruct (find _ tbl) as [res|] eqn:F.
  - apply find_some in F. destruct F as [Hin T].
    destruct (id res) as [j|] eqn:I; [|discriminate T].
    destruct (deletedAt res) eqn:D; [discriminate T|].
    apply Z.eqb_eq in T. subst j. split.
    + split; [intros (msg & X); discriminate X|].
      intros H. exfalso. exact (H res Hin I D).
    + intros v X. injection X as <-. exists res. repeat split; assumption.
  - split.
    + split; [|intros _; eexists; reflexivity].
      intros _ p Hin I D. pose proof (find_none _ _ F p Hin) as X.
      cbn beta in X. rewrite I, D, Z.eqb_refl in X. discriminate X.
    + intros v X. discriminate X.
Qed.

Section Rows.

Variable statuses : list string.

(** The attributes declared [allowNull: false] (the id is assigned by the
    database, [terms] and [version] have defaults). *)
Lemma validate_required p :
  validate statuses p = [] ->
  name p <> None /\ terms p <> None /\ type p <> None /\ status p <> None /\
  createdBy p <> None /\ updatedBy p <> None /\ version p <> None /\
  lastActivityAt p <> None /\ lastActivityUserId p <> None.
Proof.
  unfold validate. intros H.
  repeat (apply app_eq_nil in H; destruct H as [? H]).
  repeat match goal with
         | R : required _ ?v = [] |- _ =>
             destruct v; [clear R | discriminate R]
         end.
  destruct (status p); [|discriminate].
  repeat split; discriminate.
Qed.

(** Every row of a table the model layer has produced has the attributes
    declared [allowNull: false] set: a create or a save that would leave
    one of them null is rejected, whatever the table held before. *)
Theorem persisted_rows_complete :
  forall tbl : list Project,
    persisted statuses tbl ->
    forall p, In p tbl ->
      name p <> None /\ terms p <> None /\ type p <> None /\ status p <> None /\
      createdBy p <> None /\ updatedBy p <> None /\ version p <> None /\
      lastActivityAt p <> None /\ lastActivityUserId p <> None.
Proof.
  intros tbl H.
  induction H as [|now values tbl tbl' H IH C|p0 tbl tbl' H IH C].
  - intros p [].
  - unfold create in C.
    destruct (validate statuses (with_defaults now values)) eqn:V;
      [|discriminate C].
    injection C as <-.
    intros p Hp. apply in_app_iff in Hp. destruct Hp as [Hp|[<-|[]]].
    + exact (IH p Hp).
    + apply validate_required in V. exact V.
  - unfold save in C. destruct (validate statuses p0) eqn:V; [|discriminate C].
    injection C as <-.
    intros p Hp. apply in_map_iff in Hp. destruct Hp as (r & E & Hr).
    destruct (same_id p0 r) eqn:S.
    + subst p. exact (validate_required _ V).
    + subst p. exact (IH r Hr).
Qed.

End Rows.

Lemma persisted_rows_complete_witness :
  Forall (fun p => name p <> None /\ terms p = Some [] /\ version p = Some "v3")
         [ Samples.paused_project;
           with_id 2 (with_defaults 2000 Samples.new_project) ].
Proof.
  assert (C1 : create Samples.statuses 1000 Samples.new_project []
               = inr [with_id 1 (with_defaults 1000 Samples.new_project)])
    by reflexivity.
  assert (C2 : create Samples.statuses 2000 Samples.new_project
                      [with_id 1 (with_defaults 1000 Samples.new_project)]
               = inr [ with_id 1 (with_defaults 1000 Samples.new_project);
                       with_id 2 (with_defaults 2000 Samples.new_project) ])
    by reflexivity.
  assert (S : save Samples.statuses Samples.paused_project
                   [ with_id 1 (with_defaults 1000 Samples.new_project);
                     with_id 2 (with_defaults 2000 Samples.new_project) ]
              = inr [ Samples.paused_project;
                      with_id 2 (with_defaults 2000 Samples.new_project) ])
    by reflexivity.
  pose proof (@persisted_rows_complete Samples.statuses _
                (persisted_save _
                   (persisted_create 2000 Samples.new_project
                      (persisted_create 1000 Samples.new_project
                         (persisted_empty Samples.statuses) C1) C2) S)) as R.
  apply Forall_forall. intros p Hp.
  destruct (R p Hp) as (N & _). split; [exact N|].
  destruct Hp as [<-|[<-|[]]]; split; reflexivity.
Defined.

End ProjectModelFacts.

(* ------------------------------------------------------------------ *)
(** ** Project.searchText: rejections, count and page                   *)
(* ------------------------------------------------------------------ *)

Module ProjectSearchFacts.
Import Project.
Local Open Scope Z_scope.

Section Search.

Variable full_text_match : string -> string -> bool.

(** Which filter combinations the count query is rejected for, whatever
    the database holds: a string status followed by a type or keyword
    filter (the parameter name reads [statusAND]), and a member filter that
    gives only one of [userId] and [email].  For every other combination
    each parameter of the count query has a value. *)
Theorem searchText_rejected_combinations :
  forall (parameters : Parameters) (db : Database),
    let f := filters parameters in
    let q := build_query (push_if_empty f) in
    (clauses_run_together f = true ->
     snd (searchText full_text_match parameters db) = inl (no_value "statusAND")) /\
    (clauses_run_together f = false -> member_filter_complete f = false ->
     snd (searchText full_text_match parameters db)
     = inl (no_value (match f_userId f with
                      | None => "userId"
                      | Some _ => "email"
                      end))) /\
    (clauses_run_together f = false -> member_filter_complete f = true ->
     unbound_parameter (count_sql q) (replacements q) = None).
Proof.
  intros [[fid fstatus ftype fkeyword fuser femail] ord lim off attrs] db.
  cbv zeta. cbn [filters].
  destruct fid as [[[|x l]|v|]|]; destruct fstatus as [[l'|s|]|];
    destruct ftype; destruct fkeyword; destruct fuser; destruct femail;
    (split; [intros H; try discriminate H; vm_compute; reflexivity|]);
    (split; [intros H1 H2; try discriminate H1; try discriminate H2;
             vm_compute; reflexivity|]);
    intros H1 H2; try discriminate H1; try discriminate H2;
    vm_compute; reflexivity.
Qed.

Lemma has_member_filter_push f :
  has_member_filter (push_if_empty f) = has_member_filter f.
Proof.
  unfold push_if_empty. destruct (f_id f) as [[[|x l]|v|]|]; reflexivity.
Qed.

Lemma joinQuery_add q text c r : joinQuery (add q text c r) = joinQuery q.
Proof. reflexivity. Qed.

Lemma is_joined_build_query f :
  is_joined (build_query f) = has_member_filter f.
Proof.
  unfold build_query, member_clause, is_joined.
  destruct (has_member_filter f); [reflexivity|].
  unfold keyword_clause, type_clause, status_clause, id_clause.
  destruct (f_keyword f); destruct (f_type f);
    destruct (f_status f) as [[?|?|]|]; destruct (f_id f) as [[?|?|]|];
    reflexivity.
Qed.

Lemma order_by_length o l : List.length (order_by o l) = List.length l.
Proof.
  unfold order_by. induction l as [|a l IH]; simpl; [reflexivity|].
  rewrite <- IH. generalize (fold_right (insert_ordered o) [] l). intros s.
  induction s as [|x s IHs]; simpl; [reflexivity|].
  destruct (before o x a); simpl; [now rewrite IHs | reflexivity].
Qed.

Section Counting.

Variable g : ProjectRow -> nat.

Lemma counted_groups (l : list ProjectRow) :
  List.length (filter (fun n => 0 <? n) (map (fun p => Z.of_nat (g p)) l))
  = List.length (filter (fun p => negb (Nat.eqb (g p) 0)) l).
Proof.
  induction l as [|a l IH]; simpl; [reflexivity|].
  destruct (g a) as [|n] eqn:G; simpl; [exact IH|]. now rewrite IH.
Qed.

Lemma single_group (l : list ProjectRow) (p : ProjectRow) :
  filter (fun p => negb (Nat.eqb (g p) 0)) l = [p] ->
  filter (fun n => 0 <? n) (map (fun p => Z.of_nat (g p)) l) = [Z.of_nat (g p)].
Proof.
  induction l as [|a l IH]; simpl; intros H; [discriminate H|].
  destruct (g a) as [|n] eqn:G; simpl in *.
  - exact (IH H).
  - injection H as -> H. rewrite G. f_equal.
    apply filter_none. intros x Hx. apply in_map_iff in Hx.
    destruct Hx as (y & <- & Hy).
    pose proof (filter_nil_none _ _ H y Hy) as Z0. cbn beta in Z0.
    destruct (g y); [reflexivity | discriminate Z0].
Qed.

Lemma summed_flags (l : list ProjectRow) :
  (forall p, In p l -> (g p <= 1)%nat) ->
  fold_right Z.add 0 (map (fun p => Z.of_nat (g p)) l)
  = Z.of_nat (List.length (filter (fun p => negb (Nat.eqb (g p) 0)) l)).
Proof.
  induction l as [|a l IH]; intros B; [reflexivity|].
  cbn [map fold_right filter]. rewrite IH by (intros p Hp; apply B; now right).
  pose proof (B a (or_introl eq_refl)) as Ba.
  destruct (g a) as [|[|n]]; cbn [Nat.eqb negb List.length]; lia.
Qed.

End Counting.

(** When [searchText] resolves, its rows are the page of the matching
    projects: [min(limit, matches - offset)] of them.  Without the userId /
    email filter the count is the number of matching projects; with it the
    count is that number too unless exactly one project matches, when it is
    the number of joined member and invite rows of that project, at least
    one.  So the count is never below the number of matching projects. *)
Theorem searchText_count_and_page :
  forall (parameters : Parameters) (db : Database)
         (rows : list (list (string * Json))) (count : Z),
    snd (searchText full_text_match parameters db) = inr (rows, count) ->
    let matches := matching_projects full_text_match parameters db in
    let q := build_query (push_if_empty (filters parameters)) in
    (exists lim off,
        limit parameters = Some lim /\ offset parameters = Some off /\
        List.length rows = Nat.min lim (List.length matches - off)) /\
    (has_member_filter (filters parameters) = false ->
     count = Z.of_nat (List.length matches)) /\
    (List.length matches <> 1%nat -> count = Z.of_nat (List.length matches)) /\
    (has_member_filter (filters parameters) = true ->
     forall p, matches = [p] ->
               count = Z.of_nat (List.length (passing full_text_match q db p)) /\
               1 <= count) /\
    Z.of_nat (List.length matches) <= count.
Proof.
  intros parameters db rows count H matches q.
  unfold searchText in H. cbn [snd] in H. fold q in H.
  destruct (query_error (count_sql q) q (replacements q)); [discriminate H|].
  destruct (query_error (rows_sql parameters q) q _); [discriminate H|].
  destruct (unknown_column parameters); [discriminate H|].
  destruct (limit parameters) as [lim|]; [|discriminate H].
  destruct (offset parameters) as [off|]; [|discriminate H].
  injection H as Hrows Hcount.
  assert (J : is_joined q = has_member_filter (filters parameters))
    by (unfold q; rewrite is_joined_build_query; apply has_member_filter_push).
  set (g := fun p => List.length (passing full_text_match q db p)) in *.
  assert (M : matches = filter (fun p => negb (Nat.eqb (g p) 0)) (projects db))
    by reflexivity.
  assert (Page : List.length rows = Nat.min lim (List.length matches - off)).
  { rewrite <- Hrows. unfold select_rows. rewrite length_map, length_firstn,
      length_skipn, order_by_length. reflexivity. }
  split; [exists lim, off; repeat split; exact Page|].
  unfold select_count in Hcount.
  change (match (if is_joined q
                 then filter (fun n => 0 <? n)
                             (map (fun p => Z.of_nat (g p)) (projects db))
                 else [fold_right Z.add 0
                                  (map (fun p => Z.of_nat (g p)) (projects db))])
          with
          | [c] => c
          | _ => Z.of_nat (List.length
                   (if is_joined q
                    then filter (fun n => 0 <? n)
                                (map (fun p => Z.of_nat (g p)) (projects db))
                    else [fold_right Z.add 0
                                     (map (fun p => Z.of_nat (g p)) (projects db))]))
          end = count) in Hcount.
  destruct (is_joined q) eqn:Jq.
  - (* grouped by project *)
    pose proof (counted_groups g (projects db)) as L. rewrite <- M in L.
    assert (Single : forall p, matches = [p] ->
                               count = Z.of_nat (g p) /\ 1 <= count).
    { intros p E. rewrite M in E. rewrite (single_group g _ E) in Hcount.
      subst count. split; [reflexivity|].
      assert (In p (filter (fun p => negb (Nat.eqb (g p) 0)) (projects db)))
        as Hp by (rewrite E; now left).
      apply filter_In in Hp. destruct Hp as [_ Hp].
      destruct (g p); [discriminate Hp | lia]. }
    assert (Many : List.length matches <> 1%nat ->
                   count = Z.of_nat (List.length matches)).
    { intros N. rewrite <- L.
      destruct (filter (fun n => 0 <? n) _) as [|c [|c' rest]] eqn:F;
        [subst count; reflexivity | | subst count; reflexivity].
      exfalso. apply N. rewrite <- L. reflexivity. }
    split; [intros X; rewrite <- J in X; discriminate X|].
    split; [exact Many|]. split; [intros _; exact Single|].
    destruct matches as [|p [|p' rest]] eqn:E.
    + rewrite Many by discriminate. simpl. lia.
    + destruct (Single p eq_refl) as [_ One]. simpl. lia.
    + rewrite Many by discriminate. lia.
  - (* one row *)
    assert (B : forall p, In p (projects db) -> (g p <= 1)%nat).
    { intros p _. unfold g, passing. rewrite Jq. cbn [filter].
      destruct (forallb _ _); simpl; lia. }
    rewrite (summed_flags g _ B), <- M in Hcount.
    split; [intros _; now subst count|].
    split; [intros _; now subst count|].
    split; [intros X; rewrite <- J in X; discriminate X|].
    subst count. lia.
Qed.

End Search.

Lemma searchText_count_and_page_witness :
  (2 = Z.of_nat (List.length
         (passing Samples.no_match
            (build_query (push_if_empty (filters Samples.my_projects)))
            Samples.one_project_two_invites
            (Samples.project 1 "active" "generic"))) /\ 1 <= 2) /\
  Z.of_nat (List.length (matching_projects Samples.no_match Samples.my_projects
                           Samples.one_project_two_invites)) <= 2 /\
  List.length [ [ ("id", JNum 1); ("name", JStr "Website") ] ]
  = Nat.min 20 (List.length (matching_projects Samples.no_match
                               Samples.my_projects
                               Samples.one_project_two_invites) - 0) /\
  2 = Z.of_nat (List.length (matching_projects Samples.no_match
                               Samples.my_projects Samples.two_projects)).
Proof.
  pose proof (@searchText_count_and_page Samples.no_match Samples.my_projects
                Samples.one_project_two_invites
                [ [ ("id", JNum 1); ("name", JStr "Website") ] ] 2 eq_refl)
    as ((lim & off & L & O & P) & _ & _ & Single & Below).
  pose proof (@searchText_count_and_page Samples.no_match Samples.my_projects
                Samples.two_projects
                [ [ ("id", JNum 2); ("name", JStr "Website") ];
                  [ ("id", JNum 1); ("name", JStr "Website") ] ] 2 eq_refl)
    as (_ & _ & Many & _).
  injection L as <-. injection O as <-.
  split; [exact (Single eq_refl _ eq_refl)|].
  split; [exact Below|]. split; [exact P|].
  apply Many. discriminate.
Defined.

Lemma searchText_empty_in_witness :
  snd (searchText Samples.no_match Samples.empty_in Samples.one_project_two_invites)
  = inr ([], 0).
Proof.
  refine (proj2 (@ProjectFacts.searchText_empty_in Samples.no_match
                   Samples.empty_in Samples.one_project_two_invites 20%nat 0%nat
                   eq_refl eq_refl eq_refl _ _)).
  - intros p [<-|[]]. discriminate.
  - intros e. discriminate.
Defined.

End ProjectSearchFacts.
